(** * LocalFixConnect: the storage layer ([server/storage.ts])

    A shallow embedding of the two storage backends of the marketplace,
    [MemStorage] (JavaScript [Map]s held in process memory) and [DbStorage]
    (queries against the relational service), together with the seeding
    routine of each, and the properties of the storage contract proved or
    refuted on them.

    Conventions of the embedding.
    - A TypeScript object type is a record; a field of type [T | null] or an
      optional field [f?: T] is an [option T], [None] standing for the
      nullish value ([null] or [undefined]); [Partial<T>] is the record of
      the optional fields of [T], [None] standing for an absent key.
    - A JavaScript string is a [string], the sequence of its character
      codes.  [String.prototype.toLowerCase] is a built-in of the engine: the
      functions that call it take it as the argument [toLowerCase], and
      nothing is assumed of it unless a statement says so.
    - A [Map<string, V>] is an association list in insertion order.
    - [async] methods are state transformers: nothing else runs between the
      steps of one call.
    - [randomUUID()], [new Date()] and [bcrypt.hash] read an oracle held by
      the [Runtime]; nothing is assumed of the values they return. *)

From Stdlib Require Import String Ascii List ZArith Bool Arith Lia.
Import ListNotations.
Open Scope string_scope.

(** ** JavaScript operators used by the storage layer *)

Module Js.

(** [x ?? d] *)
Definition nullish {A : Type} (x : option A) (d : A) : A :=
  match x with
  | Some v => v
  | None => d
  end.

(** [x ?? null] *)
Definition or_null {A : Type} (x : option A) : option A := x.

(** Truthiness of a string: only the empty string is falsy. *)
Definition truthy (s : string) : bool := negb (String.eqb s "").

(** [obj?.field], for an optional field of an optional object. *)
Definition chain {F A : Type} (field : F -> option A) (obj : option F)
  : option A :=
  match obj with
  | Some o => field o
  | None => None
  end.

(** One key of [{...old, ...updates}]: a key present in [updates] wins. *)
Definition spread {A : Type} (old : A) (upd : option A) : A :=
  match upd with
  | Some v => v
  | None => old
  end.

(** [String.prototype.includes]: [needle] occurs in [s] as a substring. *)
Fixpoint includes (s needle : string) : bool :=
  String.prefix needle s ||
  match s with
  | EmptyString => false
  | String _ s' => includes s' needle
  end.

(** [Array.prototype.includes] on an array of strings. *)
Definition array_includes (l : list string) (x : string) : bool :=
  existsb (String.eqb x) l.

(** [Array.prototype.find] *)
Definition find {A : Type} (f : A -> bool) (l : list A) : option A :=
  List.find f l.

(** A key that the object does not hold. *)
Definition absent {A : Type} (x : option A) : bool :=
  match x with
  | Some _ => false
  | None => true
  end.

End Js.

Notation "x ?? d" := (Js.nullish x d) (at level 45, left associativity).

(** The end of a call that may throw: the value it returns, or the message
    of the [Error] it throws. *)
Inductive Outcome (A : Type) : Type :=
  | Returned (a : A)
  | Thrown (message : string).

Arguments Returned {A} a.
Arguments Thrown {A} message.

(** [return f(await call)]: an error of [call] is passed on. *)
Definition returning {A B : Type} (f : A -> B) (o : Outcome A) : Outcome B :=
  match o with
  | Returned a => Returned (f a)
  | Thrown message => Thrown message
  end.

(** ** [Map<string, V>]

    Entries are kept in insertion order, as [Map.prototype.values]
    enumerates them.  [set] on a key already present replaces the value in
    place; [delete] reports whether the key was present.  Every map built
    from [empty] by [set] and [delete] has pairwise distinct keys; the
    operations are written so that their laws hold on every list. *)

Module JsMap.

Definition t (V : Type) : Type := list (string * V).

Definition empty {V : Type} : t V := [].

Fixpoint get {V : Type} (m : t V) (k : string) : option V :=
  match m with
  | [] => None
  | (k', v) :: m' => if String.eqb k' k then Some v else get m' k
  end.

Definition has {V : Type} (m : t V) (k : string) : bool :=
  match get m k with
  | Some _ => true
  | None => false
  end.

Fixpoint overwrite {V : Type} (m : t V) (k : string) (v : V) : t V :=
  match m with
  | [] => []
  | (k', v') :: m' =>
      (k', if String.eqb k' k then v else v') :: overwrite m' k v
  end.

Definition set {V : Type} (m : t V) (k : string) (v : V) : t V :=
  if has m k then overwrite m k v else (m ++ [(k, v)])%list.

Definition remove {V : Type} (m : t V) (k : string) : t V :=
  filter (fun e => negb (String.eqb (fst e) k)) m.

(** [Map.prototype.delete]: the answer and the map left. *)
Definition delete {V : Type} (m : t V) (k : string) : bool * t V :=
  (has m k, remove m k).

Definition values {V : Type} (m : t V) : list V := map snd m.

Definition keys {V : Type} (m : t V) : list string := map fst m.

End JsMap.

(** ** Entities ([@shared/schema])

    The storage layer imports its entity types from the schema module.  The
    records below list the attributes of the specification's data model,
    with the types the storage code gives them. *)

(** Modelled from the spec: the roles "customer", "provider" and "admin"
    of a user. *)
Inductive Role : Type := RoleCustomer | RoleProvider | RoleAdmin.

Definition Date : Type := Z.

Module User.
(** Modelled from the spec: the type [User] of [@shared/schema], with the
    attributes of the data model; [phone] is optional. *)
Record t : Type := mk {
  id : string;
  email : string;
  password : string;
  firstName : string;
  lastName : string;
  role : Role;
  phone : option string;
  createdAt : Date
}.
End User.

Module InsertUser.
(** Modelled from the spec: the type [InsertUser] of [@shared/schema]; [role]
    and [phone] may be left out. *)
Record t : Type := mk {
  email : string;
  password : string;
  firstName : string;
  lastName : string;
  role : option Role;
  phone : option string
}.
End InsertUser.

(** [Partial<User>] *)
Module PartialUser.
Record t : Type := mk {
  id : option string;
  email : option string;
  password : option string;
  firstName : option string;
  lastName : option string;
  role : option Role;
  phone : option (option string);
  createdAt : option Date
}.

Definition none : t := mk None None None None None None None None.

(** The object holds no key. *)
Definition is_empty (u : t) : bool :=
  Js.absent (id u) && Js.absent (email u) && Js.absent (password u)
  && Js.absent (firstName u) && Js.absent (lastName u) && Js.absent (role u)
  && Js.absent (phone u) && Js.absent (createdAt u).
End PartialUser.

Module ServiceCategory.
(** Modelled from the spec: the type [ServiceCategory] of
    [@shared/schema]; [description] is optional. *)
Record t : Type := mk {
  id : string;
  name : string;
  description : option string;
  icon : string;
  color : string
}.
End ServiceCategory.

Module InsertServiceCategory.
(** Modelled from the spec: the type [InsertServiceCategory] of
    [@shared/schema]. *)
Record t : Type := mk {
  name : string;
  description : option string;
  icon : string;
  color : string
}.
End InsertServiceCategory.

Module Provider.
(** Modelled from the spec: the type [Provider] of [@shared/schema], with
    the attributes of the data model; [rating] is a decimal held as a
    string, [categories] the identifiers of the provider's categories. *)
Record t : Type := mk {
  id : string;
  createdAt : Date;
  userId : string;
  specialty : string;
  location : string;
  description : option string;
  isApproved : bool;
  isAvailable : bool;
  businessName : option string;
  serviceRadius : option Z;
  hourlyRate : option string;
  rating : string;
  reviewCount : Z;
  categories : option (list string);
  availability : option string;
  profileImage : option string;
  portfolio : list string;
  certifications : list string;
  yearsExperience : option Z
}.
End Provider.

Module InsertProvider.
(** Modelled from the spec: the type [InsertProvider] of [@shared/schema],
    widened to every key [createProvider] reads from its input (those
    beyond the declared type are read through [as any]). *)
Record t : Type := mk {
  userId : string;
  specialty : string;
  location : option string;
  description : option string;
  isApproved : option bool;
  isAvailable : option bool;
  businessName : option string;
  serviceRadius : option Z;
  hourlyRate : option string;
  rating : option string;
  reviewCount : option Z;
  categories : option (list string);
  availability : option string;
  profileImage : option string;
  portfolio : option (list string);
  certifications : option (list string);
  yearsExperience : option Z
}.
End InsertProvider.

(** [Partial<Provider>] *)
Module PartialProvider.
Record t : Type := mk {
  id : option string;
  createdAt : option Date;
  userId : option string;
  specialty : option string;
  location : option string;
  description : option (option string);
  isApproved : option bool;
  isAvailable : option bool;
  businessName : option (option string);
  serviceRadius : option (option Z);
  hourlyRate : option (option string);
  rating : option string;
  reviewCount : option Z;
  categories : option (option (list string));
  availability : option (option string);
  profileImage : option (option string);
  portfolio : option (list string);
  certifications : option (list string);
  yearsExperience : option (option Z)
}.

Definition none : t :=
  mk None None None None None None None None None None
     None None None None None None None None None.

(** The object holds no key. *)
Definition is_empty (u : t) : bool :=
  Js.absent (id u) && Js.absent (createdAt u) && Js.absent (userId u)
  && Js.absent (specialty u) && Js.absent (location u)
  && Js.absent (description u) && Js.absent (isApproved u)
  && Js.absent (isAvailable u) && Js.absent (businessName u)
  && Js.absent (serviceRadius u) && Js.absent (hourlyRate u)
  && Js.absent (rating u) && Js.absent (reviewCount u)
  && Js.absent (categories u) && Js.absent (availability u)
  && Js.absent (profileImage u) && Js.absent (portfolio u)
  && Js.absent (certifications u) && Js.absent (yearsExperience u).
End PartialProvider.

Module ProviderCategory.
(** Modelled from the spec: the type [ProviderCategory] of
    [@shared/schema]. *)
Record t : Type := mk {
  id : string;
  providerId : string;
  categoryId : string
}.
End ProviderCategory.

Module InsertProviderCategory.
(** Modelled from the spec: the type [InsertProviderCategory] of
    [@shared/schema]. *)
Record t : Type := mk {
  providerId : string;
  categoryId : string
}.
End InsertProviderCategory.

Module Booking.
(** Modelled from the spec: the type [Booking] of [@shared/schema], with the
    attributes of the data model. *)
Record t : Type := mk {
  id : string;
  createdAt : Date;
  customerId : string;
  providerId : string;
  status : string;
  estimatedDuration : option Z;
  estimatedCost : option string;
  actualCost : option string;
  notes : option string
}.
End Booking.

Module InsertBooking.
(** Modelled from the spec: the type [InsertBooking] of [@shared/schema];
    all but the two parties may be left out. *)
Record t : Type := mk {
  customerId : string;
  providerId : string;
  status : option string;
  estimatedDuration : option Z;
  estimatedCost : option string;
  actualCost : option string;
  notes : option string
}.
End InsertBooking.

(** [Partial<Booking>] *)
Module PartialBooking.
Record t : Type := mk {
  id : option string;
  createdAt : option Date;
  customerId : option string;
  providerId : option string;
  status : option string;
  estimatedDuration : option (option Z);
  estimatedCost : option (option string);
  actualCost : option (option string);
  notes : option (option string)
}.

Definition none : t := mk None None None None None None None None None.

(** The object holds no key. *)
Definition is_empty (u : t) : bool :=
  Js.absent (id u) && Js.absent (createdAt u) && Js.absent (customerId u)
  && Js.absent (providerId u) && Js.absent (status u)
  && Js.absent (estimatedDuration u) && Js.absent (estimatedCost u)
  && Js.absent (actualCost u) && Js.absent (notes u).
End PartialBooking.

Module Review.
(** Modelled from the spec: the type [Review] of [@shared/schema], with the
    attributes of the data model. *)
Record t : Type := mk {
  id : string;
  createdAt : Date;
  providerId : string;
  customerId : string;
  bookingId : string;
  rating : Z;
  comment : option string;
  isVisible : bool
}.
End Review.

Module InsertReview.
(** Modelled from the spec: the type [InsertReview] of [@shared/schema];
    [comment] and [isVisible] may be left out. *)
Record t : Type := mk {
  providerId : string;
  customerId : string;
  bookingId : string;
  rating : Z;
  comment : option string;
  isVisible : option bool
}.
End InsertReview.

(** [Partial<Review>] *)
Module PartialReview.
Record t : Type := mk {
  id : option string;
  createdAt : option Date;
  providerId : option string;
  customerId : option string;
  bookingId : option string;
  rating : option Z;
  comment : option (option string);
  isVisible : option bool
}.

Definition none : t := mk None None None None None None None None.

(** The object holds no key. *)
Definition is_empty (u : t) : bool :=
  Js.absent (id u) && Js.absent (createdAt u) && Js.absent (providerId u)
  && Js.absent (customerId u) && Js.absent (bookingId u)
  && Js.absent (rating u) && Js.absent (comment u)
  && Js.absent (isVisible u).
End PartialReview.

(** The filter objects of the two listings. *)
Module ProviderFilters.
Record t : Type := mk {
  categoryId : option string;
  location : option string;
  isApproved : option bool
}.
End ProviderFilters.

Module BookingFilters.
Record t : Type := mk {
  customerId : option string;
  providerId : option string;
  status : option string
}.
End BookingFilters.

(** The summary of the linked user attached by the provider listing. *)
Module UserSummary.
Record t : Type := mk {
  id : string;
  firstName : string;
  lastName : string;
  email : string
}.
End UserSummary.

(** [{ ...provider, user: {...} | null }] *)
Module ProviderWithUser.
Record t : Type := mk {
  provider : Provider.t;
  user : option UserSummary.t
}.
End ProviderWithUser.

(** ** [{...record, ...updates}] on each entity *)

Definition merge_user (user : User.t) (updates : PartialUser.t) : User.t :=
  {| User.id := Js.spread (User.id user) (PartialUser.id updates);
     User.email := Js.spread (User.email user) (PartialUser.email updates);
     User.password :=
       Js.spread (User.password user) (PartialUser.password updates);
     User.firstName :=
       Js.spread (User.firstName user) (PartialUser.firstName updates);
     User.lastName :=
       Js.spread (User.lastName user) (PartialUser.lastName updates);
     User.role := Js.spread (User.role user) (PartialUser.role updates);
     User.phone := Js.spread (User.phone user) (PartialUser.phone updates);
     User.createdAt :=
       Js.spread (User.createdAt user) (PartialUser.createdAt updates) |}.

Definition merge_provider (p : Provider.t) (u : PartialProvider.t)
  : Provider.t :=
  {| Provider.id := Js.spread (Provider.id p) (PartialProvider.id u);
     Provider.createdAt :=
       Js.spread (Provider.createdAt p) (PartialProvider.createdAt u);
     Provider.userId :=
       Js.spread (Provider.userId p) (PartialProvider.userId u);
     Provider.specialty :=
       Js.spread (Provider.specialty p) (PartialProvider.specialty u);
     Provider.location :=
       Js.spread (Provider.location p) (PartialProvider.location u);
     Provider.description :=
       Js.spread (Provider.description p) (PartialProvider.description u);
     Provider.isApproved :=
       Js.spread (Provider.isApproved p) (PartialProvider.isApproved u);
     Provider.isAvailable :=
       Js.spread (Provider.isAvailable p) (PartialProvider.isAvailable u);
     Provider.businessName :=
       Js.spread (Provider.businessName p) (PartialProvider.businessName u);
     Provider.serviceRadius :=
       Js.spread (Provider.serviceRadius p)
                 (PartialProvider.serviceRadius u);
     Provider.hourlyRate :=
       Js.spread (Provider.hourlyRate p) (PartialProvider.hourlyRate u);
     Provider.rating :=
       Js.spread (Provider.rating p) (PartialProvider.rating u);
     Provider.reviewCount :=
       Js.spread (Provider.reviewCount p) (PartialProvider.reviewCount u);
     Provider.categories :=
       Js.spread (Provider.categories p) (PartialProvider.categories u);
     Provider.availability :=
       Js.spread (Provider.availability p) (PartialProvider.availability u);
     Provider.profileImage :=
       Js.spread (Provider.profileImage p) (PartialProvider.profileImage u);
     Provider.portfolio :=
       Js.spread (Provider.portfolio p) (PartialProvider.portfolio u);
     Provider.certifications :=
       Js.spread (Provider.certifications p)
                 (PartialProvider.certifications u);
     Provider.yearsExperience :=
       Js.spread (Provider.yearsExperience p)
                 (PartialProvider.yearsExperience u) |}.

Definition merge_booking (b : Booking.t) (u : PartialBooking.t) : Booking.t :=
  {| Booking.id := Js.spread (Booking.id b) (PartialBooking.id u);
     Booking.createdAt :=
       Js.spread (Booking.createdAt b) (PartialBooking.createdAt u);
     Booking.customerId :=
       Js.spread (Booking.customerId b) (PartialBooking.customerId u);
     Booking.providerId :=
       Js.spread (Booking.providerId b) (PartialBooking.providerId u);
     Booking.status := Js.spread (Booking.status b) (PartialBooking.status u);
     Booking.estimatedDuration :=
       Js.spread (Booking.estimatedDuration b)
                 (PartialBooking.estimatedDuration u);
     Booking.estimatedCost :=
       Js.spread (Booking.estimatedCost b) (PartialBooking.estimatedCost u);
     Booking.actualCost :=
       Js.spread (Booking.actualCost b) (PartialBooking.actualCost u);
     Booking.notes := Js.spread (Booking.notes b) (PartialBooking.notes u) |}.

Definition merge_review (r : Review.t) (u : PartialReview.t) : Review.t :=
  {| Review.id := Js.spread (Review.id r) (PartialReview.id u);
     Review.createdAt :=
       Js.spread (Review.createdAt r) (PartialReview.createdAt u);
     Review.providerId :=
       Js.spread (Review.providerId r) (PartialReview.providerId u);
     Review.customerId :=
       Js.spread (Review.customerId r) (PartialReview.customerId u);
     Review.bookingId :=
       Js.spread (Review.bookingId r) (PartialReview.bookingId u);
     Review.rating := Js.spread (Review.rating r) (PartialReview.rating u);
     Review.comment := Js.spread (Review.comment r) (PartialReview.comment u);
     Review.isVisible :=
       Js.spread (Review.isVisible r) (PartialReview.isVisible u) |}.

(** ** The runtime: identifiers, clock and password hashing

    The [n]-th call of the process to one of [randomUUID()], [new Date()]
    and [bcrypt.hash] answers what the oracle holds at [n]. *)

Record Runtime : Type := mkRuntime {
  tick : nat;
  uuid_at : nat -> string;
  date_at : nat -> Date;
  hash_at : nat -> string -> Z -> string
}.

Definition advance (rt : Runtime) : Runtime :=
  {| tick := S (tick rt);
     uuid_at := uuid_at rt;
     date_at := date_at rt;
     hash_at := hash_at rt |}.

(** A computation over the runtime and a store of type [S]. *)
Definition M (S A : Type) : Type := Runtime * S -> A * (Runtime * S).

Definition ret {S A : Type} (a : A) : M S A := fun w => (a, w).

Definition bind {S A B : Type} (c : M S A) (k : A -> M S B) : M S B :=
  fun w => let (a, w') := c w in k a w'.

Notation "x <- c ;; k" := (bind c (fun x => k))
  (at level 61, c at next level, right associativity).
Notation "c ;;; k" := (bind c (fun _ => k))
  (at level 61, right associativity).

Definition randomUUID {S : Type} : M S string :=
  fun w => (uuid_at (fst w) (tick (fst w)), (advance (fst w), snd w)).

Definition new_Date {S : Type} : M S Date :=
  fun w => (date_at (fst w) (tick (fst w)), (advance (fst w), snd w)).

Definition bcrypt_hash {S : Type} (data : string) (rounds : Z) : M S string :=
  fun w =>
    (hash_at (fst w) (tick (fst w)) data rounds, (advance (fst w), snd w)).

(** Reading [this], and running a step that touches only the store. *)
Definition this {S : Type} : M S S := fun w => (snd w, w).

Definition on_store {S A : Type} (f : S -> A * S) : M S A :=
  fun w => let (a, s') := f (snd w) in (a, (fst w, s')).

(** [for (const x of l) { await body(x) }] *)
Fixpoint for_of {S A : Type} (l : list A) (body : A -> M S unit) : M S unit :=
  match l with
  | [] => ret tt
  | x :: l' => body x ;;; for_of l' body
  end.

(** [for (const x of l) { await body(x) }] where [body] may throw: the
    first error ends the loop and is the outcome of it. *)
Fixpoint for_await {S A : Type} (l : list A)
  (body : A -> M S (Outcome unit)) : M S (Outcome unit) :=
  match l with
  | [] => ret (Returned tt)
  | x :: l' =>
      r <- body x ;;
      match r with
      | Returned _ => for_await l' body
      | Thrown message => ret (Thrown message)
      end
  end.

(** The computation keeps the property [I] of the store. *)
Definition preserves {S A : Type} (I : S -> Prop) (c : M S A) : Prop :=
  forall w, I (snd w) -> I (snd (snd (c w))).

(** ** Seed data shared by the two initializers *)

Module SampleProvider.
Record t : Type := mk {
  email : string;
  password : string;
  firstName : string;
  lastName : string;
  role : Role;
  specialty : string;
  location : string;
  description : string;
  hourlyRate : string;
  isApproved : bool;
  rating : string;
  reviewCount : Z;
  categories : list string
}.
End SampleProvider.

Definition seed_categories : list InsertServiceCategory.t :=
  [ InsertServiceCategory.mk "Electrical"
      (Some "Wiring, repairs, installations") "zap" "blue";
    InsertServiceCategory.mk "Plumbing"
      (Some "Pipes, fixtures, emergency repairs") "wrench" "green";
    InsertServiceCategory.mk "Carpentry"
      (Some "Custom work, repairs, installations") "hammer" "amber";
    InsertServiceCategory.mk "HVAC"
      (Some "Heating, cooling, ventilation") "thermometer" "purple";
    InsertServiceCategory.mk "General Contracting"
      (Some "Home improvements, renovations") "building" "red";
    InsertServiceCategory.mk "Landscaping"
      (Some "Garden design, lawn care") "leaf" "teal";
    InsertServiceCategory.mk "Painting"
      (Some "Interior, exterior, touch-ups") "paintbrush" "orange";
    InsertServiceCategory.mk "Cleaning Services"
      (Some "House cleaning, deep cleaning") "spray" "gray" ].

(** [cat ? [cat.id] : []] *)
Definition category_ids (cat : option ServiceCategory.t) : list string :=
  match cat with
  | Some c => [ServiceCategory.id c]
  | None => []
  end.

Definition named (n : string) (c : ServiceCategory.t) : bool :=
  String.eqb (ServiceCategory.name c) n.

(** ** The in-memory backend *)

Module MemStorage.

Record t : Type := mk {
  users : JsMap.t User.t;
  serviceCategories : JsMap.t ServiceCategory.t;
  providers : JsMap.t Provider.t;
  providerCategories : JsMap.t ProviderCategory.t;
  bookings : JsMap.t Booking.t;
  reviews : JsMap.t Review.t
}.

(** The fields of a freshly constructed object. *)
Definition empty : t :=
  mk JsMap.empty JsMap.empty JsMap.empty JsMap.empty JsMap.empty JsMap.empty.

Definition with_users (m : JsMap.t User.t) (s : t) : t :=
  mk m (serviceCategories s) (providers s) (providerCategories s)
     (bookings s) (reviews s).

Definition with_serviceCategories (m : JsMap.t ServiceCategory.t) (s : t)
  : t :=
  mk (users s) m (providers s) (providerCategories s)
     (bookings s) (reviews s).

Definition with_providers (m : JsMap.t Provider.t) (s : t) : t :=
  mk (users s) (serviceCategories s) m (providerCategories s)
     (bookings s) (reviews s).

Definition with_providerCategories (m : JsMap.t ProviderCategory.t) (s : t)
  : t :=
  mk (users s) (serviceCategories s) (providers s) m
     (bookings s) (reviews s).

Definition with_bookings (m : JsMap.t Booking.t) (s : t) : t :=
  mk (users s) (serviceCategories s) (providers s) (providerCategories s)
     m (reviews s).

Definition with_reviews (m : JsMap.t Review.t) (s : t) : t :=
  mk (users s) (serviceCategories s) (providers s) (providerCategories s)
     (bookings s) m.

(** *** User methods *)

Definition getUser (id : string) (s : t) : option User.t :=
  JsMap.get (users s) id.

Definition getUserByEmail (email : string) (s : t) : option User.t :=
  Js.find (fun user => String.eqb (User.email user) email)
          (JsMap.values (users s)).

Definition getAllUsers (s : t) : list User.t := JsMap.values (users s).

Definition createUser (insertUser : InsertUser.t) : M t User.t :=
  id <- randomUUID ;;
  now <- new_Date ;;
  let user :=
    {| User.email := InsertUser.email insertUser;
       User.password := InsertUser.password insertUser;
       User.firstName := InsertUser.firstName insertUser;
       User.lastName := InsertUser.lastName insertUser;
       User.id := id;
       User.createdAt := now;
       User.phone := Js.or_null (InsertUser.phone insertUser);
       User.role := InsertUser.role insertUser ?? RoleCustomer |} in
  on_store (fun s => (user, with_users (JsMap.set (users s) id user) s)).

Definition updateUser (id : string) (updates : PartialUser.t) (s : t)
  : option User.t * t :=
  match JsMap.get (users s) id with
  | None => (None, s)
  | Some user =>
      let updatedUser := merge_user user updates in
      (Some updatedUser,
       with_users (JsMap.set (users s) id updatedUser) s)
  end.

(** *** Service category methods *)

Definition getServiceCategories (s : t) : list ServiceCategory.t :=
  JsMap.values (serviceCategories s).

Definition createServiceCategory (category : InsertServiceCategory.t)
  : M t ServiceCategory.t :=
  id <- randomUUID ;;
  let serviceCategory :=
    {| ServiceCategory.name := InsertServiceCategory.name category;
       ServiceCategory.icon := InsertServiceCategory.icon category;
       ServiceCategory.color := InsertServiceCategory.color category;
       ServiceCategory.id := id;
       ServiceCategory.description :=
         Js.or_null (InsertServiceCategory.description category) |} in
  on_store (fun s =>
    (serviceCategory,
     with_serviceCategories
       (JsMap.set (serviceCategories s) id serviceCategory) s)).

(** *** Provider methods *)

Definition getProvider (id : string) (s : t) : option Provider.t :=
  JsMap.get (providers s) id.

Definition getProviderByUserId (userId : string) (s : t)
  : option Provider.t :=
  Js.find (fun p => String.eqb (Provider.userId p) userId)
          (JsMap.values (providers s)).

(** The [map] step of [getProviders]: the linked user's summary, or
    [null]. *)
Definition with_user (s : t) (p : Provider.t) : ProviderWithUser.t :=
  let user := JsMap.get (users s) (Provider.userId p) in
  {| ProviderWithUser.provider := p;
     ProviderWithUser.user :=
       match user with
       | Some user =>
           Some {| UserSummary.id := User.id user;
                   UserSummary.firstName := User.firstName user;
                   UserSummary.lastName := User.lastName user;
                   UserSummary.email := User.email user |}
       | None => None
       end |}.

Section Listing.

(** [String.prototype.toLowerCase], as the engine provides it. *)
Variable toLowerCase : string -> string.

Definition getProviders (filters : option ProviderFilters.t) (s : t)
  : list ProviderWithUser.t :=
  let providers := JsMap.values (providers s) in
  let providersWithUsers := map (with_user s) providers in
  let filteredProviders := providersWithUsers in
  let filteredProviders :=
    match Js.chain ProviderFilters.isApproved filters with
    | Some isApproved =>
        filter (fun p =>
                  Bool.eqb (Provider.isApproved (ProviderWithUser.provider p))
                           isApproved)
               filteredProviders
    | None => filteredProviders
    end in
  let filteredProviders :=
    match Js.chain ProviderFilters.location filters with
    | Some location =>
        if Js.truthy location then
          filter (fun p =>
                    Js.includes
                      (toLowerCase
                         (Provider.location (ProviderWithUser.provider p)))
                      (toLowerCase location))
                 filteredProviders
        else filteredProviders
    | None => filteredProviders
    end in
  let filteredProviders :=
    match Js.chain ProviderFilters.categoryId filters with
    | Some categoryId =>
        if Js.truthy categoryId then
          filter (fun p =>
                    match Provider.categories (ProviderWithUser.provider p)
                    with
                    | Some categories =>
                        Js.array_includes categories categoryId
                    | None => false
                    end)
                 filteredProviders
        else filteredProviders
    | None => filteredProviders
    end in
  filteredProviders.

End Listing.

Definition createProvider (provider : InsertProvider.t)
  : M t Provider.t :=
  id <- randomUUID ;;
  now <- new_Date ;;
  let newProvider :=
    {| Provider.id := id;
       Provider.createdAt := now;
       Provider.userId := InsertProvider.userId provider;
       Provider.specialty := InsertProvider.specialty provider;
       Provider.location := InsertProvider.location provider ?? "";
       Provider.description :=
         Js.or_null (InsertProvider.description provider);
       Provider.isApproved := InsertProvider.isApproved provider ?? false;
       Provider.isAvailable := InsertProvider.isAvailable provider ?? true;
       Provider.businessName :=
         Js.or_null (InsertProvider.businessName provider);
       Provider.serviceRadius :=
         Js.or_null (InsertProvider.serviceRadius provider);
       Provider.hourlyRate :=
         Js.or_null (InsertProvider.hourlyRate provider);
       Provider.rating := InsertProvider.rating provider ?? "0";
       Provider.reviewCount := InsertProvider.reviewCount provider ?? 0%Z;
       Provider.categories :=
         Some (InsertProvider.categories provider ?? []);
       Provider.availability :=
         Js.or_null (InsertProvider.availability provider);
       Provider.profileImage :=
         Js.or_null (InsertProvider.profileImage provider);
       Provider.portfolio := InsertProvider.portfolio provider ?? [];
       Provider.certifications :=
         InsertProvider.certifications provider ?? [];
       Provider.yearsExperience :=
         Js.or_null (InsertProvider.yearsExperience provider) |} in
  on_store (fun s =>
    (newProvider,
     with_providers (JsMap.set (providers s) id newProvider) s)).

Definition updateProvider (id : string) (updates : PartialProvider.t)
  (s : t) : option Provider.t * t :=
  match JsMap.get (providers s) id with
  | None => (None, s)
  | Some provider =>
      let updatedProvider := merge_provider provider updates in
      (Some updatedProvider,
       with_providers (JsMap.set (providers s) id updatedProvider) s)
  end.

(** *** Provider category methods *)

Definition getProviderCategories (providerId : string) (s : t)
  : list ProviderCategory.t :=
  filter (fun pc => String.eqb (ProviderCategory.providerId pc) providerId)
         (JsMap.values (providerCategories s)).

Definition createProviderCategory (pc : InsertProviderCategory.t)
  : M t ProviderCategory.t :=
  id <- randomUUID ;;
  let providerCategory :=
    {| ProviderCategory.providerId := InsertProviderCategory.providerId pc;
       ProviderCategory.categoryId := InsertProviderCategory.categoryId pc;
       ProviderCategory.id := id |} in
  on_store (fun s =>
    (providerCategory,
     with_providerCategories
       (JsMap.set (providerCategories s) id providerCategory) s)).

(** *** Booking methods *)

Definition getBooking (id : string) (s : t) : option Booking.t :=
  JsMap.get (bookings s) id.

Definition getBookings (filters : option BookingFilters.t) (s : t)
  : list Booking.t :=
  let bookings := JsMap.values (bookings s) in
  let bookings :=
    match Js.chain BookingFilters.customerId filters with
    | Some customerId =>
        if Js.truthy customerId then
          filter (fun b => String.eqb (Booking.customerId b) customerId)
                 bookings
        else bookings
    | None => bookings
    end in
  let bookings :=
    match Js.chain BookingFilters.providerId filters with
    | Some providerId =>
        if Js.truthy providerId then
          filter (fun b => String.eqb (Booking.providerId b) providerId)
                 bookings
        else bookings
    | None => bookings
    end in
  let bookings :=
    match Js.chain BookingFilters.status filters with
    | Some status =>
        if Js.truthy status then
          filter (fun b => String.eqb (Booking.status b) status) bookings
        else bookings
    | None => bookings
    end in
  bookings.

Definition createBooking (booking : InsertBooking.t) : M t Booking.t :=
  id <- randomUUID ;;
  now <- new_Date ;;
  let newBooking :=
    {| Booking.customerId := InsertBooking.customerId booking;
       Booking.providerId := InsertBooking.providerId booking;
       Booking.id := id;
       Booking.createdAt := now;
       Booking.status := InsertBooking.status booking ?? "pending";
       Booking.estimatedDuration :=
         Js.or_null (InsertBooking.estimatedDuration booking);
       Booking.estimatedCost :=
         Js.or_null (InsertBooking.estimatedCost booking);
       Booking.actualCost := Js.or_null (InsertBooking.actualCost booking);
       Booking.notes := Js.or_null (InsertBooking.notes booking) |} in
  on_store (fun s =>
    (newBooking, with_bookings (JsMap.set (bookings s) id newBooking) s)).

Definition updateBooking (id : string) (updates : PartialBooking.t) (s : t)
  : option Booking.t * t :=
  match JsMap.get (bookings s) id with
  | None => (None, s)
  | Some booking =>
      let updatedBooking := merge_booking booking updates in
      (Some updatedBooking,
       with_bookings (JsMap.set (bookings s) id updatedBooking) s)
  end.

(** *** Review methods *)

Definition getReviews (providerId : string) (s : t) : list Review.t :=
  filter (fun r => String.eqb (Review.providerId r) providerId
                   && Review.isVisible r)
         (JsMap.values (reviews s)).

Definition createReview (review : InsertReview.t) : M t Review.t :=
  id <- randomUUID ;;
  now <- new_Date ;;
  let newReview :=
    {| Review.id := id;
       Review.createdAt := now;
       Review.providerId := InsertReview.providerId review;
       Review.customerId := InsertReview.customerId review;
       Review.bookingId := InsertReview.bookingId review;
       Review.rating := InsertReview.rating review;
       Review.comment := Js.or_null (InsertReview.comment review);
       Review.isVisible := InsertReview.isVisible review ?? true |} in
  on_store (fun s =>
    (newReview, with_reviews (JsMap.set (reviews s) id newReview) s)).

Definition updateReview (id : string) (updates : PartialReview.t) (s : t)
  : option Review.t * t :=
  match JsMap.get (reviews s) id with
  | None => (None, s)
  | Some review =>
      let updatedReview := merge_review review updates in
      (Some updatedReview,
       with_reviews (JsMap.set (reviews s) id updatedReview) s)
  end.

Definition deleteReview (id : string) (s : t) : bool * t :=
  let (existed, m) := JsMap.delete (reviews s) id in
  (existed, with_reviews m s).

(** *** Seeding *)

Definition sampleProviders (pw1 pw2 pw3 : string)
  (electricalCat plumbingCat carpentryCat : option ServiceCategory.t)
  : list SampleProvider.t :=
  [ {| SampleProvider.email := "mike@example.com";
       SampleProvider.password := pw1;
       SampleProvider.firstName := "Mike";
       SampleProvider.lastName := "Thompson";
       SampleProvider.role := RoleProvider;
       SampleProvider.specialty := "Licensed Electrician";
       SampleProvider.location := "Downtown Area";
       SampleProvider.description :=
         "15+ years experience in residential and commercial electrical work. Available for emergency calls.";
       SampleProvider.hourlyRate := "85.00";
       SampleProvider.isApproved := true;
       SampleProvider.rating := "4.9";
       SampleProvider.reviewCount := 127%Z;
       SampleProvider.categories := category_ids electricalCat |};
    {| SampleProvider.email := "sarah@example.com";
       SampleProvider.password := pw2;
       SampleProvider.firstName := "Sarah";
       SampleProvider.lastName := "Martinez";
       SampleProvider.role := RoleProvider;
       SampleProvider.specialty := "Master Plumber";
       SampleProvider.location := "North Side";
       SampleProvider.description :=
         "Specializing in emergency repairs, fixture installations, and water heater services. Fast response time.";
       SampleProvider.hourlyRate := "95.00";
       SampleProvider.isApproved := true;
       SampleProvider.rating := "4.8";
       SampleProvider.reviewCount := 94%Z;
       SampleProvider.categories := category_ids plumbingCat |};
    {| SampleProvider.email := "david@example.com";
       SampleProvider.password := pw3;
       SampleProvider.firstName := "David";
       SampleProvider.lastName := "Chen";
       SampleProvider.role := RoleProvider;
       SampleProvider.specialty := "Custom Carpenter";
       SampleProvider.location := "West End";
       SampleProvider.description :=
         "Custom furniture, cabinetry, and home improvements. Meticulous attention to detail and craftsmanship.";
       SampleProvider.hourlyRate := "75.00";
       SampleProvider.isApproved := true;
       SampleProvider.rating := "5.0";
       SampleProvider.reviewCount := 73%Z;
       SampleProvider.categories := category_ids carpentryCat |} ].

(** The body of the loop over [sampleProviders]: the user, then the
    provider, created from the fields of [InsertProvider] only. *)
Definition seed_provider (providerData : SampleProvider.t) : M t unit :=
  user <- createUser
    {| InsertUser.email := SampleProvider.email providerData;
       InsertUser.password := SampleProvider.password providerData;
       InsertUser.firstName := SampleProvider.firstName providerData;
       InsertUser.lastName := SampleProvider.lastName providerData;
       InsertUser.role := Some (SampleProvider.role providerData);
       InsertUser.phone := None |} ;;
  createProvider
    {| InsertProvider.userId := User.id user;
       InsertProvider.specialty := SampleProvider.specialty providerData;
       InsertProvider.location :=
         Some (SampleProvider.location providerData);
       InsertProvider.description :=
         Some (SampleProvider.description providerData);
       InsertProvider.hourlyRate :=
         Some (SampleProvider.hourlyRate providerData);
       InsertProvider.isApproved :=
         Some (SampleProvider.isApproved providerData);
       InsertProvider.categories :=
         Some (SampleProvider.categories providerData);
       InsertProvider.isAvailable := None;
       InsertProvider.businessName := None;
       InsertProvider.serviceRadius := None;
       InsertProvider.rating := None;
       InsertProvider.reviewCount := None;
       InsertProvider.availability := None;
       InsertProvider.profileImage := None;
       InsertProvider.portfolio := None;
       InsertProvider.certifications := None;
       InsertProvider.yearsExperience := None |} ;;;
  ret tt.

Definition initializeSeedData : M t unit :=
  for_of seed_categories
    (fun cat => createServiceCategory cat ;;; ret tt) ;;;
  hashedPassword <- bcrypt_hash "admin123" 10 ;;
  createUser
    {| InsertUser.email := "admin@localfix.com";
       InsertUser.password := hashedPassword;
       InsertUser.firstName := "Admin";
       InsertUser.lastName := "User";
       InsertUser.role := Some RoleAdmin;
       InsertUser.phone := None |} ;;;
  s <- this ;;
  let electricalCat :=
    Js.find (named "Electrical") (JsMap.values (serviceCategories s)) in
  let plumbingCat :=
    Js.find (named "Plumbing") (JsMap.values (serviceCategories s)) in
  let carpentryCat :=
    Js.find (named "Carpentry") (JsMap.values (serviceCategories s)) in
  pw1 <- bcrypt_hash "password123" 10 ;;
  pw2 <- bcrypt_hash "password123" 10 ;;
  pw3 <- bcrypt_hash "password123" 10 ;;
  for_of (sampleProviders pw1 pw2 pw3 electricalCat plumbingCat carpentryCat)
    seed_provider.

(** The runtime and the store once [initializeSeedData], started on the
    empty maps of a new object, has run to its end with no other call in
    between.  (The constructor starts the initializer and returns without
    awaiting it: the object it hands out is not yet in this state.) *)
Definition seeded (rt : Runtime) : Runtime * t :=
  snd (initializeSeedData (rt, empty)).

End MemStorage.

(** ** The query builder

    A table is the list of its rows in the order in which a [select]
    without [orderBy] lists them: an inserted row comes last, and so does a
    row that an update has rewritten.  A condition is a predicate on rows.
    The builder refuses an update that sets no column.  The relational
    service accepts every statement it receives: the constraints of the
    tables are not modelled. *)

Module Drizzle.

Definition table (R : Type) : Type := list R.

(** [db.select().from(table)] *)
Definition select_from {R : Type} (tbl : table R) : list R := tbl.

(** [query.where(cond)] *)
Definition where_ {R : Type} (cond : R -> bool) (rows : list R) : list R :=
  filter cond rows.

(** [eq(column, value)] on a text column *)
Definition eq {R : Type} (column : R -> string) (value : string)
  : R -> bool :=
  fun r => String.eqb (column r) value.

(** [eq(column, value)] on a boolean column *)
Definition eq_bool {R : Type} (column : R -> bool) (value : bool)
  : R -> bool :=
  fun r => Bool.eqb (column r) value.

(** [and(...conditions)] *)
Definition and_ {R : Type} (conditions : list (R -> bool)) : R -> bool :=
  fun r => forallb (fun cond => cond r) conditions.

(** [db.insert(table).values(row).returning()]: the table after it; the
    returned list is the one inserted row. *)
Definition insert {R : Type} (tbl : table R) (row : R) : table R :=
  (tbl ++ [row])%list.

(** [db.update(table).set(values).where(cond).returning()]: the updated
    rows and the table after it.  [no_values] tells that [values] holds no
    key, [set] is the effect of [values] on a row.  [set] throws on an object
    without keys, before any statement is sent. *)
Definition update {R : Type} (tbl : table R) (no_values : bool)
  (set : R -> R) (cond : R -> bool) : Outcome (list R) * table R :=
  if no_values then (Thrown "No values to set", tbl)
  else
    let updated := map set (filter cond tbl) in
    (Returned updated,
     (filter (fun r => negb (cond r)) tbl ++ updated)%list).

(** [db.delete(table).where(cond).returning()]: the deleted rows and the
    table after it. *)
Definition delete {R : Type} (tbl : table R) (cond : R -> bool)
  : list R * table R :=
  (filter cond tbl, filter (fun r => negb (cond r)) tbl).

(** [result[0]] *)
Definition first {R : Type} (result : list R) : option R := hd_error result.

(** [result.length > 0] *)
Definition nonempty {R : Type} (result : list R) : bool :=
  (0 <? length result)%nat.

End Drizzle.

(** ** Column defaults of the tables

    The tables are declared in the schema module.  The row an insert stores takes, column by column, the value supplied
    and else the default of the data model (role "customer", rating "0",
    review count 0, visible reviews, absent optional values); its
    identifier and creation time are generated by the relational
    service. *)

Module Schema.

(** Modelled from the spec: the row of the table [users] stored for the
    values [v]. *)
Definition users (id : string) (createdAt : Date) (v : InsertUser.t)
  : User.t :=
  {| User.id := id;
     User.email := InsertUser.email v;
     User.password := InsertUser.password v;
     User.firstName := InsertUser.firstName v;
     User.lastName := InsertUser.lastName v;
     User.role := InsertUser.role v ?? RoleCustomer;
     User.phone := InsertUser.phone v;
     User.createdAt := createdAt |}.

(** Modelled from the spec: the row of the table [serviceCategories]
    stored for the values [v]. *)
Definition serviceCategories (id : string) (v : InsertServiceCategory.t)
  : ServiceCategory.t :=
  {| ServiceCategory.id := id;
     ServiceCategory.name := InsertServiceCategory.name v;
     ServiceCategory.description := InsertServiceCategory.description v;
     ServiceCategory.icon := InsertServiceCategory.icon v;
     ServiceCategory.color := InsertServiceCategory.color v |}.

(** Modelled from the spec: the row of the table [providers] stored for
    the values [v]. *)
Definition providers (id : string) (createdAt : Date) (v : InsertProvider.t)
  : Provider.t :=
  {| Provider.id := id;
     Provider.createdAt := createdAt;
     Provider.userId := InsertProvider.userId v;
     Provider.specialty := InsertProvider.specialty v;
     Provider.location := InsertProvider.location v ?? "";
     Provider.description := InsertProvider.description v;
     Provider.isApproved := InsertProvider.isApproved v ?? false;
     Provider.isAvailable := InsertProvider.isAvailable v ?? true;
     Provider.businessName := InsertProvider.businessName v;
     Provider.serviceRadius := InsertProvider.serviceRadius v;
     Provider.hourlyRate := InsertProvider.hourlyRate v;
     Provider.rating := InsertProvider.rating v ?? "0";
     Provider.reviewCount := InsertProvider.reviewCount v ?? 0%Z;
     Provider.categories := InsertProvider.categories v;
     Provider.availability := InsertProvider.availability v;
     Provider.profileImage := InsertProvider.profileImage v;
     Provider.portfolio := InsertProvider.portfolio v ?? [];
     Provider.certifications := InsertProvider.certifications v ?? [];
     Provider.yearsExperience := InsertProvider.yearsExperience v |}.

(** Modelled from the spec: the row of the table [reviews] stored for the
    values [v]. *)
Definition reviews (id : string) (createdAt : Date) (v : InsertReview.t)
  : Review.t :=
  {| Review.id := id;
     Review.createdAt := createdAt;
     Review.providerId := InsertReview.providerId v;
     Review.customerId := InsertReview.customerId v;
     Review.bookingId := InsertReview.bookingId v;
     Review.rating := InsertReview.rating v;
     Review.comment := InsertReview.comment v;
     Review.isVisible := InsertReview.isVisible v ?? true |}.

(** Modelled from the spec: the row of the table [providerCategories]
    stored for the values [v]. *)
Definition providerCategories (id : string) (v : InsertProviderCategory.t)
  : ProviderCategory.t :=
  {| ProviderCategory.id := id;
     ProviderCategory.providerId := InsertProviderCategory.providerId v;
     ProviderCategory.categoryId := InsertProviderCategory.categoryId v |}.

(** Modelled from the spec: the row of the table [bookings] stored for the
    values [v]; the status defaults to "pending". *)
Definition bookings (id : string) (createdAt : Date) (v : InsertBooking.t)
  : Booking.t :=
  {| Booking.id := id;
     Booking.createdAt := createdAt;
     Booking.customerId := InsertBooking.customerId v;
     Booking.providerId := InsertBooking.providerId v;
     Booking.status := InsertBooking.status v ?? "pending";
     Booking.estimatedDuration := InsertBooking.estimatedDuration v;
     Booking.estimatedCost := InsertBooking.estimatedCost v;
     Booking.actualCost := InsertBooking.actualCost v;
     Booking.notes := InsertBooking.notes v |}.

End Schema.

(** ** The relational backend *)

Module DbStorage.

(** The tables behind [db]. *)
Record Database : Type := mkDatabase {
  users : Drizzle.table User.t;
  serviceCategories : Drizzle.table ServiceCategory.t;
  providers : Drizzle.table Provider.t;
  providerCategories : Drizzle.table ProviderCategory.t;
  bookings : Drizzle.table Booking.t;
  reviews : Drizzle.table Review.t
}.

Definition empty : Database := mkDatabase [] [] [] [] [] [].

Definition with_users (tbl : Drizzle.table User.t) (db : Database)
  : Database :=
  mkDatabase tbl (serviceCategories db) (providers db)
             (providerCategories db) (bookings db) (reviews db).

Definition with_serviceCategories (tbl : Drizzle.table ServiceCategory.t)
  (db : Database) : Database :=
  mkDatabase (users db) tbl (providers db)
             (providerCategories db) (bookings db) (reviews db).

Definition with_providers (tbl : Drizzle.table Provider.t) (db : Database)
  : Database :=
  mkDatabase (users db) (serviceCategories db) tbl
             (providerCategories db) (bookings db) (reviews db).

Definition with_bookings (tbl : Drizzle.table Booking.t) (db : Database)
  : Database :=
  mkDatabase (users db) (serviceCategories db) (providers db)
             (providerCategories db) tbl (reviews db).

Definition with_reviews (tbl : Drizzle.table Review.t) (db : Database)
  : Database :=
  mkDatabase (users db) (serviceCategories db) (providers db)
             (providerCategories db) (bookings db) tbl.

(** *** User methods *)

Definition getUser (id : string) (db : Database) : option User.t :=
  Drizzle.first
    (Drizzle.where_ (Drizzle.eq User.id id)
                    (Drizzle.select_from (users db))).

Definition getAllUsers (db : Database) : list User.t :=
  Drizzle.select_from (users db).

Definition createUser (user : InsertUser.t) : M Database User.t :=
  id <- randomUUID ;;
  now <- new_Date ;;
  let row := Schema.users id now user in
  on_store (fun db => (row, with_users (Drizzle.insert (users db) row) db)).

Definition updateUser (id : string) (updates : PartialUser.t)
  (db : Database) : Outcome (option User.t) * Database :=
  let (result, tbl) :=
    Drizzle.update (users db)
                   (PartialUser.is_empty updates)
                   (fun row => merge_user row updates)
                   (Drizzle.eq User.id id) in
  (returning Drizzle.first result, with_users tbl db).

(** *** Service category methods *)

Definition getServiceCategories (db : Database) : list ServiceCategory.t :=
  Drizzle.select_from (serviceCategories db).

Definition createServiceCategory (category : InsertServiceCategory.t)
  : M Database ServiceCategory.t :=
  id <- randomUUID ;;
  let row := Schema.serviceCategories id category in
  on_store (fun db =>
    (row,
     with_serviceCategories (Drizzle.insert (serviceCategories db) row) db)).

(** *** Provider methods *)

Definition getProvider (id : string) (db : Database) : option Provider.t :=
  Drizzle.first
    (Drizzle.where_ (Drizzle.eq Provider.id id)
                    (Drizzle.select_from (providers db))).

Section Listing.

(** The relational service's [LIKE]: [like s pattern]. *)
Variable like : string -> string -> bool.

Definition getProviders (filters : option ProviderFilters.t)
  (db : Database) : list Provider.t :=
  let query := Drizzle.select_from (providers db) in
  let conditions : list (Provider.t -> bool) := [] in
  let conditions :=
    match Js.chain ProviderFilters.isApproved filters with
    | Some isApproved =>
        (conditions
           ++ [Drizzle.eq_bool Provider.isApproved isApproved])%list
    | None => conditions
    end in
  let conditions :=
    match Js.chain ProviderFilters.location filters with
    | Some location =>
        if Js.truthy location then
          (conditions
             ++ [fun p => like (Provider.location p)
                               ("%" ++ location ++ "%")])%list
        else conditions
    | None => conditions
    end in
  let query :=
    if (0 <? length conditions)%nat
    then Drizzle.where_ (Drizzle.and_ conditions) query
    else query in
  let allProviders := query in
  match Js.chain ProviderFilters.categoryId filters with
  | Some categoryId =>
      if Js.truthy categoryId then
        filter (fun p =>
                  match Provider.categories p with
                  | Some categories =>
                      Js.array_includes categories categoryId
                  | None => false
                  end)
               allProviders
      else allProviders
  | None => allProviders
  end.

End Listing.

Definition createProvider (provider : InsertProvider.t)
  : M Database Provider.t :=
  id <- randomUUID ;;
  now <- new_Date ;;
  let row := Schema.providers id now provider in
  on_store (fun db =>
    (row, with_providers (Drizzle.insert (providers db) row) db)).

Definition updateProvider (id : string) (updates : PartialProvider.t)
  (db : Database) : Outcome (option Provider.t) * Database :=
  let (result, tbl) :=
    Drizzle.update (providers db)
                   (PartialProvider.is_empty updates)
                   (fun row => merge_provider row updates)
                   (Drizzle.eq Provider.id id) in
  (returning Drizzle.first result, with_providers tbl db).

(** *** Booking methods *)

Definition getBooking (id : string) (db : Database) : option Booking.t :=
  Drizzle.first
    (Drizzle.where_ (Drizzle.eq Booking.id id)
                    (Drizzle.select_from (bookings db))).

Definition updateBooking (id : string) (updates : PartialBooking.t)
  (db : Database) : Outcome (option Booking.t) * Database :=
  let (result, tbl) :=
    Drizzle.update (bookings db)
                   (PartialBooking.is_empty updates)
                   (fun row => merge_booking row updates)
                   (Drizzle.eq Booking.id id) in
  (returning Drizzle.first result, with_bookings tbl db).

(** *** Review methods *)

Definition getReviews (providerId : string) (db : Database)
  : list Review.t :=
  Drizzle.where_ (Drizzle.eq Review.providerId providerId)
                 (Drizzle.select_from (reviews db)).

Definition createReview (review : InsertReview.t) : M Database Review.t :=
  id <- randomUUID ;;
  now <- new_Date ;;
  let row := Schema.reviews id now review in
  on_store (fun db =>
    (row, with_reviews (Drizzle.insert (reviews db) row) db)).

Definition updateReview (id : string) (updates : PartialReview.t)
  (db : Database) : Outcome (option Review.t) * Database :=
  let (result, tbl) :=
    Drizzle.update (reviews db)
                   (PartialReview.is_empty updates)
                   (fun row => merge_review row updates)
                   (Drizzle.eq Review.id id) in
  (returning Drizzle.first result, with_reviews tbl db).

Definition deleteReview (id : string) (db : Database) : bool * Database :=
  let (result, tbl) :=
    Drizzle.delete (reviews db) (Drizzle.eq Review.id id) in
  (Drizzle.nonempty result, with_reviews tbl db).

(** *** Seeding *)

Definition sampleProviders (pw1 pw2 pw3 : string)
  (electricalCat plumbingCat carpentryCat : option ServiceCategory.t)
  : list SampleProvider.t :=
  [ {| SampleProvider.email := "mike@example.com";
       SampleProvider.password := pw1;
       SampleProvider.firstName := "Mike";
       SampleProvider.lastName := "Thompson";
       SampleProvider.role := RoleProvider;
       SampleProvider.specialty := "Licensed Electrician";
       SampleProvider.location := "Downtown Area";
       SampleProvider.description :=
         "15+ years experience in residential and commercial electrical work. Available for emergency calls.";
       SampleProvider.hourlyRate := "85.00";
       SampleProvider.isApproved := true;
       SampleProvider.rating := "4.9";
       SampleProvider.reviewCount := 127%Z;
       SampleProvider.categories := category_ids electricalCat |};
    {| SampleProvider.email := "sarah@example.com";
       SampleProvider.password := pw2;
       SampleProvider.firstName := "Sarah";
       SampleProvider.lastName := "Martinez";
       SampleProvider.role := RoleProvider;
       SampleProvider.specialty := "Master Plumber";
       SampleProvider.location := "North Side";
       SampleProvider.description :=
         "Specializing in emergency repairs, fixture installations, and water heater services. Fast response time.";
       SampleProvider.hourlyRate := "95.00";
       SampleProvider.isApproved := true;
       SampleProvider.rating := "4.8";
       SampleProvider.reviewCount := 93%Z;
       SampleProvider.categories := category_ids plumbingCat |};
    {| SampleProvider.email := "david@example.com";
       SampleProvider.password := pw3;
       SampleProvider.firstName := "David";
       SampleProvider.lastName := "Chen";
       SampleProvider.role := RoleProvider;
       SampleProvider.specialty := "Master Carpenter";
       SampleProvider.location := "West End";
       SampleProvider.description :=
         "Custom furniture, deck building, and general carpentry. Quality craftsmanship guaranteed.";
       SampleProvider.hourlyRate := "75.00";
       SampleProvider.isApproved := true;
       SampleProvider.rating := "5.0";
       SampleProvider.reviewCount := 45%Z;
       SampleProvider.categories := category_ids carpentryCat |} ].

(** The body of the loop over [sampleProviders]; the insert of the user
    keeps the columns of the users table out of [userData]. *)
Definition seed_provider (providerData : SampleProvider.t)
  : M Database (Outcome unit) :=
  let cats := SampleProvider.categories providerData in
  user <- createUser
    {| InsertUser.email := SampleProvider.email providerData;
       InsertUser.password := SampleProvider.password providerData;
       InsertUser.firstName := SampleProvider.firstName providerData;
       InsertUser.lastName := SampleProvider.lastName providerData;
       InsertUser.role := Some (SampleProvider.role providerData);
       InsertUser.phone := None |} ;;
  provider <- createProvider
    {| InsertProvider.userId := User.id user;
       InsertProvider.businessName :=
         Some (SampleProvider.firstName providerData ++ "'s "
               ++ SampleProvider.specialty providerData);
       InsertProvider.specialty := SampleProvider.specialty providerData;
       InsertProvider.description :=
         Some (SampleProvider.description providerData);
       InsertProvider.location :=
         Some (SampleProvider.location providerData);
       InsertProvider.hourlyRate :=
         Some (SampleProvider.hourlyRate providerData);
       InsertProvider.isApproved :=
         Some (SampleProvider.isApproved providerData);
       InsertProvider.categories := Some cats;
       InsertProvider.isAvailable := None;
       InsertProvider.serviceRadius := None;
       InsertProvider.rating := None;
       InsertProvider.reviewCount := None;
       InsertProvider.availability := None;
       InsertProvider.profileImage := None;
       InsertProvider.portfolio := None;
       InsertProvider.certifications := None;
       InsertProvider.yearsExperience := None |} ;;
  updated <- on_store (updateProvider (Provider.id provider)
    {| PartialProvider.rating := Some (SampleProvider.rating providerData);
       PartialProvider.reviewCount :=
         Some (SampleProvider.reviewCount providerData);
       PartialProvider.id := None;
       PartialProvider.createdAt := None;
       PartialProvider.userId := None;
       PartialProvider.specialty := None;
       PartialProvider.location := None;
       PartialProvider.description := None;
       PartialProvider.isApproved := None;
       PartialProvider.isAvailable := None;
       PartialProvider.businessName := None;
       PartialProvider.serviceRadius := None;
       PartialProvider.hourlyRate := None;
       PartialProvider.categories := None;
       PartialProvider.availability := None;
       PartialProvider.profileImage := None;
       PartialProvider.portfolio := None;
       PartialProvider.certifications := None;
       PartialProvider.yearsExperience := None |}) ;;
  ret (returning (fun _ => tt) updated).

Definition initializeSeedData : M Database (Outcome unit) :=
  db <- this ;;
  let existingCategories := Drizzle.select_from (serviceCategories db) in
  if (0 <? length existingCategories)%nat then ret (Returned tt) else
  for_of seed_categories
    (fun cat => createServiceCategory cat ;;; ret tt) ;;;
  hashedPassword <- bcrypt_hash "admin123" 10 ;;
  createUser
    {| InsertUser.email := "admin@localfix.com";
       InsertUser.password := hashedPassword;
       InsertUser.firstName := "Admin";
       InsertUser.lastName := "User";
       InsertUser.role := Some RoleAdmin;
       InsertUser.phone := None |} ;;;
  db <- this ;;
  let allCategories := Drizzle.select_from (serviceCategories db) in
  let electricalCat := Js.find (named "Electrical") allCategories in
  let plumbingCat := Js.find (named "Plumbing") allCategories in
  let carpentryCat := Js.find (named "Carpentry") allCategories in
  pw1 <- bcrypt_hash "password123" 10 ;;
  pw2 <- bcrypt_hash "password123" 10 ;;
  pw3 <- bcrypt_hash "password123" 10 ;;
  for_await
    (sampleProviders pw1 pw2 pw3 electricalCat plumbingCat carpentryCat)
    seed_provider.

(** *** The remaining methods of the relational backend *)

Definition with_providerCategories
  (tbl : Drizzle.table ProviderCategory.t) (db : Database) : Database :=
  mkDatabase (users db) (serviceCategories db) (providers db)
             tbl (bookings db) (reviews db).

Definition getUserByEmail (email : string) (db : Database)
  : option User.t :=
  Drizzle.first
    (Drizzle.where_ (Drizzle.eq User.email email)
                    (Drizzle.select_from (users db))).

Definition getProviderByUserId (userId : string) (db : Database)
  : option Provider.t :=
  Drizzle.first
    (Drizzle.where_ (Drizzle.eq Provider.userId userId)
                    (Drizzle.select_from (providers db))).

Definition getProviderCategories (providerId : string) (db : Database)
  : list ProviderCategory.t :=
  Drizzle.where_ (Drizzle.eq ProviderCategory.providerId providerId)
                 (Drizzle.select_from (providerCategories db)).

Definition createProviderCategory (pc : InsertProviderCategory.t)
  : M Database ProviderCategory.t :=
  id <- randomUUID ;;
  let row := Schema.providerCategories id pc in
  on_store (fun db =>
    (row,
     with_providerCategories (Drizzle.insert (providerCategories db) row)
                             db)).

Definition getBookings (filters : option BookingFilters.t) (db : Database)
  : list Booking.t :=
  let conditions : list (Booking.t -> bool) := [] in
  let conditions :=
    match Js.chain BookingFilters.customerId filters with
    | Some customerId =>
        if Js.truthy customerId then
          (conditions ++ [Drizzle.eq Booking.customerId customerId])%list
        else conditions
    | None => conditions
    end in
  let conditions :=
    match Js.chain BookingFilters.providerId filters with
    | Some providerId =>
        if Js.truthy providerId then
          (conditions ++ [Drizzle.eq Booking.providerId providerId])%list
        else conditions
    | None => conditions
    end in
  let conditions :=
    match Js.chain BookingFilters.status filters with
    | Some status =>
        if Js.truthy status then
          (conditions ++ [Drizzle.eq Booking.status status])%list
        else conditions
    | None => conditions
    end in
  if (0 <? length conditions)%nat then
    Drizzle.where_ (Drizzle.and_ conditions)
                   (Drizzle.select_from (bookings db))
  else Drizzle.select_from (bookings db).

Definition createBooking (booking : InsertBooking.t)
  : M Database Booking.t :=
  id <- randomUUID ;;
  now <- new_Date ;;
  let row := Schema.bookings id now booking in
  on_store (fun db =>
    (row, with_bookings (Drizzle.insert (bookings db) row) db)).

End DbStorage.

(** ** The properties of the storage contract, as the specification words
       them *)

Module Contract.

Section Matching.

(** [String.prototype.toLowerCase], as the engine provides it. *)
Variable toLowerCase : string -> string.

(** "case-insensitive substring match": [needle] occurs in [hay] once both
    are in lower case. *)
Definition ci_substringb (needle hay : string) : bool :=
  Js.includes (toLowerCase hay) (toLowerCase needle).

(** "membership test against the provider's category set" *)
Definition in_categories (categoryId : string) (p : Provider.t) : bool :=
  match Provider.categories p with
  | Some categories => Js.array_includes categories categoryId
  | None => false
  end.

(** The conjunction of all supplied provider filters. *)
Definition satisfies_supplied (filters : option ProviderFilters.t)
  (p : Provider.t) : bool :=
  match Js.chain ProviderFilters.isApproved filters with
  | Some isApproved => Bool.eqb (Provider.isApproved p) isApproved
  | None => true
  end
  &&
  match Js.chain ProviderFilters.location filters with
  | Some location => ci_substringb location (Provider.location p)
  | None => true
  end
  &&
  match Js.chain ProviderFilters.categoryId filters with
  | Some categoryId => in_categories categoryId p
  | None => true
  end.

(** A text filter is active when it is supplied and not empty. *)
Definition active (x : option string) : option string :=
  match x with
  | Some s => if Js.truthy s then Some s else None
  | None => None
  end.

(** The conjunction of the active provider filters. *)
Definition satisfies_active (filters : option ProviderFilters.t)
  (p : Provider.t) : bool :=
  match Js.chain ProviderFilters.isApproved filters with
  | Some isApproved => Bool.eqb (Provider.isApproved p) isApproved
  | None => true
  end
  &&
  match active (Js.chain ProviderFilters.location filters) with
  | Some location => ci_substringb location (Provider.location p)
  | None => true
  end
  &&
  match active (Js.chain ProviderFilters.categoryId filters) with
  | Some categoryId => in_categories categoryId p
  | None => true
  end.

End Matching.

(** The summary of a user, as the provider listing attaches it. *)
Definition summary (user : User.t) : UserSummary.t :=
  {| UserSummary.id := User.id user;
     UserSummary.firstName := User.firstName user;
     UserSummary.lastName := User.lastName user;
     UserSummary.email := User.email user |}.

Definition is_digit (c : ascii) : bool :=
  let n := nat_of_ascii c in (48 <=? n)%nat && (n <=? 57)%nat.

Fixpoint all_digits (s : string) : bool :=
  match s with
  | EmptyString => true
  | String c s' => is_digit c && all_digits s'
  end.

(** What may follow the first digit: digits, then at most one fraction. *)
Fixpoint decimal_rest (s : string) : bool :=
  match s with
  | EmptyString => true
  | String c s' =>
      if is_digit c then decimal_rest s'
      else Ascii.eqb c "." && negb (String.eqb s' "") && all_digits s'
  end.

(** "decimal-formatted string": digits with an optional fraction, as in
    "0", "4.9" and "85.00". *)
Definition decimal_formatted (s : string) : bool :=
  match s with
  | EmptyString => false
  | String c s' => is_digit c && decimal_rest s'
  end.

(** Every stored provider has a decimal-formatted rating. *)
Definition ratings_decimal (s : MemStorage.t) : Prop :=
  Forall (fun p => decimal_formatted (Provider.rating p) = true)
         (JsMap.values (MemStorage.providers s)).

(** Between two maps, at most the entry under [id] differs: no key is
    added, dropped or moved, and every other key holds what it held. *)
Definition only_entry {V : Type} (id : string) (m m' : JsMap.t V) : Prop :=
  JsMap.keys m' = JsMap.keys m /\
  forall j, j <> id -> JsMap.get m' j = JsMap.get m j.

(** Between two stores, only the named collection may differ. *)
Definition only_users (s s' : MemStorage.t) : Prop :=
  MemStorage.with_users (MemStorage.users s) s' = s.

Definition only_providers (s s' : MemStorage.t) : Prop :=
  MemStorage.with_providers (MemStorage.providers s) s' = s.

Definition only_bookings (s s' : MemStorage.t) : Prop :=
  MemStorage.with_bookings (MemStorage.bookings s) s' = s.

Definition only_reviews (s s' : MemStorage.t) : Prop :=
  MemStorage.with_reviews (MemStorage.reviews s) s' = s.

(** The table holds a row with the given identifier. *)
Definition has_row {R : Type} (key : R -> string) (id : string)
  (tbl : Drizzle.table R) : bool :=
  existsb (fun r => String.eqb (key r) id) tbl.

(** The provider carries the defaults of creation, not sample values. *)
Definition unrated (p : Provider.t) : Prop :=
  Provider.rating p = "0" /\ Provider.reviewCount p = 0%Z.

Definition all_unrated (s : MemStorage.t) : Prop :=
  Forall unrated (JsMap.values (MemStorage.providers s)).

(** Specialty, rating and review count of a provider. *)
Definition rated (p : Provider.t) : string * string * Z :=
  (Provider.specialty p, Provider.rating p, Provider.reviewCount p).

End Contract.

(** ** A concrete runtime and concrete stores for the examples *)

Module Examples.

Definition numeral (n : nat) : string :=
  String (ascii_of_nat (48 + n / 10)) (String (ascii_of_nat (48 + n mod 10)) "").

(** Identifiers "id-00", "id-01", ...; the clock counts the calls. *)
Definition rt0 : Runtime :=
  {| tick := 0;
     uuid_at := fun n => "id-" ++ numeral n;
     date_at := fun n => Z.of_nat n;
     hash_at := fun n data rounds => "$2a$" ++ numeral n ++ "$" ++ data |}.

(** A lowering of the letters A to Z, which is what
    [String.prototype.toLowerCase] does on the texts of the examples. *)
Definition lower_letter (c : ascii) : ascii :=
  let n := nat_of_ascii c in
  if (65 <=? n)%nat && (n <=? 90)%nat then ascii_of_nat (n + 32) else c.

Fixpoint lower (s : string) : string :=
  match s with
  | EmptyString => EmptyString
  | String c s' => String (lower_letter c) (lower s')
  end.

(** The two backends after seeding from nothing. *)
Definition mem_seeded : MemStorage.t := snd (MemStorage.seeded rt0).

Definition db_seeded : DbStorage.Database :=
  snd (snd (DbStorage.initializeSeedData (rt0, DbStorage.empty))).

(** A review created hidden. *)
Definition hidden_review : InsertReview.t :=
  {| InsertReview.providerId := "p1";
     InsertReview.customerId := "c1";
     InsertReview.bookingId := "b1";
     InsertReview.rating := 1%Z;
     InsertReview.comment := Some "late";
     InsertReview.isVisible := Some false |}.

Definition mem_hidden : MemStorage.t :=
  snd (snd (MemStorage.createReview hidden_review (rt0, MemStorage.empty))).

Definition db_hidden : DbStorage.Database :=
  snd (snd (DbStorage.createReview hidden_review (rt0, DbStorage.empty))).

(** A provider created from the two required fields alone. *)
Definition plain_provider : InsertProvider.t :=
  {| InsertProvider.userId := "u1";
     InsertProvider.specialty := "Plumber";
     InsertProvider.location := None;
     InsertProvider.description := None;
     InsertProvider.isApproved := None;
     InsertProvider.isAvailable := None;
     InsertProvider.businessName := None;
     InsertProvider.serviceRadius := None;
     InsertProvider.hourlyRate := None;
     InsertProvider.rating := None;
     InsertProvider.reviewCount := None;
     InsertProvider.categories := None;
     InsertProvider.availability := None;
     InsertProvider.profileImage := None;
     InsertProvider.portfolio := None;
     InsertProvider.certifications := None;
     InsertProvider.yearsExperience := None |}.

(** The store holding that provider alone; its identifier is "id-00". *)
Definition mem_plain : MemStorage.t :=
  snd (snd (MemStorage.createProvider plain_provider
                                      (rt0, MemStorage.empty))).

(** [{ categoryId: "" }] *)
Definition empty_category : option ProviderFilters.t :=
  Some (ProviderFilters.mk (Some "") None None).

(** [{ rating: "abc" }] *)
Definition text_rating : PartialProvider.t :=
  {| PartialProvider.id := None;
     PartialProvider.createdAt := None;
     PartialProvider.userId := None;
     PartialProvider.specialty := None;
     PartialProvider.location := None;
     PartialProvider.description := None;
     PartialProvider.isApproved := None;
     PartialProvider.isAvailable := None;
     PartialProvider.businessName := None;
     PartialProvider.serviceRadius := None;
     PartialProvider.hourlyRate := None;
     PartialProvider.rating := Some "abc";
     PartialProvider.reviewCount := None;
     PartialProvider.categories := None;
     PartialProvider.availability := None;
     PartialProvider.profileImage := None;
     PartialProvider.portfolio := None;
     PartialProvider.certifications := None;
     PartialProvider.yearsExperience := None |}.

(** [{ rating: "4.9" }] *)
Definition decimal_rating : PartialProvider.t :=
  {| PartialProvider.id := None;
     PartialProvider.createdAt := None;
     PartialProvider.userId := None;
     PartialProvider.specialty := None;
     PartialProvider.location := None;
     PartialProvider.description := None;
     PartialProvider.isApproved := None;
     PartialProvider.isAvailable := None;
     PartialProvider.businessName := None;
     PartialProvider.serviceRadius := None;
     PartialProvider.hourlyRate := None;
     PartialProvider.rating := Some "4.9";
     PartialProvider.reviewCount := None;
     PartialProvider.categories := None;
     PartialProvider.availability := None;
     PartialProvider.profileImage := None;
     PartialProvider.portfolio := None;
     PartialProvider.certifications := None;
     PartialProvider.yearsExperience := None |}.

(** A provider created with the rating "4.5". *)
Definition rated_provider : InsertProvider.t :=
  {| InsertProvider.userId := "u2";
     InsertProvider.specialty := "Painter";
     InsertProvider.location := None;
     InsertProvider.description := None;
     InsertProvider.isApproved := None;
     InsertProvider.isAvailable := None;
     InsertProvider.businessName := None;
     InsertProvider.serviceRadius := None;
     InsertProvider.hourlyRate := None;
     InsertProvider.rating := Some "4.5";
     InsertProvider.reviewCount := None;
     InsertProvider.categories := None;
     InsertProvider.availability := None;
     InsertProvider.profileImage := None;
     InsertProvider.portfolio := None;
     InsertProvider.certifications := None;
     InsertProvider.yearsExperience := None |}.

(** [{ categoryId: "id-00", location: "", isApproved: true }] *)
Definition electricians : option ProviderFilters.t :=
  Some (ProviderFilters.mk (Some "id-00") (Some "") (Some true)).

End Examples.

(** ** Invariants and summaries used by the further properties *)

Module Props.

(** The conjunction of the booking filters that are supplied and not
    empty, each an exact match. *)
Definition booking_matches (filters : option BookingFilters.t)
  (b : Booking.t) : bool :=
  match Contract.active (Js.chain BookingFilters.customerId filters) with
  | Some customerId => String.eqb (Booking.customerId b) customerId
  | None => true
  end
  &&
  match Contract.active (Js.chain BookingFilters.providerId filters) with
  | Some providerId => String.eqb (Booking.providerId b) providerId
  | None => true
  end
  &&
  match Contract.active (Js.chain BookingFilters.status filters) with
  | Some status => String.eqb (Booking.status b) status
  | None => true
  end.

(** No key occurs twice in any map of the store. *)
Definition keys_distinct (s : MemStorage.t) : Prop :=
  NoDup (JsMap.keys (MemStorage.users s)) /\
  NoDup (JsMap.keys (MemStorage.serviceCategories s)) /\
  NoDup (JsMap.keys (MemStorage.providers s)) /\
  NoDup (JsMap.keys (MemStorage.providerCategories s)) /\
  NoDup (JsMap.keys (MemStorage.bookings s)) /\
  NoDup (JsMap.keys (MemStorage.reviews s)).

(** Every record of the map sits under its own identifier. *)
Definition keyed {V : Type} (key : V -> string) (m : JsMap.t V) : Prop :=
  Forall (fun e => key (snd e) = fst e) m.

Definition ids_are_keys (s : MemStorage.t) : Prop :=
  keyed User.id (MemStorage.users s) /\
  keyed ServiceCategory.id (MemStorage.serviceCategories s) /\
  keyed Provider.id (MemStorage.providers s) /\
  keyed ProviderCategory.id (MemStorage.providerCategories s) /\
  keyed Booking.id (MemStorage.bookings s) /\
  keyed Review.id (MemStorage.reviews s).

(** The runtime never hands out the same identifier twice. *)
Definition distinct_ids (rt : Runtime) : Prop :=
  forall i j, uuid_at rt i = uuid_at rt j -> i = j.

(** First match of a listing: the records before it do not match. *)
Definition first_match {A : Type} (f : A -> bool) (l : list A)
  (found : option A) : Prop :=
  match found with
  | Some a =>
      f a = true /\
      exists before after,
        l = (before ++ a :: after)%list /\
        Forall (fun x => f x = false) before
  | None => Forall (fun x => f x = false) l
  end.

(** A creation stores its record under the record's identifier and moves
    nothing else of its map: every other key holds what it held; a new key
    is enumerated last; a key already in use keeps its place. *)
Definition stored_by_create {V : Type} (key : V -> string)
  (m m' : JsMap.t V) (v : V) : Prop :=
  JsMap.get m' (key v) = Some v /\
  (forall j, j <> key v -> JsMap.get m' j = JsMap.get m j) /\
  (JsMap.has m (key v) = false ->
   JsMap.values m' = (JsMap.values m ++ [v])%list) /\
  (JsMap.has m (key v) = true -> JsMap.keys m' = JsMap.keys m).

(** Between two stores, only the named collection may differ. *)
Definition only_serviceCategories (s s' : MemStorage.t) : Prop :=
  MemStorage.with_serviceCategories (MemStorage.serviceCategories s) s' = s.

Definition only_providerCategories (s s' : MemStorage.t) : Prop :=
  MemStorage.with_providerCategories (MemStorage.providerCategories s) s'
  = s.

(** The identifier the next call of [randomUUID()] returns. *)
Definition next_id {S : Type} (w : Runtime * S) : string :=
  uuid_at (fst w) (tick (fst w)).

(** The user row the relational initializer stores for a sample
    provider. *)
Definition seeded_user (providerData : SampleProvider.t) (id : string)
  (now : Date) : User.t :=
  {| User.id := id;
     User.email := SampleProvider.email providerData;
     User.password := SampleProvider.password providerData;
     User.firstName := SampleProvider.firstName providerData;
     User.lastName := SampleProvider.lastName providerData;
     User.role := SampleProvider.role providerData;
     User.phone := None;
     User.createdAt := now |}.

(** The provider row the relational initializer leaves for a sample
    provider, once created and updated. *)
Definition seeded_provider (providerData : SampleProvider.t)
  (userId id : string) (now : Date) : Provider.t :=
  {| Provider.id := id;
     Provider.createdAt := now;
     Provider.userId := userId;
     Provider.specialty := SampleProvider.specialty providerData;
     Provider.location := SampleProvider.location providerData;
     Provider.description := Some (SampleProvider.description providerData);
     Provider.isApproved := SampleProvider.isApproved providerData;
     Provider.isAvailable := true;
     Provider.businessName :=
       Some (SampleProvider.firstName providerData ++ "'s "
             ++ SampleProvider.specialty providerData);
     Provider.serviceRadius := None;
     Provider.hourlyRate := Some (SampleProvider.hourlyRate providerData);
     Provider.rating := SampleProvider.rating providerData;
     Provider.reviewCount := SampleProvider.reviewCount providerData;
     Provider.categories := Some (SampleProvider.categories providerData);
     Provider.availability := None;
     Provider.profileImage := None;
     Provider.portfolio := [];
     Provider.certifications := [];
     Provider.yearsExperience := None |}.

(** The creation input [provider] with its user and categories set. *)
Definition linked (provider : InsertProvider.t) (userId : string)
  (categories : list string) : InsertProvider.t :=
  {| InsertProvider.userId := userId;
     InsertProvider.specialty := InsertProvider.specialty provider;
     InsertProvider.location := InsertProvider.location provider;
     InsertProvider.description := InsertProvider.description provider;
     InsertProvider.isApproved := InsertProvider.isApproved provider;
     InsertProvider.isAvailable := InsertProvider.isAvailable provider;
     InsertProvider.businessName := InsertProvider.businessName provider;
     InsertProvider.serviceRadius := InsertProvider.serviceRadius provider;
     InsertProvider.hourlyRate := InsertProvider.hourlyRate provider;
     InsertProvider.rating := InsertProvider.rating provider;
     InsertProvider.reviewCount := InsertProvider.reviewCount provider;
     InsertProvider.categories := Some categories;
     InsertProvider.availability := InsertProvider.availability provider;
     InsertProvider.profileImage := InsertProvider.profileImage provider;
     InsertProvider.portfolio := InsertProvider.portfolio provider;
     InsertProvider.certifications := InsertProvider.certifications provider;
     InsertProvider.yearsExperience :=
       InsertProvider.yearsExperience provider |}.

(** A category, a user and a provider of that user in that category,
    created in this order; the answer is the three records and the store. *)
Definition onboard (category : InsertServiceCategory.t)
  (insertUser : InsertUser.t) (provider : InsertProvider.t)
  : M MemStorage.t (ServiceCategory.t * User.t * Provider.t) :=
  cat <- MemStorage.createServiceCategory category ;;
  user <- MemStorage.createUser insertUser ;;
  newProvider <- MemStorage.createProvider
                   (linked provider (User.id user)
                           [ServiceCategory.id cat]) ;;
  ret (cat, user, newProvider).

(** The review does not have the identifier. *)
Definition other_review (id : string) (r : Review.t) : bool :=
  negb (String.eqb (Review.id r) id).

(** The runtime after [n] further calls. *)
Fixpoint later (n : nat) (rt : Runtime) : Runtime :=
  match n with
  | O => rt
  | S n' => advance (later n' rt)
  end.

End Props.

(** * Laws of the map operations *)

(** ** A runtime whose identifiers are pairwise distinct *)

Module Scenario.

Fixpoint tally (n : nat) : string :=
  match n with
  | O => ""
  | S n' => String "i" (tally n')
  end.

(** Identifiers "id-", "id-i", "id-ii", ... *)
Definition rt1 : Runtime :=
  {| tick := 0;
     uuid_at := fun n => "id-" ++ tally n;
     date_at := fun n => Z.of_nat n;
     hash_at := fun n data rounds => "$2a$" ++ data |}.

End Scenario.

Module JsMapFacts.

Section Laws.

Context {V : Type}.
Implicit Types (m : JsMap.t V) (k j : string) (v : V).

Lemma has_get m k : JsMap.has m k = true <-> exists v, JsMap.get m k = Some v.
Proof.
  unfold JsMap.has. destruct (JsMap.get m k) as [v|].
  - split; [eauto | reflexivity].
  - split; [discriminate | intros [v H]; discriminate].
Qed.

Lemma has_false_get m k : JsMap.has m k = false <-> JsMap.get m k = None.
Proof.
  unfold JsMap.has. destruct (JsMap.get m k); split; congruence.
Qed.

Lemma get_overwrite_same m k v :
  JsMap.get (JsMap.overwrite m k v) k
  = match JsMap.get m k with Some _ => Some v | None => None end.
Proof.
  induction m as [|[k' v'] m IH]; simpl; [reflexivity|].
  destruct (String.eqb k' k); [reflexivity | exact IH].
Qed.

Lemma get_overwrite_other m k j v :
  j <> k -> JsMap.get (JsMap.overwrite m k v) j = JsMap.get m j.
Proof.
  intros Hne. induction m as [|[k' v'] m IH]; simpl; [reflexivity|].
  destruct (String.eqb_spec k' j) as [->|Hj].
  - destruct (String.eqb_spec j k); [contradiction | reflexivity].
  - exact IH.
Qed.

Lemma keys_overwrite m k v :
  JsMap.keys (JsMap.overwrite m k v) = JsMap.keys m.
Proof.
  induction m as [|[k' v'] m IH]; simpl; [reflexivity|].
  f_equal. exact IH.
Qed.

Lemma get_app m m' k :
  JsMap.get (m ++ m')%list k
  = match JsMap.get m k with Some v => Some v | None => JsMap.get m' k end.
Proof.
  induction m as [|[k' v'] m IH]; simpl; [reflexivity|].
  destruct (String.eqb k' k); [reflexivity | exact IH].
Qed.

(** [get] after [set], on the key written. *)
Lemma get_set_same m k v : JsMap.get (JsMap.set m k v) k = Some v.
Proof.
  unfold JsMap.set, JsMap.has.
  destruct (JsMap.get m k) eqn:E.
  - rewrite get_overwrite_same, E. reflexivity.
  - rewrite get_app, E. simpl. rewrite String.eqb_refl. reflexivity.
Qed.

(** [get] after [set], on any other key. *)
Lemma get_set_other m k j v :
  j <> k -> JsMap.get (JsMap.set m k v) j = JsMap.get m j.
Proof.
  intros Hne. unfold JsMap.set.
  destruct (JsMap.has m k).
  - apply get_overwrite_other, Hne.
  - rewrite get_app. destruct (JsMap.get m j); [reflexivity|].
    simpl. destruct (String.eqb_spec k j); [congruence | reflexivity].
Qed.

(** [set] on a key that is present neither adds nor moves an entry. *)
Lemma keys_set_present m k v :
  JsMap.has m k = true -> JsMap.keys (JsMap.set m k v) = JsMap.keys m.
Proof.
  intros H. unfold JsMap.set. rewrite H. apply keys_overwrite.
Qed.

Lemma get_remove_same m k : JsMap.get (JsMap.remove m k) k = None.
Proof.
  unfold JsMap.remove.
  induction m as [|[k' v'] m IH]; simpl; [reflexivity|].
  destruct (String.eqb k' k) eqn:E; simpl; [exact IH|].
  rewrite E. exact IH.
Qed.

Lemma get_remove_other m k j :
  j <> k -> JsMap.get (JsMap.remove m k) j = JsMap.get m j.
Proof.
  intros Hne. unfold JsMap.remove.
  induction m as [|[k' v'] m IH]; simpl; [reflexivity|].
  destruct (String.eqb_spec k' k) as [->|Hk]; simpl.
  - destruct (String.eqb_spec k j); [congruence | exact IH].
  - rewrite IH. reflexivity.
Qed.

Lemma remove_absent m k : JsMap.get m k = None -> JsMap.remove m k = m.
Proof.
  unfold JsMap.remove.
  induction m as [|[k' v'] m IH]; simpl; [reflexivity|].
  destruct (String.eqb k' k); simpl; [discriminate|].
  intros H. f_equal. exact (IH H).
Qed.

(** A property of all values survives [set] when the new value has it. *)
Lemma Forall_values_set (P : V -> Prop) m k v :
  Forall P (JsMap.values m) -> P v ->
  Forall P (JsMap.values (JsMap.set m k v)).
Proof.
  intros Hm Hv. unfold JsMap.set, JsMap.values in *.
  destruct (JsMap.has m k).
  - induction m as [|[k' v'] m IH]; simpl in *; [constructor|].
    inversion Hm; subst. constructor; [|apply IH; assumption].
    destruct (String.eqb k' k); assumption.
  - rewrite map_app. apply Forall_app. split; [assumption|].
    simpl. constructor; [assumption | constructor].
Qed.

(** The value written by [set] is among the values. *)
Lemma In_values_set m k v : In v (JsMap.values (JsMap.set m k v)).
Proof.
  unfold JsMap.set, JsMap.has, JsMap.values.
  destruct (JsMap.get m k) eqn:E.
  - induction m as [|[k' v'] m IH]; simpl in *; [discriminate|].
    destruct (String.eqb k' k); [left; reflexivity | right; auto].
  - rewrite map_app. apply in_or_app. right. left. reflexivity.
Qed.

Lemma get_In_values m k v : JsMap.get m k = Some v -> In v (JsMap.values m).
Proof.
  unfold JsMap.values.
  induction m as [|[k' v'] m IH]; simpl; [discriminate|].
  destruct (String.eqb k' k).
  - intros [= ->]. left. reflexivity.
  - intros H. right. exact (IH H).
Qed.

Lemma get_None_keys m k : JsMap.get m k = None -> ~ In k (JsMap.keys m).
Proof.
  induction m as [|[k' v'] m IH]; simpl; [tauto|].
  destruct (String.eqb_spec k' k) as [->|Hk]; [discriminate|].
  intros H [Heq | Hin]; [contradiction | exact (IH H Hin)].
Qed.

(** The keys of a map stay pairwise distinct under [set] and [delete]. *)
Lemma NoDup_keys_set m k v :
  NoDup (JsMap.keys m) -> NoDup (JsMap.keys (JsMap.set m k v)).
Proof.
  intros H. unfold JsMap.set, JsMap.has.
  destruct (JsMap.get m k) eqn:E.
  - rewrite keys_overwrite. exact H.
  - unfold JsMap.keys in *. rewrite map_app. simpl.
    apply NoDup_app; [exact H | repeat constructor; intros [] |].
    intros j Hj [Hjk | []]. subst j. exact (get_None_keys m k E Hj).
Qed.

Lemma NoDup_keys_remove m k :
  NoDup (JsMap.keys m) -> NoDup (JsMap.keys (JsMap.remove m k)).
Proof.
  unfold JsMap.remove, JsMap.keys.
  induction m as [|[k' v'] m IH]; simpl; intros H; [constructor|].
  inversion H as [|x l Hx Hl]; subst.
  destruct (String.eqb k' k); simpl; [exact (IH Hl)|].
  constructor; [|exact (IH Hl)].
  intros Hin. apply Hx.
  apply in_map_iff in Hin as (e & He & Hin).
  apply filter_In in Hin as [Hin _].
  apply in_map_iff. exists e. auto.
Qed.

End Laws.

End JsMapFacts.

(** * Updates and deletion in the in-memory backend *)

Section MemUpdates.

Import MemStorage.

Variable s : MemStorage.t.
Variable id : string.

Lemma updateUser_absent (u : PartialUser.t) :
  JsMap.has (users s) id = false -> updateUser id u s = (None, s).
Proof.
  intros H. apply JsMapFacts.has_false_get in H.
  unfold updateUser. rewrite H. reflexivity.
Qed.

Lemma updateProvider_absent (u : PartialProvider.t) :
  JsMap.has (providers s) id = false -> updateProvider id u s = (None, s).
Proof.
  intros H. apply JsMapFacts.has_false_get in H.
  unfold updateProvider. rewrite H. reflexivity.
Qed.

Lemma updateBooking_absent (u : PartialBooking.t) :
  JsMap.has (bookings s) id = false -> updateBooking id u s = (None, s).
Proof.
  intros H. apply JsMapFacts.has_false_get in H.
  unfold updateBooking. rewrite H. reflexivity.
Qed.

Lemma updateReview_absent (u : PartialReview.t) :
  JsMap.has (reviews s) id = false -> updateReview id u s = (None, s).
Proof.
  intros H. apply JsMapFacts.has_false_get in H.
  unfold updateReview. rewrite H. reflexivity.
Qed.

(** Writing a value under a key leaves the rest of the map alone. *)
Lemma only_entry_set {V : Type} (m : JsMap.t V) (v0 v : V) :
  JsMap.get m id = Some v0 ->
  Contract.only_entry id m (JsMap.set m id v).
Proof.
  intros H. split.
  - apply JsMapFacts.keys_set_present, JsMapFacts.has_get. eauto.
  - intros j Hj. apply JsMapFacts.get_set_other, Hj.
Qed.

Lemma only_entry_refl {V : Type} (m : JsMap.t V) : Contract.only_entry id m m.
Proof. split; [reflexivity | intros; reflexivity]. Qed.

End MemUpdates.

(** The conditions of an identifier that no row carries. *)
Lemma filter_no_row {R : Type} (key : R -> string) (id : string)
  (tbl : Drizzle.table R) :
  Contract.has_row key id tbl = false ->
  filter (Drizzle.eq key id) tbl = [] /\
  filter (fun r => negb (Drizzle.eq key id r)) tbl = tbl.
Proof.
  unfold Contract.has_row, Drizzle.eq. intros H.
  induction tbl as [|r tbl IH]; simpl in *; [split; reflexivity|].
  apply orb_false_iff in H as [Hr Htbl]. rewrite Hr. simpl.
  destruct (IH Htbl) as [E1 E2]. rewrite E1, E2. split; reflexivity.
Qed.

(** An update whose condition no row meets leaves the table as it is; it
    returns no row when it sets a column, and throws when it sets none. *)
Lemma update_no_row {R : Type} (key : R -> string) (id : string)
  (no_values : bool) (set : R -> R) (tbl : Drizzle.table R) :
  Contract.has_row key id tbl = false ->
  Drizzle.update tbl no_values set (Drizzle.eq key id)
  = (if no_values then Thrown "No values to set" else Returned [], tbl).
Proof.
  intros H. unfold Drizzle.update.
  destruct (filter_no_row key id tbl H) as [E1 E2].
  destruct no_values; [reflexivity|].
  rewrite E1, E2. simpl. rewrite app_nil_r. reflexivity.
Qed.

Ltac no_key H :=
  repeat match type of H with
         | (_ && _ = true) =>
             let H' := fresh in
             apply andb_true_iff in H as [H H']; no_key_step H'
         end;
  no_key_step H
with no_key_step H :=
  match type of H with
  | Js.absent ?x = true => destruct x; [discriminate H | clear H]
  end.

(** An update object holds no key exactly when it is the empty object. *)
Lemma PartialUser_is_empty (u : PartialUser.t) :
  PartialUser.is_empty u = true <-> u = PartialUser.none.
Proof.
  split; [|intros ->; reflexivity].
  destruct u; unfold PartialUser.is_empty; simpl. intros H.
  no_key H. reflexivity.
Qed.

Lemma PartialProvider_is_empty (u : PartialProvider.t) :
  PartialProvider.is_empty u = true <-> u = PartialProvider.none.
Proof.
  split; [|intros ->; reflexivity].
  destruct u; unfold PartialProvider.is_empty; simpl. intros H.
  no_key H. reflexivity.
Qed.

Lemma PartialBooking_is_empty (u : PartialBooking.t) :
  PartialBooking.is_empty u = true <-> u = PartialBooking.none.
Proof.
  split; [|intros ->; reflexivity].
  destruct u; unfold PartialBooking.is_empty; simpl. intros H.
  no_key H. reflexivity.
Qed.

Lemma PartialReview_is_empty (u : PartialReview.t) :
  PartialReview.is_empty u = true <-> u = PartialReview.none.
Proof.
  split; [|intros ->; reflexivity].
  destruct u; unfold PartialReview.is_empty; simpl. intros H.
  no_key H. reflexivity.
Qed.

Lemma PartialUser_sets (u : PartialUser.t) :
  u <> PartialUser.none -> PartialUser.is_empty u = false.
Proof.
  intros H. destruct (PartialUser.is_empty u) eqn:E; [|reflexivity].
  elim H. apply PartialUser_is_empty, E.
Qed.

Lemma PartialProvider_sets (u : PartialProvider.t) :
  u <> PartialProvider.none -> PartialProvider.is_empty u = false.
Proof.
  intros H. destruct (PartialProvider.is_empty u) eqn:E; [|reflexivity].
  elim H. apply PartialProvider_is_empty, E.
Qed.

Lemma PartialBooking_sets (u : PartialBooking.t) :
  u <> PartialBooking.none -> PartialBooking.is_empty u = false.
Proof.
  intros H. destruct (PartialBooking.is_empty u) eqn:E; [|reflexivity].
  elim H. apply PartialBooking_is_empty, E.
Qed.

(** C7.  Each of [updateUser], [updateProvider], [updateBooking] and
    [updateReview], called with an identifier that its collection does not
    hold, leaves the store as it was, so that no record exists under the
    identifier afterwards.  The in-memory backend answers the absent value
    for every update object.  The relational backend answers the absent
    value when the update object sets a column; for the object without
    keys it throws "No values to set" and answers nothing, whatever the
    identifier. *)
Theorem update_of_absent_id_returns_or_throws (id : string) :
  (forall db,
     DbStorage.updateUser id PartialUser.none db
     = (Thrown "No values to set", db) /\
     DbStorage.updateProvider id PartialProvider.none db
     = (Thrown "No values to set", db) /\
     DbStorage.updateBooking id PartialBooking.none db
     = (Thrown "No values to set", db) /\
     DbStorage.updateReview id PartialReview.none db
     = (Thrown "No values to set", db)) /\
  (forall s,
     (forall u, JsMap.has (MemStorage.users s) id = false ->
        MemStorage.updateUser id u s = (None, s)) /\
     (forall u, JsMap.has (MemStorage.providers s) id = false ->
        MemStorage.updateProvider id u s = (None, s)) /\
     (forall u, JsMap.has (MemStorage.bookings s) id = false ->
        MemStorage.updateBooking id u s = (None, s)) /\
     (forall u, JsMap.has (MemStorage.reviews s) id = false ->
        MemStorage.updateReview id u s = (None, s))) /\
  (forall db,
     (forall u,
        Contract.has_row User.id id (DbStorage.users db) = false ->
        DbStorage.updateUser id u db
        = (if PartialUser.is_empty u
           then Thrown "No values to set" else Returned None, db)) /\
     (forall u,
        Contract.has_row Provider.id id (DbStorage.providers db) = false ->
        DbStorage.updateProvider id u db
        = (if PartialProvider.is_empty u
           then Thrown "No values to set" else Returned None, db)) /\
     (forall u,
        Contract.has_row Booking.id id (DbStorage.bookings db) = false ->
        DbStorage.updateBooking id u db
        = (if PartialBooking.is_empty u
           then Thrown "No values to set" else Returned None, db)) /\
     (forall u,
        Contract.has_row Review.id id (DbStorage.reviews db) = false ->
        DbStorage.updateReview id u db
        = (if PartialReview.is_empty u
           then Thrown "No values to set" else Returned None, db))).
Proof.
  split; [|split].
  - intros [us cs ps pcs bs rs]. repeat split.
  - intros s. split; [|split; [|split]]; intros u H.
    + now apply updateUser_absent.
    + now apply updateProvider_absent.
    + now apply updateBooking_absent.
    + now apply updateReview_absent.
  - intros [us cs ps pcs bs rs].
    split; [|split; [|split]]; intros u H; simpl in H.
    + unfold DbStorage.updateUser. cbn [DbStorage.users].
      rewrite (update_no_row User.id id _ _ us H).
      destruct (PartialUser.is_empty u); reflexivity.
    + unfold DbStorage.updateProvider. cbn [DbStorage.providers].
      rewrite (update_no_row Provider.id id _ _ ps H).
      destruct (PartialProvider.is_empty u); reflexivity.
    + unfold DbStorage.updateBooking. cbn [DbStorage.bookings].
      rewrite (update_no_row Booking.id id _ _ bs H).
      destruct (PartialBooking.is_empty u); reflexivity.
    + unfold DbStorage.updateReview. cbn [DbStorage.reviews].
      rewrite (update_no_row Review.id id _ _ rs H).
      destruct (PartialReview.is_empty u); reflexivity.
Qed.

(** C7 on the seeded stores: "id-99" names no record of any collection.
    The in-memory updates without keys answer the absent value; the
    relational update of a rating answers the absent value; the relational
    update without keys throws. *)
Lemma update_of_absent_id_returns_or_throws_witness :
  let s := Examples.mem_seeded in
  let db := Examples.db_seeded in
  (MemStorage.updateUser "id-99" PartialUser.none s = (None, s) /\
   MemStorage.updateProvider "id-99" PartialProvider.none s = (None, s) /\
   MemStorage.updateBooking "id-99" PartialBooking.none s = (None, s) /\
   MemStorage.updateReview "id-99" PartialReview.none s = (None, s)) /\
  DbStorage.updateProvider "id-99" Examples.text_rating db
  = (Returned None, db) /\
  DbStorage.updateProvider "id-99" PartialProvider.none db
  = (Thrown "No values to set", db).
Proof.
  intros s db.
  destruct (update_of_absent_id_returns_or_throws "id-99")
    as (Hthrow & Hmem & Hdb).
  destruct (Hmem s) as (Hu & Hp & Hb & Hr).
  destruct (Hdb db) as (_ & Hdp & _ & _).
  destruct (Hthrow db) as (_ & Htp & _ & _).
  split; [split; [|split; [|split]]|split].
  - apply (Hu PartialUser.none). vm_compute. reflexivity.
  - apply (Hp PartialProvider.none). vm_compute. reflexivity.
  - apply (Hb PartialBooking.none). vm_compute. reflexivity.
  - apply (Hr PartialReview.none). vm_compute. reflexivity.
  - apply (Hdp Examples.text_rating). vm_compute. reflexivity.
  - exact Htp.
Defined.

(** C10.  In the in-memory store an update changes at most the entry under
    the given identifier: the other collections are untouched, no key of
    the collection is added, dropped or moved, and every other key holds
    what it held.  When the identifier is present, the merged record is
    returned and stored under that same key, also when the update carries
    an [id] of its own, which then becomes the [id] field of the stored
    record. *)
Theorem update_changes_one_entry (s : MemStorage.t) (id : string) :
  (forall u,
     let s' := snd (MemStorage.updateUser id u s) in
     Contract.only_users s s' /\
     Contract.only_entry id (MemStorage.users s) (MemStorage.users s') /\
     forall user, JsMap.get (MemStorage.users s) id = Some user ->
       fst (MemStorage.updateUser id u s) = Some (merge_user user u) /\
       JsMap.get (MemStorage.users s') id = Some (merge_user user u) /\
       forall id', PartialUser.id u = Some id' ->
         User.id (merge_user user u) = id') /\
  (forall u,
     let s' := snd (MemStorage.updateProvider id u s) in
     Contract.only_providers s s' /\
     Contract.only_entry id (MemStorage.providers s) (MemStorage.providers s')
     /\
     forall p, JsMap.get (MemStorage.providers s) id = Some p ->
       fst (MemStorage.updateProvider id u s) = Some (merge_provider p u) /\
       JsMap.get (MemStorage.providers s') id = Some (merge_provider p u) /\
       forall id', PartialProvider.id u = Some id' ->
         Provider.id (merge_provider p u) = id') /\
  (forall u,
     let s' := snd (MemStorage.updateBooking id u s) in
     Contract.only_bookings s s' /\
     Contract.only_entry id (MemStorage.bookings s) (MemStorage.bookings s') /\
     forall b, JsMap.get (MemStorage.bookings s) id = Some b ->
       fst (MemStorage.updateBooking id u s) = Some (merge_booking b u) /\
       JsMap.get (MemStorage.bookings s') id = Some (merge_booking b u) /\
       forall id', PartialBooking.id u = Some id' ->
         Booking.id (merge_booking b u) = id') /\
  (forall u,
     let s' := snd (MemStorage.updateReview id u s) in
     Contract.only_reviews s s' /\
     Contract.only_entry id (MemStorage.reviews s) (MemStorage.reviews s') /\
     forall r, JsMap.get (MemStorage.reviews s) id = Some r ->
       fst (MemStorage.updateReview id u s) = Some (merge_review r u) /\
       JsMap.get (MemStorage.reviews s') id = Some (merge_review r u) /\
       forall id', PartialReview.id u = Some id' ->
         Review.id (merge_review r u) = id').
Proof.
  destruct s as [us cs ps pcs bs rs].
  split; [|split; [|split]]; intros u; cbv zeta.
  - unfold MemStorage.updateUser; simpl.
    destruct (JsMap.get us id) as [user|] eqn:E; simpl.
    + split; [reflexivity|]. split; [eapply only_entry_set; eassumption|].
      intros user' [= <-]. split; [reflexivity|].
      split; [apply JsMapFacts.get_set_same|].
      intros id' Hid. unfold merge_user; simpl. rewrite Hid. reflexivity.
    + split; [reflexivity|]. split; [apply only_entry_refl|]. discriminate.
  - unfold MemStorage.updateProvider; simpl.
    destruct (JsMap.get ps id) as [p|] eqn:E; simpl.
    + split; [reflexivity|]. split; [eapply only_entry_set; eassumption|].
      intros p' [= <-]. split; [reflexivity|].
      split; [apply JsMapFacts.get_set_same|].
      intros id' Hid. unfold merge_provider; simpl. rewrite Hid. reflexivity.
    + split; [reflexivity|]. split; [apply only_entry_refl|]. discriminate.
  - unfold MemStorage.updateBooking; simpl.
    destruct (JsMap.get bs id) as [b|] eqn:E; simpl.
    + split; [reflexivity|]. split; [eapply only_entry_set; eassumption|].
      intros b' [= <-]. split; [reflexivity|].
      split; [apply JsMapFacts.get_set_same|].
      intros id' Hid. unfold merge_booking; simpl. rewrite Hid. reflexivity.
    + split; [reflexivity|]. split; [apply only_entry_refl|]. discriminate.
  - unfold MemStorage.updateReview; simpl.
    destruct (JsMap.get rs id) as [r|] eqn:E; simpl.
    + split; [reflexivity|]. split; [eapply only_entry_set; eassumption|].
      intros r' [= <-]. split; [reflexivity|].
      split; [apply JsMapFacts.get_set_same|].
      intros id' Hid. unfold merge_review; simpl. rewrite Hid. reflexivity.
    + split; [reflexivity|]. split; [apply only_entry_refl|]. discriminate.
Qed.

(** C10 on the seeded store: the administrator lives under "id-09"; an
    update carrying the [id] "other" leaves the record under "id-09", with
    "other" as its [id] field. *)
Lemma update_changes_one_entry_witness :
  let s := Examples.mem_seeded in
  let u := {| PartialUser.id := Some "other";
              PartialUser.email := None;
              PartialUser.password := None;
              PartialUser.firstName := None;
              PartialUser.lastName := None;
              PartialUser.role := None;
              PartialUser.phone := None;
              PartialUser.createdAt := None |} in
  let s' := snd (MemStorage.updateUser "id-09" u s) in
  JsMap.get (MemStorage.users s') "id-16"
    = JsMap.get (MemStorage.users s) "id-16" /\
  option_map User.id (JsMap.get (MemStorage.users s') "id-09")
    = Some "other".
Proof.
  intros s u s'.
  destruct (update_changes_one_entry s "id-09") as (Hu & _).
  destruct (Hu u) as (_ & (_ & Hother) & Hsame).
  split.
  - apply Hother. discriminate.
  - destruct (JsMap.get (MemStorage.users s) "id-09") as [user|] eqn:E;
      [|vm_compute in E; discriminate].
    destruct (Hsame user eq_refl) as (_ & Hget & Hid).
    unfold s'. rewrite Hget. cbn [option_map].
    rewrite (Hid "other" eq_refl). reflexivity.
Defined.

(** * Deleting a review *)

Lemma nonempty_filter_existsb {R : Type} (cond : R -> bool) (l : list R) :
  Drizzle.nonempty (filter cond l) = existsb cond l.
Proof.
  unfold Drizzle.nonempty.
  induction l as [|r l IH]; simpl; [reflexivity|].
  destruct (cond r); simpl; [reflexivity | exact IH].
Qed.

Lemma existsb_filter_negb {R : Type} (cond : R -> bool) (l : list R) :
  existsb cond (filter (fun r => negb (cond r)) l) = false.
Proof.
  induction l as [|r l IH]; simpl; [reflexivity|].
  destruct (cond r) eqn:E; simpl; [exact IH|].
  rewrite E. exact IH.
Qed.

(** C8.  [deleteReview] answers [true] exactly when a review with the
    identifier is held, and no review with the identifier is held
    afterwards; hence a second call with the same identifier answers
    [false].  In both backends. *)
Theorem deleteReview_reports_removal :
  (forall id s,
     fst (MemStorage.deleteReview id s) = JsMap.has (MemStorage.reviews s) id
     /\
     JsMap.has (MemStorage.reviews (snd (MemStorage.deleteReview id s))) id
       = false /\
     fst (MemStorage.deleteReview id (snd (MemStorage.deleteReview id s)))
       = false) /\
  (forall id db,
     fst (DbStorage.deleteReview id db)
     = Contract.has_row Review.id id (DbStorage.reviews db) /\
     Contract.has_row Review.id id
       (DbStorage.reviews (snd (DbStorage.deleteReview id db))) = false /\
     fst (DbStorage.deleteReview id (snd (DbStorage.deleteReview id db)))
       = false).
Proof.
  split.
  - intros id s.
    assert (Hgone : JsMap.has
              (MemStorage.reviews (snd (MemStorage.deleteReview id s))) id
              = false).
    { unfold MemStorage.deleteReview; simpl.
      apply JsMapFacts.has_false_get, JsMapFacts.get_remove_same. }
    split; [reflexivity|]. split; [exact Hgone|].
    unfold MemStorage.deleteReview at 1; simpl. exact Hgone.
  - intros id db.
    assert (Hgone : Contract.has_row Review.id id
              (DbStorage.reviews (snd (DbStorage.deleteReview id db)))
              = false).
    { unfold Contract.has_row, DbStorage.deleteReview; simpl.
      apply (existsb_filter_negb (Drizzle.eq Review.id id)). }
    assert (Hans : forall d,
              fst (DbStorage.deleteReview id d)
              = Contract.has_row Review.id id (DbStorage.reviews d)).
    { intros d. unfold DbStorage.deleteReview, Contract.has_row; simpl.
      apply (nonempty_filter_existsb (Drizzle.eq Review.id id)). }
    split; [apply Hans|]. split; [exact Hgone|].
    rewrite Hans. exact Hgone.
Qed.

(** * The listings of the in-memory backend *)

Lemma filter_and {A : Type} (f g : A -> bool) (l : list A) :
  filter g (filter f l) = filter (fun x => f x && g x) l.
Proof.
  induction l as [|x l IH]; simpl; [reflexivity|].
  destruct (f x); simpl; [|exact IH].
  destruct (g x); [f_equal|]; exact IH.
Qed.

Lemma filter_true {A : Type} (l : list A) : filter (fun _ => true) l = l.
Proof.
  induction l as [|x l IH]; simpl; [reflexivity|]. f_equal. exact IH.
Qed.

(** The in-memory listing of providers is the store's providers in order,
    each with its user summary, restricted to the active filters. *)
Lemma mem_getProviders_active (toLowerCase : string -> string)
  (filters : option ProviderFilters.t) (s : MemStorage.t) :
  MemStorage.getProviders toLowerCase filters s
  = filter (fun p => Contract.satisfies_active
                       toLowerCase filters (ProviderWithUser.provider p))
           (map (MemStorage.with_user s)
                (JsMap.values (MemStorage.providers s))).
Proof.
  unfold MemStorage.getProviders, Contract.satisfies_active, Contract.active.
  destruct filters as [[c l a]|]; simpl.
  - destruct a as [a|], l as [l|], c as [c|]; simpl;
      try destruct (Js.truthy l); try destruct (Js.truthy c);
      rewrite ?filter_and;
      first [ symmetry; apply filter_true
            | apply filter_ext; intros p; simpl;
              rewrite ?andb_true_r, ?andb_assoc; reflexivity ].
  - symmetry. apply filter_true.
Qed.

(** C9.  In the in-memory store a text filter given as the empty string
    restricts nothing: the listing is the one obtained with that filter
    left out, for [location] and [categoryId] of [getProviders] and for
    [customerId], [providerId] and [status] of [getBookings]; with nothing
    else set, every stored record is listed.  Whatever [toLowerCase]
    does. *)
Theorem empty_string_filter_is_absent (toLowerCase : string -> string)
  (s : MemStorage.t) :
  (forall c a,
     MemStorage.getProviders toLowerCase
       (Some (ProviderFilters.mk c (Some "") a)) s
     = MemStorage.getProviders toLowerCase
         (Some (ProviderFilters.mk c None a)) s) /\
  (forall l a,
     MemStorage.getProviders toLowerCase
       (Some (ProviderFilters.mk (Some "") l a)) s
     = MemStorage.getProviders toLowerCase
         (Some (ProviderFilters.mk None l a)) s) /\
  MemStorage.getProviders toLowerCase
    (Some (ProviderFilters.mk (Some "") (Some "") None)) s
  = map (MemStorage.with_user s) (JsMap.values (MemStorage.providers s)) /\
  (forall p st,
     MemStorage.getBookings (Some (BookingFilters.mk (Some "") p st)) s
     = MemStorage.getBookings (Some (BookingFilters.mk None p st)) s) /\
  (forall c st,
     MemStorage.getBookings (Some (BookingFilters.mk c (Some "") st)) s
     = MemStorage.getBookings (Some (BookingFilters.mk c None st)) s) /\
  (forall c p,
     MemStorage.getBookings (Some (BookingFilters.mk c p (Some ""))) s
     = MemStorage.getBookings (Some (BookingFilters.mk c p None)) s) /\
  MemStorage.getBookings
    (Some (BookingFilters.mk (Some "") (Some "") (Some ""))) s
  = JsMap.values (MemStorage.bookings s).
Proof.
  repeat match goal with |- _ /\ _ => split end; intros; reflexivity.
Qed.

(** * Substring search *)

Section Strings.

Lemma prefix_iff (a s : string) :
  String.prefix a s = true <-> exists post, s = a ++ post.
Proof.
  revert s. induction a as [|x a IH]; intros s.
  - split; [exists s; reflexivity | destruct s; reflexivity].
  - destruct s as [|y s]; simpl;
      [split; [discriminate | intros [p H]; discriminate]|].
    destruct (ascii_dec x y) as [->|Hxy].
    + rewrite IH. split; intros [post H]; exists post; congruence.
    + split; [discriminate | intros [post H]; congruence].
Qed.

Lemma includes_iff (s needle : string) :
  Js.includes s needle = true <-> exists pre post, s = pre ++ needle ++ post.
Proof.
  induction s as [|x s IH].
  - change (Js.includes "" needle) with (String.prefix needle "" || false).
    rewrite orb_false_r, prefix_iff. split.
    + intros [post H]. exists "", post. exact H.
    + intros (pre & post & H). destruct pre; [|discriminate].
      exists post. exact H.
  - change (Js.includes (String x s) needle)
      with (String.prefix needle (String x s) || Js.includes s needle).
    rewrite orb_true_iff, prefix_iff, IH. split.
    + intros [[post H] | (pre & post & H)].
      * exists "", post. exact H.
      * exists (String x pre), post. simpl. now rewrite H.
    + intros (pre & post & H). destruct pre as [|y pre]; simpl in H.
      * left. exists post. exact H.
      * right. exists pre, post. congruence.
Qed.

(** The search of the code: the lowered filter is a part of the lowered
    text. *)
Lemma ci_substringb_iff (toLowerCase : string -> string)
  (needle hay : string) :
  Contract.ci_substringb toLowerCase needle hay = true
  <-> exists pre post, toLowerCase hay = pre ++ toLowerCase needle ++ post.
Proof. unfold Contract.ci_substringb. apply includes_iff. Qed.

End Strings.

(** * The provider listing against its filters *)

(** The relational listing of providers, when no location filter is active:
    the rows in order, restricted to the active filters. *)
Lemma db_getProviders_active (like : string -> string -> bool)
  (toLowerCase : string -> string)
  (filters : option ProviderFilters.t) (db : DbStorage.Database) :
  Contract.active (Js.chain ProviderFilters.location filters) = None ->
  DbStorage.getProviders like filters db
  = filter (Contract.satisfies_active toLowerCase filters)
           (DbStorage.providers db).
Proof.
  unfold DbStorage.getProviders, Contract.satisfies_active, Contract.active.
  unfold Drizzle.where_, Drizzle.select_from.
  destruct filters as [[c l a]|]; simpl.
  - destruct a as [a|], l as [l|], c as [c|]; simpl;
      try destruct (Js.truthy l); try destruct (Js.truthy c);
      try discriminate; intros _; simpl;
      rewrite ?filter_and;
      first [ symmetry; apply filter_true
            | apply filter_ext; intros p; unfold Drizzle.and_; simpl;
              rewrite ?andb_true_r, ?andb_assoc; reflexivity ].
  - intros _. symmetry. apply filter_true.
Qed.

(** C2, as the claim words it, fails: with [{ categoryId: "" }] the
    in-memory listing returns the provider "id-00", whose categories do not
    contain the empty string.  Whatever [toLowerCase] does. *)
Lemma supplied_filters_counterexample :
  exists p,
    Provider.id (ProviderWithUser.provider p) = "id-00" /\
    forall toLowerCase,
      In p (MemStorage.getProviders toLowerCase Examples.empty_category
                                    Examples.mem_plain)
      /\ Contract.satisfies_supplied toLowerCase Examples.empty_category
                                     (ProviderWithUser.provider p) = false.
Proof.
  eexists. split; [|intros toLowerCase; split; [left; reflexivity|]];
    reflexivity.
Qed.

(** C2, amended.  A text filter counts when it is supplied and not empty.
    The in-memory listing returns exactly the stored providers, in order
    and each with its user summary, that satisfy the conjunction of the
    filters that count: [isApproved] by equality of booleans, [location] by
    search of the filter, in lower case, in the provider's location, in
    lower case, [categoryId] by membership in the provider's categories.
    The relational listing does so whenever no location filter counts.
    Whatever [toLowerCase] does. *)
Theorem getProviders_conjunction_of_active_filters
  (toLowerCase : string -> string) :
  (forall filters s,
     MemStorage.getProviders toLowerCase filters s
     = filter (fun p => Contract.satisfies_active
                          toLowerCase filters (ProviderWithUser.provider p))
              (map (MemStorage.with_user s)
                   (JsMap.values (MemStorage.providers s)))) /\
  (forall needle hay,
     Contract.ci_substringb toLowerCase needle hay = true
     <-> exists pre post,
           toLowerCase hay = pre ++ toLowerCase needle ++ post) /\
  (forall like filters db,
     Contract.active (Js.chain ProviderFilters.location filters) = None ->
     DbStorage.getProviders like filters db
     = filter (Contract.satisfies_active toLowerCase filters)
              (DbStorage.providers db)).
Proof.
  split; [exact (mem_getProviders_active toLowerCase)|].
  split; [exact (ci_substringb_iff toLowerCase)|].
  intros like. exact (db_getProviders_active like toLowerCase).
Qed.

(** C2 on the seeded stores, with the lowering of the letters A to Z: in
    the database, the approved providers of the category "id-00" with an
    empty location filter; in memory, the approved providers whose location
    holds "SIDE". *)
Lemma getProviders_conjunction_of_active_filters_witness :
  map Provider.specialty
      (DbStorage.getProviders (fun _ _ => false) Examples.electricians
                              Examples.db_seeded)
  = ["Licensed Electrician"] /\
  map (fun p => Provider.specialty (ProviderWithUser.provider p))
      (MemStorage.getProviders Examples.lower
         (Some (ProviderFilters.mk None (Some "SIDE") (Some true)))
         Examples.mem_seeded)
  = ["Master Plumber"].
Proof.
  destruct (getProviders_conjunction_of_active_filters Examples.lower)
    as (Hmem & _ & Hdb).
  split.
  - rewrite (Hdb (fun _ _ => false) Examples.electricians
                 Examples.db_seeded).
    + vm_compute. reflexivity.
    + reflexivity.
  - rewrite Hmem. vm_compute. reflexivity.
Defined.

(** * Visibility of reviews *)

(** The in-memory listing of reviews returns visible reviews of the
    provider asked for, and nothing else. *)
Lemma mem_getReviews_visible (providerId : string) (s : MemStorage.t)
  (r : Review.t) :
  In r (MemStorage.getReviews providerId s) ->
  Review.providerId r = providerId /\ Review.isVisible r = true.
Proof.
  unfold MemStorage.getReviews. intros H.
  apply filter_In in H as [_ H].
  apply andb_true_iff in H as [Hp Hv].
  apply String.eqb_eq in Hp. auto.
Qed.

(** C1 fails in the relational backend.  [DbStorage.getReviews] selects by
    provider alone: on the database holding one review of "p1" created
    with [isVisible: false] it returns that review, which the in-memory
    backend, given the same creation, does not list. *)
Theorem db_getReviews_lists_hidden_review :
  (forall providerId db,
     DbStorage.getReviews providerId db
     = filter (fun r => String.eqb (Review.providerId r) providerId)
              (DbStorage.reviews db)) /\
  map (fun r => (Review.providerId r, Review.isVisible r))
      (DbStorage.getReviews "p1" Examples.db_hidden) = [("p1", false)] /\
  MemStorage.getReviews "p1" Examples.mem_hidden = [].
Proof.
  split; [reflexivity|]. split; reflexivity.
Qed.

(** * The user summary of listed providers *)

(** Every record of the in-memory listing carries the summary of the user
    stored under the provider's [userId], and [null] when there is none. *)
Lemma mem_getProviders_user_summary (toLowerCase : string -> string)
  (filters : option ProviderFilters.t) (s : MemStorage.t)
  (p : ProviderWithUser.t) :
  In p (MemStorage.getProviders toLowerCase filters s) ->
  ProviderWithUser.user p
  = option_map Contract.summary
      (JsMap.get (MemStorage.users s)
                 (Provider.userId (ProviderWithUser.provider p))).
Proof.
  rewrite mem_getProviders_active. intros H.
  apply filter_In in H as [H _].
  apply in_map_iff in H as (row & <- & _).
  unfold MemStorage.with_user; simpl.
  destruct (JsMap.get _ _); reflexivity.
Qed.

(** C3 fails in the relational backend.  [DbStorage.getProviders] returns
    the rows of the providers table as they are, a [Provider] each, with no
    user attached: after seeding, the three rows listed have their users in
    the users table, and the in-memory listing of the same seed data
    carries the three summaries, whatever [toLowerCase] does. *)
Theorem db_getProviders_lists_bare_rows :
  (forall like db,
     DbStorage.getProviders like None db = DbStorage.providers db) /\
  (forall like,
     map (fun p => option_map User.email
                     (DbStorage.getUser (Provider.userId p)
                                        Examples.db_seeded))
         (DbStorage.getProviders like None Examples.db_seeded)
     = [Some "mike@example.com"; Some "sarah@example.com";
        Some "david@example.com"]) /\
  (forall toLowerCase,
     map (fun p => option_map UserSummary.email (ProviderWithUser.user p))
         (MemStorage.getProviders toLowerCase None Examples.mem_seeded)
     = [Some "mike@example.com"; Some "sarah@example.com";
        Some "david@example.com"]).
Proof.
  split; [reflexivity|].
  split; [intros like | intros toLowerCase]; vm_compute; reflexivity.
Qed.

(** * Properties kept along a computation *)

Section Preservation.

Context {S : Type} (I : S -> Prop).

Lemma preserves_ret {A : Type} (a : A) : preserves I (ret a).
Proof. intros w H. exact H. Qed.

Lemma preserves_bind {A B : Type} (c : M S A) (k : A -> M S B) :
  preserves I c -> (forall a, preserves I (k a)) -> preserves I (bind c k).
Proof.
  intros Hc Hk w H. unfold bind.
  specialize (Hc w H). destruct (c w) as [a w']. apply Hk, Hc.
Qed.

Lemma preserves_randomUUID : preserves I randomUUID.
Proof. intros w H. exact H. Qed.

Lemma preserves_new_Date : preserves I new_Date.
Proof. intros w H. exact H. Qed.

Lemma preserves_bcrypt_hash data rounds : preserves I (bcrypt_hash data rounds).
Proof. intros w H. exact H. Qed.

Lemma preserves_this : preserves I this.
Proof. intros w H. exact H. Qed.

Lemma preserves_on_store {A : Type} (f : S -> A * S) :
  (forall s, I s -> I (snd (f s))) -> preserves I (on_store f).
Proof.
  intros Hf w H. unfold on_store.
  specialize (Hf (snd w) H). destruct (f (snd w)). exact Hf.
Qed.

Lemma preserves_for_of {A : Type} (l : list A) (body : A -> M S unit) :
  (forall x, preserves I (body x)) -> preserves I (for_of l body).
Proof.
  intros Hbody. induction l as [|x l IH]; simpl.
  - apply preserves_ret.
  - apply preserves_bind; [apply Hbody | intros _; exact IH].
Qed.

End Preservation.

(** * Seeding the in-memory backend *)

Lemma mem_createUser_all_unrated (insertUser : InsertUser.t) :
  preserves Contract.all_unrated (MemStorage.createUser insertUser).
Proof.
  unfold MemStorage.createUser.
  apply preserves_bind; [apply preserves_randomUUID | intros id].
  apply preserves_bind; [apply preserves_new_Date | intros now].
  apply preserves_on_store. intros s H. exact H.
Qed.

Lemma mem_createServiceCategory_all_unrated (c : InsertServiceCategory.t) :
  preserves Contract.all_unrated (MemStorage.createServiceCategory c).
Proof.
  unfold MemStorage.createServiceCategory.
  apply preserves_bind; [apply preserves_randomUUID | intros id].
  apply preserves_on_store. intros s H. exact H.
Qed.

(** A provider created without rating and review count has the defaults. *)
Lemma mem_createProvider_all_unrated (input : InsertProvider.t) :
  InsertProvider.rating input = None ->
  InsertProvider.reviewCount input = None ->
  preserves Contract.all_unrated (MemStorage.createProvider input).
Proof.
  intros Hr Hc. unfold MemStorage.createProvider.
  apply preserves_bind; [apply preserves_randomUUID | intros id].
  apply preserves_bind; [apply preserves_new_Date | intros now].
  apply preserves_on_store. intros s H.
  unfold Contract.all_unrated in *. simpl.
  apply JsMapFacts.Forall_values_set; [exact H|].
  unfold Contract.unrated. simpl. rewrite Hr, Hc. split; reflexivity.
Qed.

Lemma mem_seed_all_unrated :
  preserves Contract.all_unrated MemStorage.initializeSeedData.
Proof.
  unfold MemStorage.initializeSeedData.
  apply preserves_bind.
  { apply preserves_for_of. intros cat.
    apply preserves_bind; [apply mem_createServiceCategory_all_unrated|].
    intros _. apply preserves_ret. }
  intros _. apply preserves_bind; [apply preserves_bcrypt_hash | intros hashed].
  apply preserves_bind; [apply mem_createUser_all_unrated | intros _].
  apply preserves_bind; [apply preserves_this | intros s].
  apply preserves_bind; [apply preserves_bcrypt_hash | intros pw1].
  apply preserves_bind; [apply preserves_bcrypt_hash | intros pw2].
  apply preserves_bind; [apply preserves_bcrypt_hash | intros pw3].
  apply preserves_for_of. intros providerData.
  unfold MemStorage.seed_provider.
  apply preserves_bind; [apply mem_createUser_all_unrated | intros user].
  apply preserves_bind; [|intros _; apply preserves_ret].
  apply mem_createProvider_all_unrated; reflexivity.
Qed.

(** C4 fails in the in-memory backend.  Its initializer creates the sample
    providers without rating and review count and calls no update: whatever
    the runtime answers, every provider of the store it leaves, run to its
    end on the empty maps of a new object, has rating "0" and review
    count 0.  With the runtime of the examples, the
    sample ratings "4.9", "4.8" and "5.0" of the data are not those of the
    three stored providers; the relational initializer, which updates each
    provider after creating it, stores its sample values. *)
Theorem mem_seed_drops_sample_ratings :
  (forall rt, Contract.all_unrated (snd (MemStorage.seeded rt))) /\
  (forall pw1 pw2 pw3 c1 c2 c3,
     map SampleProvider.rating
         (MemStorage.sampleProviders pw1 pw2 pw3 c1 c2 c3)
     = ["4.9"; "4.8"; "5.0"]) /\
  map Contract.rated (JsMap.values (MemStorage.providers Examples.mem_seeded))
  = [("Licensed Electrician", "0", 0%Z);
     ("Master Plumber", "0", 0%Z);
     ("Custom Carpenter", "0", 0%Z)] /\
  map Contract.rated (DbStorage.providers Examples.db_seeded)
  = [("Licensed Electrician", "4.9", 127%Z);
     ("Master Plumber", "4.8", 93%Z);
     ("Master Carpenter", "5.0", 45%Z)].
Proof.
  split.
  { intros rt. unfold MemStorage.seeded.
    apply (mem_seed_all_unrated (rt, MemStorage.empty)). constructor. }
  split; [reflexivity|]. split; vm_compute; reflexivity.
Qed.

(** * The rating of a created provider *)

(** C5, as the claim words it, fails: after [updateProvider] with
    [{ rating: "abc" }] the provider "id-00" is stored with the rating
    "abc", which is not decimal-formatted. *)
Lemma stored_rating_counterexample :
  let s := snd (MemStorage.updateProvider "id-00" Examples.text_rating
                                          Examples.mem_plain) in
  Contract.ratings_decimal Examples.mem_plain /\
  option_map Provider.rating (JsMap.get (MemStorage.providers s) "id-00")
    = Some "abc" /\
  ~ Contract.ratings_decimal s.
Proof.
  split; [|split].
  - repeat constructor.
  - reflexivity.
  - intros H. inversion H as [|p l Hp Hl]. discriminate Hp.
Qed.

(** C5, amended.  A provider created in memory is returned, and stored
    under its identifier, with the rating "0" when the input has no rating
    and with the rating of the input when it has one.  [updateProvider] on
    an identifier of the store returns and stores the record with the rating
    of the update when it has one, and with the rating it had otherwise.
    The store keeps whatever rating it is given: the stored ratings stay
    decimal-formatted along [createProvider] and [updateProvider] as long
    as every rating supplied to them is decimal-formatted. *)
Theorem createProvider_default_rating :
  (forall input w,
     let p := fst (MemStorage.createProvider input w) in
     let s' := snd (snd (MemStorage.createProvider input w)) in
     (InsertProvider.rating input = None -> Provider.rating p = "0") /\
     (forall r, InsertProvider.rating input = Some r ->
                Provider.rating p = r) /\
     JsMap.get (MemStorage.providers s') (Provider.id p) = Some p) /\
  (forall id updates s p,
     JsMap.get (MemStorage.providers s) id = Some p ->
     let s' := snd (MemStorage.updateProvider id updates s) in
     exists p',
       fst (MemStorage.updateProvider id updates s) = Some p' /\
       JsMap.get (MemStorage.providers s') id = Some p' /\
       (forall r, PartialProvider.rating updates = Some r ->
                  Provider.rating p' = r) /\
       (PartialProvider.rating updates = None ->
        Provider.rating p' = Provider.rating p)) /\
  (forall input,
     (forall r, InsertProvider.rating input = Some r ->
                Contract.decimal_formatted r = true) ->
     preserves Contract.ratings_decimal (MemStorage.createProvider input)) /\
  (forall id updates s,
     (forall r, PartialProvider.rating updates = Some r ->
                Contract.decimal_formatted r = true) ->
     Contract.ratings_decimal s ->
     Contract.ratings_decimal
       (snd (MemStorage.updateProvider id updates s))).
Proof.
  split; [|split; [|split]].
  - intros input [rt s]. simpl.
    split; [intros Hr; rewrite Hr; reflexivity|].
    split; [intros r Hr; rewrite Hr; reflexivity|].
    apply JsMapFacts.get_set_same.
  - intros id updates s p Hp. unfold MemStorage.updateProvider.
    rewrite Hp. simpl. exists (merge_provider p updates).
    split; [reflexivity|]. split; [apply JsMapFacts.get_set_same|].
    split; [intros r Hr | intros Hr];
      unfold merge_provider; simpl; rewrite Hr; reflexivity.
  - intros input Hin. unfold MemStorage.createProvider.
    apply preserves_bind; [apply preserves_randomUUID | intros id].
    apply preserves_bind; [apply preserves_new_Date | intros now].
    apply preserves_on_store. intros s H.
    unfold Contract.ratings_decimal in *. simpl.
    apply JsMapFacts.Forall_values_set; [exact H|]. simpl.
    destruct (InsertProvider.rating input) as [r|]; simpl;
      [apply Hin; reflexivity | reflexivity].
  - intros id updates s Hup H. unfold MemStorage.updateProvider.
    destruct (JsMap.get (MemStorage.providers s) id) as [p|] eqn:E;
      [|exact H].
    unfold Contract.ratings_decimal in *. simpl.
    apply JsMapFacts.Forall_values_set; [exact H|]. simpl.
    destruct (PartialProvider.rating updates) as [r|]; simpl;
      [apply Hup; reflexivity|].
    apply JsMapFacts.get_In_values in E.
    rewrite Forall_forall in H. apply H, E.
Qed.

(** C5 on the examples.  The provider created from the required fields
    alone has the rating "0".  A second provider, created with the rating
    "4.5", is returned with it, and the stored ratings are decimal-formatted
    afterwards.  The first provider, updated with the rating "4.9", is
    stored with it, and the stored ratings are decimal-formatted
    afterwards. *)
Lemma createProvider_default_rating_witness :
  let w := snd (MemStorage.createProvider Examples.plain_provider
                                          (Examples.rt0, MemStorage.empty)) in
  let s' := snd (MemStorage.updateProvider "id-00" Examples.decimal_rating
                                           Examples.mem_plain) in
  Provider.rating
    (fst (MemStorage.createProvider Examples.plain_provider
                                    (Examples.rt0, MemStorage.empty))) = "0"
  /\
  Provider.rating
    (fst (MemStorage.createProvider Examples.rated_provider w)) = "4.5" /\
  Contract.ratings_decimal
    (snd (snd (MemStorage.createProvider Examples.rated_provider w))) /\
  option_map Provider.rating (JsMap.get (MemStorage.providers s') "id-00")
    = Some "4.9" /\
  Contract.ratings_decimal s'.
Proof.
  intros w s'.
  destruct createProvider_default_rating
    as (Hcreated & Hupdated & Hcreate & Hupdate).
  assert (Hplain : Contract.ratings_decimal Examples.mem_plain)
    by (repeat constructor).
  split; [|split; [|split; [|split]]].
  - destruct (Hcreated Examples.plain_provider
                       (Examples.rt0, MemStorage.empty)) as (Hnone & _ & _).
    apply Hnone. reflexivity.
  - destruct (Hcreated Examples.rated_provider w) as (_ & Hsome & _).
    apply Hsome. reflexivity.
  - apply (Hcreate Examples.rated_provider).
    + intros r [= <-]. reflexivity.
    + exact Hplain.
  - destruct (JsMap.get (MemStorage.providers Examples.mem_plain) "id-00")
      as [p|] eqn:E; [|vm_compute in E; discriminate].
    destruct (Hupdated "id-00" Examples.decimal_rating Examples.mem_plain
                       p E) as (p' & _ & Hget & Hrating & _).
    unfold s'. rewrite Hget. cbn [option_map].
    rewrite (Hrating "4.9" eq_refl). reflexivity.
  - apply Hupdate.
    + intros r [= <-]. reflexivity.
    + exact Hplain.
Defined.

(** * Seeding the relational backend *)

Lemma bind_this {S B : Type} (k : S -> M S B) (w : Runtime * S) :
  bind this k w = k (snd w) w.
Proof. reflexivity. Qed.

(** The initializer returns at once when a category row exists. *)
Lemma db_seed_noop (rt : Runtime) (db : DbStorage.Database) :
  DbStorage.serviceCategories db <> [] ->
  DbStorage.initializeSeedData (rt, db) = (Returned tt, (rt, db)).
Proof.
  intros Hne. unfold DbStorage.initializeSeedData.
  rewrite bind_this. cbn [snd]. unfold Drizzle.select_from.
  destruct (DbStorage.serviceCategories db) as [|c l]; [contradiction|].
  reflexivity.
Qed.

(** C6.  The relational initializer returns without a change on a database
    that holds a service category.  Run on the empty database, whatever the
    runtime answers, it returns and leaves the eight categories and the
    four users (the administrator and the three sample providers); run a
    second time, it changes nothing. *)
Theorem db_seed_idempotent :
  (forall rt db,
     DbStorage.serviceCategories db <> [] ->
     DbStorage.initializeSeedData (rt, db) = (Returned tt, (rt, db))) /\
  (forall rt,
     let once := snd (DbStorage.initializeSeedData (rt, DbStorage.empty)) in
     let twice := snd (DbStorage.initializeSeedData once) in
     fst (DbStorage.initializeSeedData (rt, DbStorage.empty)) = Returned tt /\
     twice = once /\
     length (DbStorage.serviceCategories (snd twice)) = 8 /\
     length (DbStorage.users (snd twice)) = 4 /\
     map ServiceCategory.name (DbStorage.serviceCategories (snd twice))
     = ["Electrical"; "Plumbing"; "Carpentry"; "HVAC"; "General Contracting";
        "Landscaping"; "Painting"; "Cleaning Services"] /\
     map (fun u => (User.email u, User.role u)) (DbStorage.users (snd twice))
     = [("admin@localfix.com", RoleAdmin);
        ("mike@example.com", RoleProvider);
        ("sarah@example.com", RoleProvider);
        ("david@example.com", RoleProvider)]).
Proof.
  split; [exact db_seed_noop|].
  intros rt once twice.
  assert (Hcats : map ServiceCategory.name
                      (DbStorage.serviceCategories (snd once))
                  = ["Electrical"; "Plumbing"; "Carpentry"; "HVAC";
                     "General Contracting"; "Landscaping"; "Painting";
                     "Cleaning Services"])
    by (vm_compute; reflexivity).
  assert (Husers : map (fun u => (User.email u, User.role u))
                       (DbStorage.users (snd once))
                   = [("admin@localfix.com", RoleAdmin);
                      ("mike@example.com", RoleProvider);
                      ("sarah@example.com", RoleProvider);
                      ("david@example.com", RoleProvider)])
    by (vm_compute; reflexivity).
  assert (Hsame : twice = once).
  { unfold twice. clearbody once. destruct once as [rt1 db1].
    cbn [snd] in Hcats. rewrite db_seed_noop; [reflexivity|].
    intros Hnil. rewrite Hnil in Hcats. discriminate Hcats. }
  rewrite Hsame. split; [vm_compute; reflexivity|].
  clearbody once. clear twice Hsame.
  split; [reflexivity|].
  split; [rewrite <- (length_map ServiceCategory.name), Hcats; reflexivity|].
  split; [|split; assumption].
  rewrite <- (length_map (fun u => (User.email u, User.role u))), Husers.
  reflexivity.
Qed.

(** C6 on the database seeded with the runtime of the examples: a further
    run of the initializer returns it as it is. *)
Lemma db_seed_idempotent_witness :
  snd (snd (DbStorage.initializeSeedData (Examples.rt0, Examples.db_seeded)))
  = Examples.db_seeded.
Proof.
  destruct db_seed_idempotent as (Hnoop & _).
  rewrite (Hnoop Examples.rt0 Examples.db_seeded).
  - reflexivity.
  - vm_compute. discriminate.
Defined.

(** * Further properties of the in-memory backend: creation *)

Section MapCreation.

Context {V : Type}.
Implicit Types (m : JsMap.t V) (k j : string) (v : V).

Lemma set_fresh m k v :
  JsMap.get m k = None -> JsMap.set m k v = (m ++ [(k, v)])%list.
Proof. intros H. unfold JsMap.set, JsMap.has. rewrite H. reflexivity. Qed.

Lemma get_set m k j v :
  JsMap.get (JsMap.set m k v) j
  = if String.eqb k j then Some v else JsMap.get m j.
Proof.
  destruct (String.eqb_spec k j) as [<-|Hne].
  - apply JsMapFacts.get_set_same.
  - apply JsMapFacts.get_set_other. congruence.
Qed.

Lemma values_set_fresh m k v :
  JsMap.has m k = false ->
  JsMap.values (JsMap.set m k v) = (JsMap.values m ++ [v])%list.
Proof.
  intros H. apply JsMapFacts.has_false_get in H.
  rewrite (set_fresh _ _ _ H). unfold JsMap.values.
  rewrite map_app. reflexivity.
Qed.

Lemma stored_by_set (key : V -> string) m v :
  Props.stored_by_create key m (JsMap.set m (key v) v) v.
Proof.
  split; [apply JsMapFacts.get_set_same|].
  split; [intros j Hj; apply JsMapFacts.get_set_other, Hj|].
  split; intros H.
  - apply values_set_fresh, H.
  - apply JsMapFacts.keys_set_present, H.
Qed.

End MapCreation.

(** X1.  In the in-memory backend every creation takes the next identifier
    of the runtime, returns the record with that identifier and stores it
    under it, so that the getter by identifier answers the record; no other
    key of the collection changes and no other collection changes; when the
    identifier is new the record is enumerated last, and when it is already
    in use the record replaces the one held, in its place. *)
Theorem mem_create_stores_one_record (w : Runtime * MemStorage.t) :
  (forall insertUser,
     let r := MemStorage.createUser insertUser w in
     User.id (fst r) = Props.next_id w /\
     MemStorage.getUser (User.id (fst r)) (snd (snd r)) = Some (fst r) /\
     Props.stored_by_create User.id (MemStorage.users (snd w))
       (MemStorage.users (snd (snd r))) (fst r) /\
     Contract.only_users (snd w) (snd (snd r))) /\
  (forall category,
     let r := MemStorage.createServiceCategory category w in
     ServiceCategory.id (fst r) = Props.next_id w /\
     In (fst r) (MemStorage.getServiceCategories (snd (snd r))) /\
     Props.stored_by_create ServiceCategory.id
       (MemStorage.serviceCategories (snd w))
       (MemStorage.serviceCategories (snd (snd r))) (fst r) /\
     Props.only_serviceCategories (snd w) (snd (snd r))) /\
  (forall provider,
     let r := MemStorage.createProvider provider w in
     Provider.id (fst r) = Props.next_id w /\
     MemStorage.getProvider (Provider.id (fst r)) (snd (snd r))
       = Some (fst r) /\
     Props.stored_by_create Provider.id (MemStorage.providers (snd w))
       (MemStorage.providers (snd (snd r))) (fst r) /\
     Contract.only_providers (snd w) (snd (snd r))) /\
  (forall pc,
     let r := MemStorage.createProviderCategory pc w in
     ProviderCategory.id (fst r) = Props.next_id w /\
     In (fst r)
        (MemStorage.getProviderCategories
           (InsertProviderCategory.providerId pc) (snd (snd r))) /\
     Props.stored_by_create ProviderCategory.id
       (MemStorage.providerCategories (snd w))
       (MemStorage.providerCategories (snd (snd r))) (fst r) /\
     Props.only_providerCategories (snd w) (snd (snd r))) /\
  (forall booking,
     let r := MemStorage.createBooking booking w in
     Booking.id (fst r) = Props.next_id w /\
     MemStorage.getBooking (Booking.id (fst r)) (snd (snd r))
       = Some (fst r) /\
     Props.stored_by_create Booking.id (MemStorage.bookings (snd w))
       (MemStorage.bookings (snd (snd r))) (fst r) /\
     Contract.only_bookings (snd w) (snd (snd r))) /\
  (forall review,
     let r := MemStorage.createReview review w in
     Review.id (fst r) = Props.next_id w /\
     In (fst r) (JsMap.values (MemStorage.reviews (snd (snd r)))) /\
     Props.stored_by_create Review.id (MemStorage.reviews (snd w))
       (MemStorage.reviews (snd (snd r))) (fst r) /\
     Contract.only_reviews (snd w) (snd (snd r))).
Proof.
  destruct w as [rt [us cs ps pcs bs rs]].
  split; [|split; [|split; [|split; [|split]]]]; intros x r; subst r;
    (split; [reflexivity|]).
  - split; [apply JsMapFacts.get_set_same|].
    split; [|reflexivity].
    exact (stored_by_set User.id us _).
  - split; [apply JsMapFacts.In_values_set|].
    split; [|reflexivity].
    exact (stored_by_set ServiceCategory.id cs _).
  - split; [apply JsMapFacts.get_set_same|].
    split; [|reflexivity].
    exact (stored_by_set Provider.id ps _).
  - split.
    { unfold MemStorage.getProviderCategories. apply filter_In. split.
      - apply JsMapFacts.In_values_set.
      - apply String.eqb_refl. }
    split; [|reflexivity].
    exact (stored_by_set ProviderCategory.id pcs _).
  - split; [apply JsMapFacts.get_set_same|].
    split; [|reflexivity].
    exact (stored_by_set Booking.id bs _).
  - split; [apply JsMapFacts.In_values_set|].
    split; [|reflexivity].
    exact (stored_by_set Review.id rs _).
Qed.

(** X1 on the seeded store: a user created next gets the identifier
    "id-26", which is new, and is enumerated last. *)
Lemma mem_create_stores_one_record_witness :
  let w := MemStorage.seeded Examples.rt0 in
  let u := InsertUser.mk "eve@example.com" "pw" "Eve" "Moss" None None in
  map User.email
      (MemStorage.getAllUsers (snd (snd (MemStorage.createUser u w))))
  = ["admin@localfix.com"; "mike@example.com"; "sarah@example.com";
     "david@example.com"; "eve@example.com"].
Proof.
  intros w u.
  destruct (mem_create_stores_one_record w) as (Hu & _).
  destruct (Hu u) as (_ & _ & (_ & _ & Hnew & _) & _).
  unfold MemStorage.getAllUsers. rewrite Hnew.
  - vm_compute. reflexivity.
  - vm_compute. reflexivity.
Defined.

(** * Lookups by a field that is not the key *)

Lemma find_first_match {A : Type} (f : A -> bool) (l : list A) :
  Props.first_match f l (List.find f l).
Proof.
  induction l as [|x l IH]; simpl; [constructor|].
  destruct (f x) eqn:E.
  - split; [exact E|]. exists [], l. split; [reflexivity | constructor].
  - destruct (List.find f l) as [a|]; simpl in *.
    + destruct IH as (Ha & before & after & -> & Hb).
      split; [exact Ha|]. exists (x :: before), after.
      split; [reflexivity | constructor; assumption].
    + constructor; assumption.
Qed.

Lemma first_where_find {A : Type} (f : A -> bool) (l : list A) :
  Drizzle.first (Drizzle.where_ f l) = List.find f l.
Proof.
  unfold Drizzle.first, Drizzle.where_.
  induction l as [|x l IH]; simpl; [reflexivity|].
  destruct (f x); [reflexivity | exact IH].
Qed.

Lemma first_where_some {A : Type} (f : A -> bool) (l : list A) (a : A) :
  Drizzle.first (Drizzle.where_ f l) = Some a -> In a l /\ f a = true.
Proof. rewrite first_where_find. apply find_some. Qed.

Lemma first_where_none {A : Type} (f : A -> bool) (l : list A) :
  Drizzle.first (Drizzle.where_ f l) = None
  <-> forall a, In a l -> f a = false.
Proof.
  rewrite first_where_find. split; [apply find_none|].
  intros H. destruct (List.find f l) as [a|] eqn:E; [|reflexivity].
  apply find_some in E as [Hin Hf]. rewrite (H a Hin) in Hf. discriminate.
Qed.

(** X2.  In the in-memory backend [getUserByEmail] and
    [getProviderByUserId] answer the first record, in the order in which
    the map enumerates its values, whose email (user identifier) is the one
    asked for, and the absent value exactly when no record has it.  In the
    relational backend they answer a row of the table with the email (user
    identifier) asked for, and the absent value exactly when no row has
    it. *)
Theorem lookup_answers_first_match :
  (forall email s,
     Props.first_match (fun u => String.eqb (User.email u) email)
       (MemStorage.getAllUsers s) (MemStorage.getUserByEmail email s)) /\
  (forall userId s,
     Props.first_match (fun p => String.eqb (Provider.userId p) userId)
       (JsMap.values (MemStorage.providers s))
       (MemStorage.getProviderByUserId userId s)) /\
  (forall email db,
     (forall u, DbStorage.getUserByEmail email db = Some u ->
        In u (DbStorage.getAllUsers db) /\ User.email u = email) /\
     (DbStorage.getUserByEmail email db = None
      <-> forall u, In u (DbStorage.getAllUsers db) ->
                    User.email u <> email)) /\
  (forall userId db,
     (forall p, DbStorage.getProviderByUserId userId db = Some p ->
        In p (DbStorage.providers db) /\ Provider.userId p = userId) /\
     (DbStorage.getProviderByUserId userId db = None
      <-> forall p, In p (DbStorage.providers db) ->
                    Provider.userId p <> userId)).
Proof.
  split; [|split; [|split]].
  - intros email s. apply find_first_match.
  - intros userId s. apply find_first_match.
  - intros email db. unfold DbStorage.getUserByEmail, DbStorage.getAllUsers.
    split.
    + intros u H. apply first_where_some in H as [Hin Hf].
      split; [exact Hin | apply String.eqb_eq, Hf].
    + rewrite first_where_none. unfold Drizzle.eq.
      split; intros H u Hin; specialize (H u Hin).
      * apply String.eqb_neq, H.
      * apply String.eqb_neq, H.
  - intros userId db. unfold DbStorage.getProviderByUserId.
    split.
    + intros p H. apply first_where_some in H as [Hin Hf].
      split; [exact Hin | apply String.eqb_eq, Hf].
    + rewrite first_where_none. unfold Drizzle.eq.
      split; intros H p Hin; specialize (H p Hin).
      * apply String.eqb_neq, H.
      * apply String.eqb_neq, H.
Qed.

(** X2 on the seeded database: the lookup by Mike's email answers a row
    with that email; the lookup by another email answers the absent value,
    and no row has that email. *)
Lemma lookup_answers_first_match_witness :
  option_map User.email
    (DbStorage.getUserByEmail "mike@example.com" Examples.db_seeded)
  = Some "mike@example.com" /\
  forall u, In u (DbStorage.getAllUsers Examples.db_seeded) ->
            User.email u <> "nobody@example.com".
Proof.
  destruct (DbStorage.getUserByEmail "mike@example.com" Examples.db_seeded)
    as [u|] eqn:E; [|vm_compute in E; discriminate].
  destruct lookup_answers_first_match as (_ & _ & Hdb & _).
  split.
  - destruct (Hdb "mike@example.com" Examples.db_seeded) as (Hsome & _).
    destruct (Hsome u E) as (_ & Hemail).
    cbn [option_map]. rewrite Hemail. reflexivity.
  - destruct (Hdb "nobody@example.com" Examples.db_seeded) as (_ & Hnone).
    apply (proj1 Hnone). vm_compute. reflexivity.
Defined.

Lemma find_app {A : Type} (f : A -> bool) (l l' : list A) :
  List.find f (l ++ l')
  = match List.find f l with
    | Some a => Some a
    | None => List.find f l'
    end.
Proof.
  induction l as [|x l IH]; simpl; [reflexivity|].
  destruct (f x); [reflexivity | exact IH].
Qed.

(** X3.  The in-memory backend does not refuse a second user with an email
    already held: when the identifier handed out is new, the user is stored
    after the others, and the lookup by email answers what it answered
    before whenever that was a user, and else the new user if the email
    asked for is the new user's. *)
Theorem createUser_keeps_earlier_email_owner
  (insertUser : InsertUser.t) (email : string)
  (w : Runtime * MemStorage.t) :
  JsMap.has (MemStorage.users (snd w)) (Props.next_id w) = false ->
  let r := MemStorage.createUser insertUser w in
  MemStorage.getAllUsers (snd (snd r))
  = (MemStorage.getAllUsers (snd w) ++ [fst r])%list /\
  MemStorage.getUserByEmail email (snd (snd r))
  = match MemStorage.getUserByEmail email (snd w) with
    | Some earlier => Some earlier
    | None =>
        if String.eqb (InsertUser.email insertUser) email
        then Some (fst r) else None
    end.
Proof.
  destruct w as [rt s]. intros Hnew r.
  assert (Hall : MemStorage.getAllUsers (snd (snd r))
                 = (MemStorage.getAllUsers s ++ [fst r])%list).
  { destruct s as [us cs ps pcs bs rs].
    exact (values_set_fresh us _ _ Hnew). }
  split; [exact Hall|].
  unfold MemStorage.getUserByEmail, Js.find.
  change (JsMap.values (MemStorage.users (snd (snd r))))
    with (MemStorage.getAllUsers (snd (snd r))).
  rewrite Hall, find_app. unfold MemStorage.getAllUsers. simpl snd.
  destruct (List.find _ (JsMap.values (MemStorage.users s)));
    [reflexivity|].
  simpl. destruct (String.eqb _ email); reflexivity.
Qed.

(** X3 on the seeded store: a second user created with Mike's email is
    stored as the fifth user, and the lookup by that email still answers
    the user "id-14" created by the initializer. *)
Lemma createUser_keeps_earlier_email_owner_witness :
  let w := MemStorage.seeded Examples.rt0 in
  let u := InsertUser.mk "mike@example.com" "pw" "Mo" "Ike" None None in
  let s' := snd (snd (MemStorage.createUser u w)) in
  length (MemStorage.getAllUsers s') = 5 /\
  option_map User.id (MemStorage.getUserByEmail "mike@example.com" s')
  = Some "id-14".
Proof.
  intros w u s'.
  destruct (createUser_keeps_earlier_email_owner u "mike@example.com" w)
    as (Hall & Hfind).
  - vm_compute. reflexivity.
  - split.
    + unfold s'. rewrite Hall. vm_compute. reflexivity.
    + unfold s'. rewrite Hfind. vm_compute. reflexivity.
Defined.

(** * The listing of bookings *)

(** X4.  In the in-memory backend [getBookings] returns exactly the
    bookings, in the order in which the map enumerates them, that satisfy
    the conjunction of the filters supplied and not empty, [customerId],
    [providerId] and [status] each by equality.  In the relational backend
    it returns the rows of the table that satisfy the same conjunction, and
    no other. *)
Theorem getBookings_conjunction_of_active_filters :
  (forall filters s,
     MemStorage.getBookings filters s
     = filter (Props.booking_matches filters)
              (JsMap.values (MemStorage.bookings s))) /\
  (forall filters db b,
     In b (DbStorage.getBookings filters db)
     <-> In b (DbStorage.bookings db)
         /\ Props.booking_matches filters b = true).
Proof.
  split.
  - intros filters s.
    unfold MemStorage.getBookings, Props.booking_matches, Contract.active.
    destruct filters as [[c p st]|]; simpl; [|symmetry; apply filter_true].
    destruct c as [c|], p as [p|], st as [st|]; simpl;
      try destruct (Js.truthy c); try destruct (Js.truthy p);
      try destruct (Js.truthy st);
      rewrite ?filter_and;
      first [ symmetry; apply filter_true
            | apply filter_ext; intros b; simpl;
              rewrite ?andb_true_r, ?andb_assoc; reflexivity ].
  - intros filters db b. rewrite <- filter_In.
    assert (E : DbStorage.getBookings filters db
                = filter (Props.booking_matches filters)
                         (DbStorage.bookings db));
      [|rewrite E; reflexivity].
    unfold DbStorage.getBookings, Props.booking_matches, Contract.active.
    unfold Drizzle.where_, Drizzle.select_from.
    destruct filters as [[c p st]|]; simpl; [|symmetry; apply filter_true].
    destruct c as [c|], p as [p|], st as [st|]; simpl;
      try destruct (Js.truthy c); try destruct (Js.truthy p);
      try destruct (Js.truthy st); simpl;
      first [ symmetry; apply filter_true
            | apply filter_ext; intros b'; unfold Drizzle.and_, Drizzle.eq;
              simpl; rewrite ?andb_true_r, ?andb_assoc; reflexivity ].
Qed.

(** X4 on the empty database with one booking of the customer "c1": the
    listing for that customer holds the booking. *)
Lemma getBookings_conjunction_of_active_filters_witness :
  let r := DbStorage.createBooking
             (InsertBooking.mk "c1" "p1" None None None None None)
             (Examples.rt0, DbStorage.empty) in
  In (fst r)
     (DbStorage.getBookings (Some (BookingFilters.mk (Some "c1") None None))
                            (snd (snd r))).
Proof.
  intros r.
  destruct getBookings_conjunction_of_active_filters as (_ & Hdb).
  apply (proj2 (Hdb (Some (BookingFilters.mk (Some "c1") None None))
                    (snd (snd r)) (fst r))).
  split; [left; reflexivity | reflexivity].
Defined.

(** * The location filter and the case of letters *)

(** X5.  The in-memory listing of providers sees the location asked for
    only through [toLowerCase]: two locations with the same lower case give
    the same listing, whatever the other filters and the store.  For every
    [toLowerCase] that maps the empty string to itself. *)
Theorem location_filter_ignores_case (toLowerCase : string -> string)
  (l l' : string) :
  toLowerCase "" = "" ->
  toLowerCase l = toLowerCase l' ->
  forall c a s,
    MemStorage.getProviders toLowerCase
      (Some (ProviderFilters.mk c (Some l) a)) s
    = MemStorage.getProviders toLowerCase
        (Some (ProviderFilters.mk c (Some l') a)) s.
Proof.
  intros Hempty H c a s. rewrite !mem_getProviders_active.
  apply filter_ext. intros p.
  unfold Contract.satisfies_active, Contract.active; simpl.
  assert (Hall : forall hay, Contract.ci_substringb toLowerCase "" hay = true).
  { intros hay. apply ci_substringb_iff. rewrite Hempty.
    exists "", (toLowerCase hay). reflexivity. }
  unfold Js.truthy.
  destruct (String.eqb_spec l "") as [->|Hl],
           (String.eqb_spec l' "") as [->|Hl']; simpl.
  - reflexivity.
  - replace (Contract.ci_substringb toLowerCase l' (Provider.location
                                                      (ProviderWithUser.provider p)))
      with true; [reflexivity|].
    symmetry. unfold Contract.ci_substringb. rewrite <- H. apply Hall.
  - replace (Contract.ci_substringb toLowerCase l (Provider.location
                                                     (ProviderWithUser.provider p)))
      with true; [reflexivity|].
    symmetry. unfold Contract.ci_substringb. rewrite H. apply Hall.
  - unfold Contract.ci_substringb. rewrite H. reflexivity.
Qed.

(** X5 with the lowering of the letters A to Z, on the seeded store:
    "NORTH" and "north" list the same provider. *)
Lemma location_filter_ignores_case_witness :
  map (fun p => Provider.specialty (ProviderWithUser.provider p))
      (MemStorage.getProviders Examples.lower
         (Some (ProviderFilters.mk None (Some "NORTH") None))
         Examples.mem_seeded)
  = ["Master Plumber"].
Proof.
  rewrite (location_filter_ignores_case Examples.lower "NORTH" "north"
             eq_refl eq_refl).
  vm_compute. reflexivity.
Defined.

(** * Further properties of the in-memory backend: updates *)

Section MapRewrite.

Context {V : Type}.
Implicit Types (m : JsMap.t V) (k : string) (v : V).

Lemma overwrite_absent m k v :
  ~ In k (JsMap.keys m) -> JsMap.overwrite m k v = m.
Proof.
  induction m as [|[k' v'] m IH]; simpl; [reflexivity|].
  intros H. destruct (String.eqb_spec k' k) as [->|Hk].
  - exfalso. apply H. left. reflexivity.
  - f_equal. apply IH. intros Hin. apply H. right. exact Hin.
Qed.

(** Writing back the value a key holds changes nothing. *)
Lemma set_same m k v :
  NoDup (JsMap.keys m) -> JsMap.get m k = Some v -> JsMap.set m k v = m.
Proof.
  intros Hnd Hget. unfold JsMap.set, JsMap.has. rewrite Hget.
  induction m as [|[k' v'] m IH]; simpl in *; [discriminate|].
  inversion Hnd as [|x l Hx Hl]; subst.
  destruct (String.eqb_spec k' k) as [->|Hk].
  - injection Hget as ->. f_equal. apply overwrite_absent, Hx.
  - f_equal. apply IH; assumption.
Qed.

Lemma overwrite_overwrite m k v v' :
  JsMap.overwrite (JsMap.overwrite m k v) k v' = JsMap.overwrite m k v'.
Proof.
  induction m as [|[k' v0] m IH]; simpl; [reflexivity|].
  rewrite IH. destruct (String.eqb k' k); reflexivity.
Qed.

(** Two writes under a key that is present leave what the second alone
    leaves. *)
Lemma set_set_present m k v v' :
  JsMap.has m k = true ->
  JsMap.set (JsMap.set m k v) k v' = JsMap.set m k v'.
Proof.
  intros H. unfold JsMap.set at 2 3. rewrite H.
  unfold JsMap.set, JsMap.has.
  rewrite JsMapFacts.get_overwrite_same.
  apply JsMapFacts.has_get in H as [v0 H]. rewrite H.
  apply overwrite_overwrite.
Qed.

End MapRewrite.

Lemma spread_twice {A : Type} (a : A) (x : option A) :
  Js.spread (Js.spread a x) x = Js.spread a x.
Proof. destruct x; reflexivity. Qed.

Lemma merge_user_none (u : User.t) : merge_user u PartialUser.none = u.
Proof. destruct u; reflexivity. Qed.

Lemma merge_provider_none (p : Provider.t) :
  merge_provider p PartialProvider.none = p.
Proof. destruct p; reflexivity. Qed.

Lemma merge_booking_none (b : Booking.t) :
  merge_booking b PartialBooking.none = b.
Proof. destruct b; reflexivity. Qed.

Lemma merge_review_none (r : Review.t) :
  merge_review r PartialReview.none = r.
Proof. destruct r; reflexivity. Qed.

(** X6.  In a store of the in-memory backend whose maps hold no key twice,
    an update that supplies no field answers the record held under the
    identifier and returns the store as it was. *)
Theorem update_with_no_field_is_noop (s : MemStorage.t) (id : string) :
  Props.keys_distinct s ->
  (forall u, MemStorage.getUser id s = Some u ->
     MemStorage.updateUser id PartialUser.none s = (Some u, s)) /\
  (forall p, MemStorage.getProvider id s = Some p ->
     MemStorage.updateProvider id PartialProvider.none s = (Some p, s)) /\
  (forall b, MemStorage.getBooking id s = Some b ->
     MemStorage.updateBooking id PartialBooking.none s = (Some b, s)) /\
  (forall r, JsMap.get (MemStorage.reviews s) id = Some r ->
     MemStorage.updateReview id PartialReview.none s = (Some r, s)).
Proof.
  destruct s as [us cs ps pcs bs rs].
  intros (Hus & _ & Hps & _ & Hbs & Hrs); simpl in *.
  split; [|split; [|split]].
  - intros u H. unfold MemStorage.getUser in H.
    unfold MemStorage.updateUser; simpl in *. rewrite H.
    rewrite merge_user_none, (set_same us id u Hus H). reflexivity.
  - intros p H. unfold MemStorage.getProvider in H.
    unfold MemStorage.updateProvider; simpl in *. rewrite H.
    rewrite merge_provider_none, (set_same ps id p Hps H). reflexivity.
  - intros b H. unfold MemStorage.getBooking in H.
    unfold MemStorage.updateBooking; simpl in *. rewrite H.
    rewrite merge_booking_none, (set_same bs id b Hbs H). reflexivity.
  - intros r H.
    unfold MemStorage.updateReview; simpl in *. rewrite H.
    rewrite merge_review_none, (set_same rs id r Hrs H). reflexivity.
Qed.

(** X7.  In the in-memory backend two updates in a row under an identifier
    that is present answer the record merged twice, the later update
    winning field by field, and leave the store that a single write of this
    record leaves; in particular an update repeated leaves what it left the
    first time.  Shown for [updateUser] and [updateProvider]. *)
Theorem update_after_update (s : MemStorage.t) (id : string) :
  (forall u u1 u2,
     MemStorage.getUser id s = Some u ->
     MemStorage.updateUser id u2 (snd (MemStorage.updateUser id u1 s))
     = (Some (merge_user (merge_user u u1) u2),
        MemStorage.with_users
          (JsMap.set (MemStorage.users s) id
                     (merge_user (merge_user u u1) u2)) s)) /\
  (forall p u1 u2,
     MemStorage.getProvider id s = Some p ->
     MemStorage.updateProvider id u2
       (snd (MemStorage.updateProvider id u1 s))
     = (Some (merge_provider (merge_provider p u1) u2),
        MemStorage.with_providers
          (JsMap.set (MemStorage.providers s) id
                     (merge_provider (merge_provider p u1) u2)) s)) /\
  (forall u,
     MemStorage.updateUser id u (snd (MemStorage.updateUser id u s))
     = MemStorage.updateUser id u s) /\
  (forall u,
     MemStorage.updateProvider id u (snd (MemStorage.updateProvider id u s))
     = MemStorage.updateProvider id u s).
Proof.
  destruct s as [us cs ps pcs bs rs].
  assert (Hu : forall u u1 u2,
            JsMap.get us id = Some u ->
            MemStorage.updateUser id u2
              (snd (MemStorage.updateUser id u1
                      (MemStorage.mk us cs ps pcs bs rs)))
            = (Some (merge_user (merge_user u u1) u2),
               MemStorage.mk
                 (JsMap.set us id (merge_user (merge_user u u1) u2))
                 cs ps pcs bs rs)).
  { intros u u1 u2 H. unfold MemStorage.updateUser; simpl. rewrite H; simpl.
    rewrite JsMapFacts.get_set_same. unfold MemStorage.with_users; simpl.
    rewrite set_set_present; [reflexivity|].
    apply JsMapFacts.has_get. eauto. }
  assert (Hp : forall p u1 u2,
            JsMap.get ps id = Some p ->
            MemStorage.updateProvider id u2
              (snd (MemStorage.updateProvider id u1
                      (MemStorage.mk us cs ps pcs bs rs)))
            = (Some (merge_provider (merge_provider p u1) u2),
               MemStorage.mk us cs
                 (JsMap.set ps id (merge_provider (merge_provider p u1) u2))
                 pcs bs rs)).
  { intros p u1 u2 H. unfold MemStorage.updateProvider; simpl.
    rewrite H; simpl.
    rewrite JsMapFacts.get_set_same. unfold MemStorage.with_providers; simpl.
    rewrite set_set_present; [reflexivity|].
    apply JsMapFacts.has_get. eauto. }
  split; [exact Hu|]. split; [exact Hp|]. split.
  - intros u. destruct (JsMap.get us id) as [x|] eqn:E.
    + rewrite (Hu x u u eq_refl).
      unfold MemStorage.updateUser; simpl. rewrite E.
      unfold merge_user; simpl. rewrite !spread_twice. reflexivity.
    + unfold MemStorage.updateUser; simpl. rewrite E; simpl. rewrite E.
      reflexivity.
  - intros u. destruct (JsMap.get ps id) as [x|] eqn:E.
    + rewrite (Hp x u u eq_refl).
      unfold MemStorage.updateProvider; simpl. rewrite E.
      unfold merge_provider; simpl. rewrite !spread_twice. reflexivity.
    + unfold MemStorage.updateProvider; simpl. rewrite E; simpl. rewrite E.
      reflexivity.
Qed.

(** * Invariants of the in-memory store *)

Ltac split_invariant :=
  repeat match goal with
         | |- _ /\ _ => split
         end.

Ltac run_create :=
  repeat (apply preserves_bind;
          [first [apply preserves_randomUUID | apply preserves_new_Date]
          | intro]);
  apply preserves_on_store.

Lemma keys_distinct_createUser x :
  preserves Props.keys_distinct (MemStorage.createUser x).
Proof.
  unfold MemStorage.createUser. run_create.
  intros s (H1 & H2 & H3 & H4 & H5 & H6); unfold Props.keys_distinct; simpl.
  split_invariant; try assumption. apply JsMapFacts.NoDup_keys_set, H1.
Qed.

Lemma keys_distinct_createServiceCategory x :
  preserves Props.keys_distinct (MemStorage.createServiceCategory x).
Proof.
  unfold MemStorage.createServiceCategory. run_create.
  intros s (H1 & H2 & H3 & H4 & H5 & H6); unfold Props.keys_distinct; simpl.
  split_invariant; try assumption. apply JsMapFacts.NoDup_keys_set, H2.
Qed.

Lemma keys_distinct_createProvider x :
  preserves Props.keys_distinct (MemStorage.createProvider x).
Proof.
  unfold MemStorage.createProvider. run_create.
  intros s (H1 & H2 & H3 & H4 & H5 & H6); unfold Props.keys_distinct; simpl.
  split_invariant; try assumption. apply JsMapFacts.NoDup_keys_set, H3.
Qed.

(** The initializer keeps what the creations of users, categories and
    providers keep. *)
Lemma mem_seed_preserves (I : MemStorage.t -> Prop) :
  (forall x, preserves I (MemStorage.createUser x)) ->
  (forall x, preserves I (MemStorage.createServiceCategory x)) ->
  (forall x, preserves I (MemStorage.createProvider x)) ->
  preserves I MemStorage.initializeSeedData.
Proof.
  intros Hu Hc Hp. unfold MemStorage.initializeSeedData.
  apply preserves_bind.
  { apply preserves_for_of. intros cat.
    apply preserves_bind; [apply Hc | intros _; apply preserves_ret]. }
  intros _. apply preserves_bind; [apply preserves_bcrypt_hash | intros h].
  apply preserves_bind; [apply Hu | intros _].
  apply preserves_bind; [apply preserves_this | intros s].
  apply preserves_bind; [apply preserves_bcrypt_hash | intros pw1].
  apply preserves_bind; [apply preserves_bcrypt_hash | intros pw2].
  apply preserves_bind; [apply preserves_bcrypt_hash | intros pw3].
  apply preserves_for_of. intros providerData.
  unfold MemStorage.seed_provider.
  apply preserves_bind; [apply Hu | intros user].
  apply preserves_bind; [apply Hp | intros _; apply preserves_ret].
Qed.

Lemma keys_distinct_empty : Props.keys_distinct MemStorage.empty.
Proof. unfold Props.keys_distinct; simpl. split_invariant; constructor. Qed.

Lemma keys_distinct_seeded rt :
  Props.keys_distinct (snd (MemStorage.seeded rt)).
Proof.
  unfold MemStorage.seeded.
  apply (mem_seed_preserves Props.keys_distinct
           keys_distinct_createUser keys_distinct_createServiceCategory
           keys_distinct_createProvider (rt, MemStorage.empty)).
  apply keys_distinct_empty.
Qed.

(** X6 on the seeded store: the update of the administrator
    "id-09" with no field returns the store. *)
Lemma update_with_no_field_is_noop_witness :
  snd (MemStorage.updateUser "id-09" PartialUser.none Examples.mem_seeded)
  = Examples.mem_seeded.
Proof.
  destruct (update_with_no_field_is_noop Examples.mem_seeded "id-09")
    as (Hu & _).
  - apply keys_distinct_seeded.
  - destruct (MemStorage.getUser "id-09" Examples.mem_seeded) as [u|] eqn:E;
      [|vm_compute in E; discriminate].
    rewrite (Hu u eq_refl). reflexivity.
Defined.

(** X7 on the seeded store: the provider "id-16" updated with the
    rating "abc" and then with nothing has the rating "abc". *)
Lemma update_after_update_witness :
  option_map Provider.rating
    (fst (MemStorage.updateProvider "id-16" PartialProvider.none
            (snd (MemStorage.updateProvider "id-16" Examples.text_rating
                    Examples.mem_seeded))))
  = Some "abc".
Proof.
  destruct (update_after_update Examples.mem_seeded "id-16") as (_ & Hp & _).
  destruct (MemStorage.getProvider "id-16" Examples.mem_seeded) as [p|] eqn:E;
    [|vm_compute in E; discriminate].
  rewrite (Hp p Examples.text_rating PartialProvider.none eq_refl).
  reflexivity.
Defined.

Section Keyed.

Context {V : Type} (key : V -> string).
Implicit Types (m : JsMap.t V) (k : string) (v : V).

Lemma keyed_set m k v :
  Props.keyed key m -> key v = k -> Props.keyed key (JsMap.set m k v).
Proof.
  unfold Props.keyed, JsMap.set. intros Hm Hv.
  destruct (JsMap.has m k).
  - induction m as [|[k' v'] m IH]; simpl; [constructor|].
    inversion Hm as [|e l He Hl]; subst. constructor; [|apply IH, Hl].
    simpl in *. destruct (String.eqb_spec k' (key v)); congruence.
  - apply Forall_app. split; [exact Hm|]. repeat constructor. exact Hv.
Qed.

Lemma keyed_remove m k : Props.keyed key m -> Props.keyed key (JsMap.remove m k).
Proof.
  unfold Props.keyed, JsMap.remove. intros Hm.
  rewrite Forall_forall in *. intros e He.
  apply filter_In in He as [He _]. apply Hm, He.
Qed.

Lemma keyed_get m k v : Props.keyed key m -> JsMap.get m k = Some v -> key v = k.
Proof.
  unfold Props.keyed. intros Hm.
  induction m as [|[k' v'] m IH]; simpl; [discriminate|].
  inversion Hm as [|e l He Hl]; subst. simpl in He.
  destruct (String.eqb_spec k' k) as [->|Hk].
  - intros [= ->]. exact He.
  - apply IH, Hl.
Qed.

End Keyed.

Lemma ids_are_keys_createUser x :
  preserves Props.ids_are_keys (MemStorage.createUser x).
Proof.
  unfold MemStorage.createUser. run_create.
  intros s (H1 & H2 & H3 & H4 & H5 & H6); unfold Props.ids_are_keys; simpl.
  split_invariant; try assumption. apply keyed_set; [exact H1 | reflexivity].
Qed.

Lemma ids_are_keys_createServiceCategory x :
  preserves Props.ids_are_keys (MemStorage.createServiceCategory x).
Proof.
  unfold MemStorage.createServiceCategory. run_create.
  intros s (H1 & H2 & H3 & H4 & H5 & H6); unfold Props.ids_are_keys; simpl.
  split_invariant; try assumption. apply keyed_set; [exact H2 | reflexivity].
Qed.

Lemma ids_are_keys_createProvider x :
  preserves Props.ids_are_keys (MemStorage.createProvider x).
Proof.
  unfold MemStorage.createProvider. run_create.
  intros s (H1 & H2 & H3 & H4 & H5 & H6); unfold Props.ids_are_keys; simpl.
  split_invariant; try assumption. apply keyed_set; [exact H3 | reflexivity].
Qed.

Lemma ids_are_keys_createProviderCategory x :
  preserves Props.ids_are_keys (MemStorage.createProviderCategory x).
Proof.
  unfold MemStorage.createProviderCategory. run_create.
  intros s (H1 & H2 & H3 & H4 & H5 & H6); unfold Props.ids_are_keys; simpl.
  split_invariant; try assumption. apply keyed_set; [exact H4 | reflexivity].
Qed.

Lemma ids_are_keys_createBooking x :
  preserves Props.ids_are_keys (MemStorage.createBooking x).
Proof.
  unfold MemStorage.createBooking. run_create.
  intros s (H1 & H2 & H3 & H4 & H5 & H6); unfold Props.ids_are_keys; simpl.
  split_invariant; try assumption. apply keyed_set; [exact H5 | reflexivity].
Qed.

Lemma ids_are_keys_createReview x :
  preserves Props.ids_are_keys (MemStorage.createReview x).
Proof.
  unfold MemStorage.createReview. run_create.
  intros s (H1 & H2 & H3 & H4 & H5 & H6); unfold Props.ids_are_keys; simpl.
  split_invariant; try assumption. apply keyed_set; [exact H6 | reflexivity].
Qed.

Lemma ids_are_keys_updateUser id u s :
  PartialUser.id u = None -> Props.ids_are_keys s ->
  Props.ids_are_keys (snd (MemStorage.updateUser id u s)).
Proof.
  intros Hid H. unfold MemStorage.updateUser.
  destruct (JsMap.get (MemStorage.users s) id) as [r|] eqn:E; [|exact H].
  destruct H as (H1 & H2 & H3 & H4 & H5 & H6); unfold Props.ids_are_keys.
  simpl. split_invariant; try assumption.
  apply keyed_set; [exact H1|]. simpl. rewrite Hid. simpl.
  apply (keyed_get User.id _ _ _ H1 E).
Qed.

Lemma ids_are_keys_updateProvider id u s :
  PartialProvider.id u = None -> Props.ids_are_keys s ->
  Props.ids_are_keys (snd (MemStorage.updateProvider id u s)).
Proof.
  intros Hid H. unfold MemStorage.updateProvider.
  destruct (JsMap.get (MemStorage.providers s) id) as [r|] eqn:E; [|exact H].
  destruct H as (H1 & H2 & H3 & H4 & H5 & H6); unfold Props.ids_are_keys.
  simpl. split_invariant; try assumption.
  apply keyed_set; [exact H3|]. simpl. rewrite Hid. simpl.
  apply (keyed_get Provider.id _ _ _ H3 E).
Qed.

Lemma ids_are_keys_updateBooking id u s :
  PartialBooking.id u = None -> Props.ids_are_keys s ->
  Props.ids_are_keys (snd (MemStorage.updateBooking id u s)).
Proof.
  intros Hid H. unfold MemStorage.updateBooking.
  destruct (JsMap.get (MemStorage.bookings s) id) as [r|] eqn:E; [|exact H].
  destruct H as (H1 & H2 & H3 & H4 & H5 & H6); unfold Props.ids_are_keys.
  simpl. split_invariant; try assumption.
  apply keyed_set; [exact H5|]. simpl. rewrite Hid. simpl.
  apply (keyed_get Booking.id _ _ _ H5 E).
Qed.

Lemma ids_are_keys_updateReview id u s :
  PartialReview.id u = None -> Props.ids_are_keys s ->
  Props.ids_are_keys (snd (MemStorage.updateReview id u s)).
Proof.
  intros Hid H. unfold MemStorage.updateReview.
  destruct (JsMap.get (MemStorage.reviews s) id) as [r|] eqn:E; [|exact H].
  destruct H as (H1 & H2 & H3 & H4 & H5 & H6); unfold Props.ids_are_keys.
  simpl. split_invariant; try assumption.
  apply keyed_set; [exact H6|]. simpl. rewrite Hid. simpl.
  apply (keyed_get Review.id _ _ _ H6 E).
Qed.

Lemma ids_are_keys_deleteReview id s :
  Props.ids_are_keys s ->
  Props.ids_are_keys (snd (MemStorage.deleteReview id s)).
Proof.
  intros (H1 & H2 & H3 & H4 & H5 & H6); unfold Props.ids_are_keys.
  simpl. split_invariant; try assumption. apply keyed_remove, H6.
Qed.

Lemma ids_are_keys_empty : Props.ids_are_keys MemStorage.empty.
Proof. unfold Props.ids_are_keys; simpl. split_invariant; constructor. Qed.

Lemma ids_are_keys_seeded rt :
  Props.ids_are_keys (snd (MemStorage.seeded rt)).
Proof.
  unfold MemStorage.seeded.
  apply (mem_seed_preserves Props.ids_are_keys
           ids_are_keys_createUser ids_are_keys_createServiceCategory
           ids_are_keys_createProvider (rt, MemStorage.empty)).
  apply ids_are_keys_empty.
Qed.

(** X9.  In the in-memory store every record sits under its own identifier
    as long as no update carries an [id]: the empty store has the property;
    every creation, [deleteReview], the initializer and every update whose
    object has no [id] keep it.  In a store with the property, a getter by
    identifier answers only a record with the identifier asked for. *)
Theorem mem_ids_stay_keys :
  Props.ids_are_keys MemStorage.empty /\
  (forall x, preserves Props.ids_are_keys (MemStorage.createUser x)) /\
  (forall x,
     preserves Props.ids_are_keys (MemStorage.createServiceCategory x)) /\
  (forall x, preserves Props.ids_are_keys (MemStorage.createProvider x)) /\
  (forall x,
     preserves Props.ids_are_keys (MemStorage.createProviderCategory x)) /\
  (forall x, preserves Props.ids_are_keys (MemStorage.createBooking x)) /\
  (forall x, preserves Props.ids_are_keys (MemStorage.createReview x)) /\
  (forall id s,
     Props.ids_are_keys s ->
     (forall u, PartialUser.id u = None ->
        Props.ids_are_keys (snd (MemStorage.updateUser id u s))) /\
     (forall u, PartialProvider.id u = None ->
        Props.ids_are_keys (snd (MemStorage.updateProvider id u s))) /\
     (forall u, PartialBooking.id u = None ->
        Props.ids_are_keys (snd (MemStorage.updateBooking id u s))) /\
     (forall u, PartialReview.id u = None ->
        Props.ids_are_keys (snd (MemStorage.updateReview id u s))) /\
     Props.ids_are_keys (snd (MemStorage.deleteReview id s)) /\
     (forall u, MemStorage.getUser id s = Some u -> User.id u = id) /\
     (forall p, MemStorage.getProvider id s = Some p -> Provider.id p = id) /\
     (forall b, MemStorage.getBooking id s = Some b -> Booking.id b = id)) /\
  (forall rt, Props.ids_are_keys (snd (MemStorage.seeded rt))).
Proof.
  split; [exact ids_are_keys_empty|].
  split; [exact ids_are_keys_createUser|].
  split; [exact ids_are_keys_createServiceCategory|].
  split; [exact ids_are_keys_createProvider|].
  split; [exact ids_are_keys_createProviderCategory|].
  split; [exact ids_are_keys_createBooking|].
  split; [exact ids_are_keys_createReview|].
  split; [|exact ids_are_keys_seeded].
  intros id s H. split_invariant; intros.
  - now apply ids_are_keys_updateUser.
  - now apply ids_are_keys_updateProvider.
  - now apply ids_are_keys_updateBooking.
  - now apply ids_are_keys_updateReview.
  - now apply ids_are_keys_deleteReview.
  - destruct H as (H1 & _). eapply keyed_get; eassumption.
  - destruct H as (_ & _ & H3 & _). eapply keyed_get; eassumption.
  - destruct H as (_ & _ & _ & _ & H5 & _). eapply keyed_get; eassumption.
Qed.

(** X9 on the seeded store: the provider "id-16", updated with a
    rating, is still held under the identifier it carries. *)
Lemma mem_ids_stay_keys_witness :
  Props.ids_are_keys
    (snd (MemStorage.updateProvider "id-16" Examples.text_rating
                                    Examples.mem_seeded)).
Proof.
  destruct mem_ids_stay_keys as (_ & _ & _ & _ & _ & _ & _ & Hs & Hc).
  destruct (Hs "id-16" Examples.mem_seeded (Hc Examples.rt0))
    as (_ & Hp & _).
  apply Hp. reflexivity.
Defined.

(** * Deletion and listing of reviews *)

Lemma remove_appended {V : Type} (m : JsMap.t V) (k : string) (v : V) :
  JsMap.get m k = None -> JsMap.remove (m ++ [(k, v)])%list k = m.
Proof.
  intros H. unfold JsMap.remove. rewrite filter_app. simpl.
  rewrite String.eqb_refl. simpl. rewrite app_nil_r.
  apply (JsMapFacts.remove_absent m k H).
Qed.

Lemma filter_negb_absent {R : Type} (cond : R -> bool) (l : list R) :
  existsb cond l = false -> filter (fun r => negb (cond r)) l = l.
Proof.
  induction l as [|r l IH]; simpl; [reflexivity|].
  intros H. apply orb_false_iff in H as [Hr Hl]. rewrite Hr. simpl.
  f_equal. exact (IH Hl).
Qed.

(** X10.  [deleteReview] touches the reviews under the identifier and
    nothing else: in memory the other collections and every other key are
    as they were, and the store is returned as it was when the identifier
    is absent; a review created under a new identifier and deleted at once
    leaves the store (the table) as it was before the creation, the
    deletion answering [true]. *)
Theorem deleteReview_touches_one_review :
  (forall id s,
     let s' := snd (MemStorage.deleteReview id s) in
     Contract.only_reviews s s' /\
     (forall j, j <> id ->
        JsMap.get (MemStorage.reviews s') j
        = JsMap.get (MemStorage.reviews s) j) /\
     (JsMap.has (MemStorage.reviews s) id = false -> s' = s)) /\
  (forall review (w : Runtime * MemStorage.t),
     JsMap.has (MemStorage.reviews (snd w)) (Props.next_id w) = false ->
     let r := MemStorage.createReview review w in
     MemStorage.deleteReview (Review.id (fst r)) (snd (snd r))
     = (true, snd w)) /\
  (forall id db,
     let db' := snd (DbStorage.deleteReview id db) in
     DbStorage.with_reviews (DbStorage.reviews db) db' = db /\
     (forall r, In r (DbStorage.reviews db')
                <-> In r (DbStorage.reviews db) /\ Review.id r <> id)) /\
  (forall review (w : Runtime * DbStorage.Database),
     Contract.has_row Review.id (Props.next_id w) (DbStorage.reviews (snd w))
       = false ->
     let r := DbStorage.createReview review w in
     DbStorage.deleteReview (Review.id (fst r)) (snd (snd r))
     = (true, snd w)).
Proof.
  split; [|split; [|split]].
  - intros id [us cs ps pcs bs rs] s'. subst s'. simpl.
    split; [reflexivity|].
    split; [intros j Hj; apply JsMapFacts.get_remove_other, Hj|].
    intros H. apply JsMapFacts.has_false_get in H.
    unfold MemStorage.deleteReview, MemStorage.with_reviews; simpl.
    rewrite (JsMapFacts.remove_absent rs id H). reflexivity.
  - intros review [rt [us cs ps pcs bs rs]] Hnew r. subst r.
    unfold Props.next_id in Hnew. simpl in Hnew.
    apply JsMapFacts.has_false_get in Hnew.
    unfold MemStorage.deleteReview, MemStorage.createReview, bind, on_store;
      simpl.
    rewrite (set_fresh rs _ _ Hnew).
    unfold JsMap.has. rewrite JsMapFacts.get_app, Hnew. simpl.
    rewrite String.eqb_refl.
    unfold MemStorage.with_reviews; simpl.
    rewrite (remove_appended rs _ _ Hnew). reflexivity.
  - intros id [us cs ps pcs bs rs] db'. subst db'. simpl.
    split; [reflexivity|]. intros r. rewrite filter_In.
    unfold Drizzle.eq. rewrite negb_true_iff, String.eqb_neq. reflexivity.
  - intros review [rt [us cs ps pcs bs rs]] Hnew r. subst r.
    unfold Props.next_id, Contract.has_row in Hnew. simpl in Hnew.
    unfold DbStorage.deleteReview, DbStorage.createReview, bind, on_store;
      simpl.
    unfold Drizzle.insert, Drizzle.nonempty, Drizzle.eq.
    rewrite !filter_app. simpl. rewrite String.eqb_refl. simpl.
    rewrite app_nil_r.
    rewrite (filter_negb_absent _ rs Hnew).
    rewrite length_app. simpl.
    unfold DbStorage.with_reviews; simpl. f_equal.
    destruct (length (filter _ rs)); reflexivity.
Qed.

(** X10 on the store of the hidden review: deleting the review "id-00"
    created there gives back the empty store. *)
Lemma deleteReview_touches_one_review_witness :
  MemStorage.deleteReview "id-00" Examples.mem_hidden
  = (true, MemStorage.empty).
Proof.
  destruct deleteReview_touches_one_review as (_ & Hround & _).
  apply (Hround Examples.hidden_review (Examples.rt0, MemStorage.empty)).
  reflexivity.
Defined.

(** X11.  In the in-memory backend a review created under a new identifier
    adds itself at the end of the listing of its provider when it is
    visible ([isVisible] left out or [true]), and changes no listing
    otherwise. *)
Theorem createReview_extends_listing (review : InsertReview.t)
  (w : Runtime * MemStorage.t) (providerId : string) :
  JsMap.has (MemStorage.reviews (snd w)) (Props.next_id w) = false ->
  let r := MemStorage.createReview review w in
  MemStorage.getReviews providerId (snd (snd r))
  = (MemStorage.getReviews providerId (snd w)
     ++ if String.eqb (InsertReview.providerId review) providerId
           && (InsertReview.isVisible review ?? true)
        then [fst r] else [])%list.
Proof.
  destruct w as [rt [us cs ps pcs bs rs]]. intros Hnew r. subst r.
  unfold Props.next_id in Hnew. simpl in Hnew.
  unfold MemStorage.getReviews. simpl.
  rewrite (values_set_fresh rs _ _ Hnew), filter_app. reflexivity.
Qed.

(** X11 on the empty store: the hidden review is not listed, the same
    review created visible is. *)
Lemma createReview_extends_listing_witness :
  MemStorage.getReviews "p1" Examples.mem_hidden = [] /\
  length
    (MemStorage.getReviews "p1"
       (snd (snd (MemStorage.createReview
                    (InsertReview.mk "p1" "c1" "b1" 5%Z None None)
                    (Examples.rt0, MemStorage.empty))))) = 1.
Proof.
  split.
  - apply (createReview_extends_listing Examples.hidden_review
             (Examples.rt0, MemStorage.empty) "p1").
    reflexivity.
  - rewrite (createReview_extends_listing
               (InsertReview.mk "p1" "c1" "b1" 5%Z None None)
               (Examples.rt0, MemStorage.empty) "p1" eq_refl).
    reflexivity.
Defined.

(** * Links between providers and categories *)

(** X12.  A link created between a provider and a category adds itself at
    the end of the links listed for that provider and changes the links
    listed for no other provider; the pair is not compared with the links
    held, so the same pair created twice is listed twice.  In memory when
    the identifier handed out is new; in the relational backend always. *)
Theorem createProviderCategory_extends_listing
  (pc : InsertProviderCategory.t) (providerId : string) :
  (forall w : Runtime * MemStorage.t,
     JsMap.has (MemStorage.providerCategories (snd w)) (Props.next_id w)
       = false ->
     let r := MemStorage.createProviderCategory pc w in
     MemStorage.getProviderCategories providerId (snd (snd r))
     = (MemStorage.getProviderCategories providerId (snd w)
        ++ if String.eqb (InsertProviderCategory.providerId pc) providerId
           then [fst r] else [])%list) /\
  (forall w : Runtime * DbStorage.Database,
     let r := DbStorage.createProviderCategory pc w in
     DbStorage.getProviderCategories providerId (snd (snd r))
     = (DbStorage.getProviderCategories providerId (snd w)
        ++ if String.eqb (InsertProviderCategory.providerId pc) providerId
           then [fst r] else [])%list).
Proof.
  split.
  - intros [rt [us cs ps pcs bs rs]] Hnew r. subst r.
    unfold Props.next_id in Hnew. simpl in Hnew.
    unfold MemStorage.getProviderCategories. simpl.
    rewrite (values_set_fresh pcs _ _ Hnew), filter_app. reflexivity.
  - intros [rt [us cs ps pcs bs rs]] r. subst r.
    unfold DbStorage.getProviderCategories, Drizzle.where_,
      Drizzle.select_from. simpl. unfold Drizzle.insert.
    rewrite filter_app. reflexivity.
Qed.

(** X12 on the empty store: the pair ("p1", "c1") created twice is listed
    twice for "p1". *)
Lemma createProviderCategory_extends_listing_witness :
  let pc := InsertProviderCategory.mk "p1" "c1" in
  let w1 := snd (MemStorage.createProviderCategory
                   pc (Examples.rt0, MemStorage.empty)) in
  let w2 := snd (MemStorage.createProviderCategory pc w1) in
  map ProviderCategory.categoryId
      (MemStorage.getProviderCategories "p1" (snd w2)) = ["c1"; "c1"].
Proof.
  intros pc w1 w2.
  destruct (createProviderCategory_extends_listing pc "p1") as (Hmem & _).
  unfold w2. rewrite (Hmem w1); [|reflexivity].
  unfold w1. rewrite (Hmem (Examples.rt0, MemStorage.empty)); [|reflexivity].
  reflexivity.
Defined.

(** * The user summary is read at listing time *)

(** X13.  The in-memory listing of providers reads the users when it is
    called: after [updateUser] on a user that is present, the same
    providers are listed, every listed provider of that user carries the
    summary of the merged user, and every other listed provider carries
    what the store before the update gives it.  Whatever [toLowerCase]
    does. *)
Theorem listing_shows_updated_user (toLowerCase : string -> string)
  (s : MemStorage.t) (id : string)
  (updates : PartialUser.t) (user : User.t)
  (filters : option ProviderFilters.t) :
  MemStorage.getUser id s = Some user ->
  let s' := snd (MemStorage.updateUser id updates s) in
  map ProviderWithUser.provider
      (MemStorage.getProviders toLowerCase filters s')
  = map ProviderWithUser.provider
        (MemStorage.getProviders toLowerCase filters s) /\
  forall p, In p (MemStorage.getProviders toLowerCase filters s') ->
    ProviderWithUser.user p
    = if String.eqb (Provider.userId (ProviderWithUser.provider p)) id
      then Some (Contract.summary (merge_user user updates))
      else option_map Contract.summary
             (MemStorage.getUser
                (Provider.userId (ProviderWithUser.provider p)) s).
Proof.
  intros Hget s'.
  assert (Hs' : s' = MemStorage.with_users
                       (JsMap.set (MemStorage.users s) id
                                  (merge_user user updates)) s).
  { unfold s', MemStorage.updateUser. unfold MemStorage.getUser in Hget.
    rewrite Hget. reflexivity. }
  split.
  - rewrite !mem_getProviders_active.
    assert (Hmap : forall (st : MemStorage.t) l,
              map ProviderWithUser.provider
                (filter (fun p => Contract.satisfies_active
                                    toLowerCase filters
                                    (ProviderWithUser.provider p))
                        (map (MemStorage.with_user st) l))
              = filter (Contract.satisfies_active toLowerCase filters) l).
    { intros st l. induction l as [|x l IH]; simpl; [reflexivity|].
      destruct (Contract.satisfies_active toLowerCase filters x); simpl;
        [f_equal|]; exact IH. }
    rewrite !Hmap, Hs'. reflexivity.
  - intros p Hp. rewrite (mem_getProviders_user_summary _ _ _ _ Hp).
    rewrite Hs'. simpl. rewrite get_set.
    rewrite String.eqb_sym.
    destruct (String.eqb _ id); reflexivity.
Qed.

(** X13 on the seeded store, with the lowering of the letters A to Z:
    after the update of Mike's email the providers listed for "downtown"
    are those listed before. *)
Lemma listing_shows_updated_user_witness :
  let u := PartialUser.mk None (Some "mike@localfix.com") None None None
                          None None None in
  let filters := Some (ProviderFilters.mk None (Some "downtown") None) in
  map ProviderWithUser.provider
      (MemStorage.getProviders Examples.lower filters
         (snd (MemStorage.updateUser "id-14" u Examples.mem_seeded)))
  = map ProviderWithUser.provider
        (MemStorage.getProviders Examples.lower filters
                                 Examples.mem_seeded).
Proof.
  intros u filters.
  destruct (MemStorage.getUser "id-14" Examples.mem_seeded) as [user|] eqn:E;
    [|vm_compute in E; discriminate].
  exact (proj1 (listing_shows_updated_user Examples.lower Examples.mem_seeded
                  "id-14" u user filters E)).
Defined.

(** * Further properties of the relational backend *)

Lemma find_absent {R : Type} (key : R -> string) (id : string)
  (tbl : list R) :
  Contract.has_row key id tbl = false ->
  List.find (Drizzle.eq key id) tbl = None.
Proof.
  unfold Contract.has_row, Drizzle.eq.
  induction tbl as [|r tbl IH]; simpl; [reflexivity|].
  intros H. apply orb_false_iff in H as [Hr Htbl]. rewrite Hr.
  exact (IH Htbl).
Qed.

Lemma first_where_inserted {R : Type} (key : R -> string) (tbl : list R)
  (row : R) (id : string) :
  key row = id ->
  Contract.has_row key id tbl = false ->
  Drizzle.first (Drizzle.where_ (Drizzle.eq key id)
                                (Drizzle.insert tbl row)) = Some row.
Proof.
  intros Hid H. rewrite first_where_find. unfold Drizzle.insert.
  rewrite find_app, (find_absent key _ tbl H). simpl.
  unfold Drizzle.eq. rewrite Hid, String.eqb_refl. reflexivity.
Qed.

(** X14.  In the relational backend a row inserted under an identifier that
    no row of the table has is answered by the getter by identifier, for
    users, providers and bookings; and the getter answers the absent value
    for an identifier that no row has. *)
Theorem db_create_then_get (w : Runtime * DbStorage.Database) :
  (forall user,
     Contract.has_row User.id (Props.next_id w) (DbStorage.users (snd w))
       = false ->
     let r := DbStorage.createUser user w in
     DbStorage.getUser (User.id (fst r)) (snd (snd r)) = Some (fst r)) /\
  (forall provider,
     Contract.has_row Provider.id (Props.next_id w)
                      (DbStorage.providers (snd w)) = false ->
     let r := DbStorage.createProvider provider w in
     DbStorage.getProvider (Provider.id (fst r)) (snd (snd r))
     = Some (fst r)) /\
  (forall booking,
     Contract.has_row Booking.id (Props.next_id w)
                      (DbStorage.bookings (snd w)) = false ->
     let r := DbStorage.createBooking booking w in
     DbStorage.getBooking (Booking.id (fst r)) (snd (snd r))
     = Some (fst r)) /\
  (forall id,
     Contract.has_row User.id id (DbStorage.users (snd w)) = false ->
     DbStorage.getUser id (snd w) = None).
Proof.
  destruct w as [rt [us cs ps pcs bs rs]].
  split; [|split; [|split]].
  - intros user H r. subst r.
    apply (first_where_inserted User.id us); [reflexivity | exact H].
  - intros provider H r. subst r.
    apply (first_where_inserted Provider.id ps); [reflexivity | exact H].
  - intros booking H r. subst r.
    apply (first_where_inserted Booking.id bs); [reflexivity | exact H].
  - intros id H. unfold DbStorage.getUser. rewrite first_where_find.
    exact (find_absent User.id id us H).
Qed.

(** X14 on the seeded database: a booking created next is found under the
    identifier "id-26" it was given. *)
Lemma db_create_then_get_witness :
  let w := DbStorage.initializeSeedData (Examples.rt0, DbStorage.empty) in
  let b := InsertBooking.mk "id-14" "id-16" None None None None None in
  option_map Booking.status
    (DbStorage.getBooking "id-26"
       (snd (snd (DbStorage.createBooking b (snd w)))))
  = Some "pending".
Proof.
  intros w b.
  destruct (db_create_then_get (snd w)) as (_ & _ & Hb & _).
  change "id-26" with (Booking.id (fst (DbStorage.createBooking b (snd w)))).
  rewrite (Hb b); [reflexivity|].
  vm_compute. reflexivity.
Defined.

Lemma find_filter_negb {R : Type} (cond : R -> bool) (l : list R) :
  List.find cond (filter (fun r => negb (cond r)) l) = None.
Proof.
  induction l as [|r l IH]; simpl; [reflexivity|].
  destruct (cond r) eqn:E; simpl; [exact IH|]. rewrite E. exact IH.
Qed.

Lemma length_filter_split {R : Type} (cond : R -> bool) (l : list R) :
  length (filter (fun r => negb (cond r)) l) + length (filter cond l)
  = length l.
Proof.
  induction l as [|r l IH]; simpl; [reflexivity|].
  destruct (cond r); simpl; lia.
Qed.

(** An update by identifier that sets a column and leaves the identifier
    alone answers the merge of the first row found and is answered by the
    next lookup. *)
Lemma update_then_find {R : Type} (key : R -> string) (id : string)
  (set : R -> R) (tbl : list R) (row : R) :
  (forall r, key (set r) = key r) ->
  List.find (Drizzle.eq key id) tbl = Some row ->
  returning Drizzle.first
            (fst (Drizzle.update tbl false set (Drizzle.eq key id)))
    = Returned (Some (set row)) /\
  List.find (Drizzle.eq key id)
            (snd (Drizzle.update tbl false set (Drizzle.eq key id)))
    = Some (set row) /\
  length (snd (Drizzle.update tbl false set (Drizzle.eq key id)))
    = length tbl.
Proof.
  intros Hkey Hfind. unfold Drizzle.update. cbn [fst snd returning].
  assert (Hfirst : List.find (Drizzle.eq key id)
                     (map set (filter (Drizzle.eq key id) tbl))
                   = Some (set row) /\
                   Drizzle.first (map set (filter (Drizzle.eq key id) tbl))
                   = Some (set row)).
  { unfold Drizzle.first, Drizzle.eq in *.
    induction tbl as [|r tbl IH]; simpl in *; [discriminate|].
    destruct (String.eqb (key r) id) eqn:E; simpl.
    - injection Hfind as ->. rewrite Hkey, E. auto.
    - exact (IH Hfind). }
  destruct Hfirst as [H1 H2].
  split; [rewrite H2; reflexivity|]. split.
  - rewrite find_app, find_filter_negb. exact H1.
  - rewrite length_app, length_map. apply length_filter_split.
Qed.

(** X15.  In the relational backend an update that sets a column and
    carries no [id], under an identifier that some row has, returns the
    merge of the first such row, which the getter by identifier then
    answers; the number of rows stays.  For users, providers and
    bookings. *)
Theorem db_update_then_get (id : string) (db : DbStorage.Database) :
  (forall u row,
     u <> PartialUser.none ->
     PartialUser.id u = None ->
     DbStorage.getUser id db = Some row ->
     let r := DbStorage.updateUser id u db in
     fst r = Returned (Some (merge_user row u)) /\
     DbStorage.getUser id (snd r) = Some (merge_user row u) /\
     length (DbStorage.users (snd r)) = length (DbStorage.users db)) /\
  (forall u row,
     u <> PartialProvider.none ->
     PartialProvider.id u = None ->
     DbStorage.getProvider id db = Some row ->
     let r := DbStorage.updateProvider id u db in
     fst r = Returned (Some (merge_provider row u)) /\
     DbStorage.getProvider id (snd r) = Some (merge_provider row u) /\
     length (DbStorage.providers (snd r)) = length (DbStorage.providers db))
  /\
  (forall u row,
     u <> PartialBooking.none ->
     PartialBooking.id u = None ->
     DbStorage.getBooking id db = Some row ->
     let r := DbStorage.updateBooking id u db in
     fst r = Returned (Some (merge_booking row u)) /\
     DbStorage.getBooking id (snd r) = Some (merge_booking row u) /\
     length (DbStorage.bookings (snd r)) = length (DbStorage.bookings db)).
Proof.
  destruct db as [us cs ps pcs bs rs].
  split; [|split]; intros u row Hset Hid Hget r; subst r.
  - unfold DbStorage.getUser in *. rewrite first_where_find in *.
    simpl in Hget.
    assert (Hkey : forall x, User.id (merge_user x u) = User.id x)
      by (intros x; simpl; rewrite Hid; reflexivity).
    destruct (update_then_find User.id id _ us row Hkey Hget)
      as (H1 & H2 & H3).
    unfold DbStorage.updateUser. cbn [DbStorage.users].
    rewrite (PartialUser_sets u Hset).
    destruct (Drizzle.update us _ _ _) as [result tbl]. simpl in *.
    rewrite ?first_where_find. auto.
  - unfold DbStorage.getProvider in *. rewrite first_where_find in *.
    simpl in Hget.
    assert (Hkey : forall x, Provider.id (merge_provider x u) = Provider.id x)
      by (intros x; simpl; rewrite Hid; reflexivity).
    destruct (update_then_find Provider.id id _ ps row Hkey Hget)
      as (H1 & H2 & H3).
    unfold DbStorage.updateProvider. cbn [DbStorage.providers].
    rewrite (PartialProvider_sets u Hset).
    destruct (Drizzle.update ps _ _ _) as [result tbl]. simpl in *.
    rewrite ?first_where_find. auto.
  - unfold DbStorage.getBooking in *. rewrite first_where_find in *.
    simpl in Hget.
    assert (Hkey : forall x, Booking.id (merge_booking x u) = Booking.id x)
      by (intros x; simpl; rewrite Hid; reflexivity).
    destruct (update_then_find Booking.id id _ bs row Hkey Hget)
      as (H1 & H2 & H3).
    unfold DbStorage.updateBooking. cbn [DbStorage.bookings].
    rewrite (PartialBooking_sets u Hset).
    destruct (Drizzle.update bs _ _ _) as [result tbl]. simpl in *.
    rewrite ?first_where_find. auto.
Qed.

(** X15 on the seeded database: the provider "id-16" updated with the
    rating "abc" is read back with that rating. *)
Lemma db_update_then_get_witness :
  option_map Provider.rating
    (DbStorage.getProvider "id-16"
       (snd (DbStorage.updateProvider "id-16" Examples.text_rating
                                      Examples.db_seeded)))
  = Some "abc".
Proof.
  destruct (db_update_then_get "id-16" Examples.db_seeded) as (_ & Hp & _).
  destruct (DbStorage.getProvider "id-16" Examples.db_seeded) as [row|] eqn:E;
    [|vm_compute in E; discriminate].
  destruct (Hp Examples.text_rating row) as (_ & Hget & _);
    [discriminate | reflexivity | reflexivity |].
  rewrite Hget. reflexivity.
Defined.

(** * Seeding with identifiers that are pairwise distinct *)

Lemma get_cons_other {V : Type} (m : JsMap.t V) (k j : string) (v : V) :
  k <> j -> JsMap.get ((k, v) :: m) j = JsMap.get m j.
Proof.
  intros H. simpl. apply String.eqb_neq in H. rewrite H. reflexivity.
Qed.

(** Two identifiers handed out at different times differ. *)
Ltac distinct H :=
  let E := fresh in intros E; apply H in E; lia.

(** The key is not in the map built so far. *)
Ltac absent H :=
  repeat (rewrite JsMapFacts.get_set_other by distinct H);
  repeat (rewrite get_cons_other by distinct H);
  reflexivity.

(** No row built so far has the identifier. *)
Ltac no_row H :=
  cbn -[String.eqb];
  repeat rewrite (proj2 (String.eqb_neq _ _)) by distinct H;
  reflexivity.

(** X16.  When the runtime hands out pairwise distinct identifiers, the
    in-memory initializer, run to its end on the empty maps with no other
    call in between, leaves the eight categories, the four users and the
    three sample providers in the order of the initializer, each provider
    approved, linked to the user created just before it and to the one
    category of its trade. *)
Theorem mem_seed_with_distinct_ids (rt : Runtime) :
  Props.distinct_ids rt ->
  let s := snd (MemStorage.seeded rt) in
  map ServiceCategory.name (MemStorage.getServiceCategories s)
  = ["Electrical"; "Plumbing"; "Carpentry"; "HVAC"; "General Contracting";
     "Landscaping"; "Painting"; "Cleaning Services"] /\
  map (fun u => (User.email u, User.role u)) (MemStorage.getAllUsers s)
  = [("admin@localfix.com", RoleAdmin);
     ("mike@example.com", RoleProvider);
     ("sarah@example.com", RoleProvider);
     ("david@example.com", RoleProvider)] /\
  map (fun p => (Provider.specialty p, Provider.isApproved p))
      (JsMap.values (MemStorage.providers s))
  = [("Licensed Electrician", true); ("Master Plumber", true);
     ("Custom Carpenter", true)] /\
  map Provider.userId (JsMap.values (MemStorage.providers s))
  = map User.id (tl (MemStorage.getAllUsers s)) /\
  map Provider.categories (JsMap.values (MemStorage.providers s))
  = map (fun c => Some [ServiceCategory.id c])
        (firstn 3 (MemStorage.getServiceCategories s)).
Proof.
  intros H.
  unfold MemStorage.seeded, MemStorage.initializeSeedData.
  cbn -[String.eqb].
  repeat (rewrite set_fresh by absent H; cbn -[String.eqb]).
  cbn. repeat split.
Qed.

Lemma tally_injective (i j : nat) :
  Scenario.tally i = Scenario.tally j -> i = j.
Proof.
  revert j. induction i as [|i IH]; intros [|j]; simpl; try discriminate.
  - reflexivity.
  - intros [= E]. f_equal. exact (IH j E).
Qed.

Lemma rt1_distinct_ids : Props.distinct_ids Scenario.rt1.
Proof.
  intros i j E. simpl in E. injection E as E. exact (tally_injective i j E).
Qed.

(** X16 with the runtime of tallies: four users. *)
Lemma mem_seed_with_distinct_ids_witness :
  length (MemStorage.getAllUsers (snd (MemStorage.seeded Scenario.rt1)))
  = 4.
Proof.
  destruct (mem_seed_with_distinct_ids Scenario.rt1 rt1_distinct_ids)
    as (_ & Hu & _).
  rewrite <- (length_map (fun u => (User.email u, User.role u))), Hu.
  reflexivity.
Defined.

(** An update that sets a column of the row inserted last, and of no
    other. *)
Lemma update_appended {R : Type} (key : R -> string) (id : string)
  (set : R -> R) (tbl : list R) (row : R) :
  Contract.has_row key id tbl = false -> key row = id ->
  Drizzle.update (Drizzle.insert tbl row) false set (Drizzle.eq key id)
  = (Returned [set row], (tbl ++ [set row])%list).
Proof.
  intros H Hrow. unfold Drizzle.update, Drizzle.insert.
  rewrite !filter_app.
  destruct (filter_no_row key id tbl H) as [E1 E2]. rewrite E1, E2.
  simpl. unfold Drizzle.eq. rewrite Hrow, String.eqb_refl. simpl.
  rewrite app_nil_r. reflexivity.
Qed.

(** One round of the loop of the relational initializer, as an equation. *)
Lemma db_seed_provider_step (providerData : SampleProvider.t)
  (rt : Runtime) (db : DbStorage.Database) :
  Contract.has_row Provider.id (uuid_at rt (2 + tick rt))
                   (DbStorage.providers db) = false ->
  DbStorage.seed_provider providerData (rt, db)
  = (Returned tt,
     (Props.later 4 rt,
      DbStorage.with_providers
        (DbStorage.providers db
         ++ [Props.seeded_provider providerData
               (uuid_at rt (tick rt)) (uuid_at rt (2 + tick rt))
               (date_at rt (3 + tick rt))])%list
        (DbStorage.with_users
           (DbStorage.users db
            ++ [Props.seeded_user providerData (uuid_at rt (tick rt))
                                  (date_at rt (1 + tick rt))])%list
           db))).
Proof.
  intros H. destruct db as [us cs ps pcs bs rs]. simpl in H.
  unfold DbStorage.seed_provider, DbStorage.createUser,
    DbStorage.createProvider, bind, on_store, randomUUID, new_Date, ret.
  cbn [fst snd advance tick uuid_at date_at DbStorage.users
       DbStorage.providers DbStorage.with_users DbStorage.with_providers
       Provider.id User.id Schema.users Schema.providers].
  unfold DbStorage.updateProvider.
  cbn [fst snd DbStorage.providers DbStorage.with_providers DbStorage.users].
  change (PartialProvider.is_empty _) with false.
  erewrite (update_appended Provider.id _ _ ps _ H); reflexivity.
Qed.

(** X17.  One round of the relational initializer's loop, on a database in
    which no provider row has the identifier the new provider is given,
    returns, takes four answers of the runtime and appends one user row and
    one provider row: the provider is linked to that user and, through the
    update that follows its creation, carries the sample rating and review
    count; nothing else changes. *)
Theorem db_seed_provider_appends (providerData : SampleProvider.t)
  (w : Runtime * DbStorage.Database) :
  Contract.has_row Provider.id (uuid_at (fst w) (2 + tick (fst w)))
                   (DbStorage.providers (snd w)) = false ->
  let w' := snd (DbStorage.seed_provider providerData w) in
  let user := Props.seeded_user providerData (Props.next_id w)
                (date_at (fst w) (1 + tick (fst w))) in
  let provider := Props.seeded_provider providerData (User.id user)
                    (uuid_at (fst w) (2 + tick (fst w)))
                    (date_at (fst w) (3 + tick (fst w))) in
  fst (DbStorage.seed_provider providerData w) = Returned tt /\
  fst w' = Props.later 4 (fst w) /\
  DbStorage.users (snd w') = (DbStorage.users (snd w) ++ [user])%list /\
  DbStorage.providers (snd w')
  = (DbStorage.providers (snd w) ++ [provider])%list /\
  Provider.rating provider = SampleProvider.rating providerData /\
  Provider.reviewCount provider = SampleProvider.reviewCount providerData /\
  DbStorage.with_providers (DbStorage.providers (snd w))
    (DbStorage.with_users (DbStorage.users (snd w)) (snd w'))
  = snd w.
Proof.
  destruct w as [rt db]. intros H w' user provider. subst w'.
  cbn [fst snd] in *. rewrite (db_seed_provider_step providerData rt db H).
  destruct db as [us cs ps pcs bs rs]. repeat split.
Qed.

(** X17 on the empty database, with a tiler as sample provider. *)
Lemma db_seed_provider_appends_witness :
  let pd := SampleProvider.mk "mo@example.com" "h" "Mo" "Ike" RoleProvider
              "Tiler" "East" "Tiles" "50.00" true "4.2" 7%Z [] in
  map Contract.rated
      (DbStorage.providers
         (snd (snd (DbStorage.seed_provider
                      pd (Examples.rt0, DbStorage.empty)))))
  = [("Tiler", "4.2", 7%Z)].
Proof.
  intros pd.
  destruct (db_seed_provider_appends pd (Examples.rt0, DbStorage.empty))
    as (_ & _ & _ & Hp & _).
  - reflexivity.
  - rewrite Hp. reflexivity.
Defined.

(** X18.  When the runtime hands out pairwise distinct identifiers, the
    relational initializer run on the empty database leaves the three
    sample providers in order, each with its sample rating and review
    count, its business name, the user created just before it and the one
    category of its trade. *)
Theorem db_seed_with_distinct_ids (rt : Runtime) :
  Props.distinct_ids rt ->
  let db := snd (snd (DbStorage.initializeSeedData (rt, DbStorage.empty))) in
  map (fun p => (Contract.rated p, Provider.businessName p))
      (DbStorage.providers db)
  = [("Licensed Electrician", "4.9", 127%Z,
      Some "Mike's Licensed Electrician");
     ("Master Plumber", "4.8", 93%Z, Some "Sarah's Master Plumber");
     ("Master Carpenter", "5.0", 45%Z, Some "David's Master Carpenter")] /\
  map Provider.userId (DbStorage.providers db)
  = map User.id (tl (DbStorage.users db)) /\
  map Provider.categories (DbStorage.providers db)
  = map (fun c => Some [ServiceCategory.id c])
        (firstn 3 (DbStorage.serviceCategories db)).
Proof.
  intros H.
  unfold DbStorage.initializeSeedData.
  rewrite bind_this.
  lazy -[DbStorage.seed_provider].
  rewrite db_seed_provider_step by no_row H.
  lazy -[DbStorage.seed_provider].
  rewrite db_seed_provider_step by no_row H.
  lazy -[DbStorage.seed_provider].
  rewrite db_seed_provider_step by no_row H.
  lazy. repeat split.
Qed.

(** X18 with the runtime of tallies: the three ratings. *)
Lemma db_seed_with_distinct_ids_witness :
  map Provider.rating
      (DbStorage.providers
         (snd (snd (DbStorage.initializeSeedData
                      (Scenario.rt1, DbStorage.empty)))))
  = ["4.9"; "4.8"; "5.0"].
Proof.
  destruct (db_seed_with_distinct_ids Scenario.rt1 rt1_distinct_ids)
    as (Hr & _).
  apply (f_equal (map (fun x => snd (fst (fst x))))) in Hr.
  rewrite map_map in Hr. exact Hr.
Defined.

(** * Reviews that leave the listing *)

Section KeyedValues.

Context {V : Type} (key : V -> string).

Lemma values_remove_keyed (m : JsMap.t V) (id : string) :
  Props.keyed key m ->
  JsMap.values (JsMap.remove m id)
  = filter (fun v => negb (String.eqb (key v) id)) (JsMap.values m).
Proof.
  unfold Props.keyed, JsMap.values, JsMap.remove.
  induction m as [|[k v] m IH]; simpl; intros H; [reflexivity|].
  inversion H as [|e l He Hl]; subst. simpl in He. rewrite He.
  destruct (String.eqb k id); simpl; [|f_equal]; exact (IH Hl).
Qed.

Lemma values_set_keyed (m : JsMap.t V) (id : string) (v : V) :
  Props.keyed key m -> JsMap.has m id = true ->
  JsMap.values (JsMap.set m id v)
  = map (fun x => if String.eqb (key x) id then v else x) (JsMap.values m).
Proof.
  unfold JsMap.set. intros H Hhas. rewrite Hhas. clear Hhas.
  unfold Props.keyed, JsMap.values in *.
  induction m as [|[k x] m IH]; simpl; [reflexivity|].
  inversion H as [|e l He Hl]; subst. simpl in He. rewrite He.
  f_equal. exact (IH Hl).
Qed.

End KeyedValues.

Lemma In_get_some {V : Type} (m : JsMap.t V) (k : string) (v : V) :
  In (k, v) m -> JsMap.get m k <> None.
Proof.
  induction m as [|[k' v'] m IH]; simpl; [tauto|].
  intros [Hin|Hin].
  - injection Hin as -> ->. rewrite String.eqb_refl. discriminate.
  - destruct (String.eqb k' k); [discriminate | exact (IH Hin)].
Qed.

(** X19.  In an in-memory store where every review sits under its own
    identifier, the listing of a provider after [deleteReview] is the
    listing before it without the review of that identifier; and so is the
    listing after an [updateReview] that sets [isVisible] to [false],
    whatever else the update sets. *)
Theorem deleted_or_hidden_review_leaves_listing (s : MemStorage.t)
  (id providerId : string) :
  Props.ids_are_keys s ->
  MemStorage.getReviews providerId (snd (MemStorage.deleteReview id s))
  = filter (Props.other_review id) (MemStorage.getReviews providerId s) /\
  (forall updates,
     PartialReview.isVisible updates = Some false ->
     MemStorage.getReviews providerId
       (snd (MemStorage.updateReview id updates s))
     = filter (Props.other_review id)
              (MemStorage.getReviews providerId s)).
Proof.
  intros (_ & _ & _ & _ & _ & Hk). destruct s as [us cs ps pcs bs rs].
  simpl in Hk. unfold MemStorage.getReviews. split.
  - simpl. rewrite (values_remove_keyed Review.id rs id Hk).
    rewrite !filter_and. apply filter_ext. intros r.
    unfold Props.other_review. apply andb_comm.
  - intros updates Hvis. unfold MemStorage.updateReview. simpl.
    destruct (JsMap.get rs id) as [r0|] eqn:E; simpl.
    + rewrite (values_set_keyed Review.id rs id _ Hk)
        by (apply JsMapFacts.has_get; eauto).
      rewrite filter_and.
      induction (JsMap.values rs) as [|r l IH]; simpl; [reflexivity|].
      unfold Props.other_review at 1.
      destruct (String.eqb (Review.id r) id); simpl.
      * rewrite Hvis. simpl. rewrite andb_false_r. simpl.
        rewrite andb_false_r. exact IH.
      * rewrite andb_true_r.
        destruct (String.eqb (Review.providerId r) providerId
                  && Review.isVisible r); [f_equal|]; exact IH.
    + rewrite filter_and. apply filter_ext_in. intros r Hr.
      unfold Props.other_review.
      destruct (String.eqb_spec (Review.id r) id) as [Heq|Hne];
        [|rewrite andb_true_r; reflexivity].
      exfalso. unfold JsMap.values in Hr.
      apply in_map_iff in Hr as ([k v] & Hv & Hin). simpl in Hv. subst v.
      unfold Props.keyed in Hk. rewrite Forall_forall in Hk.
      pose proof (Hk _ Hin) as Hkey. simpl in Hkey.
      rewrite Heq in Hkey. subst k.
      exact (In_get_some rs id r Hin E).
Qed.

(** X19 on the empty store with one visible review: hidden by an update, it
    leaves the listing. *)
Lemma deleted_or_hidden_review_leaves_listing_witness :
  let s := snd (snd (MemStorage.createReview
                       (InsertReview.mk "p1" "c1" "b1" 5%Z None None)
                       (Examples.rt0, MemStorage.empty))) in
  let hide := PartialReview.mk None None None None None None None
                               (Some false) in
  MemStorage.getReviews "p1" (snd (MemStorage.updateReview "id-00" hide s))
  = [].
Proof.
  intros s hide.
  destruct (deleted_or_hidden_review_leaves_listing s "id-00" "p1")
    as (_ & Hhide).
  - apply (ids_are_keys_createReview _ (Examples.rt0, MemStorage.empty)).
    apply ids_are_keys_empty.
  - rewrite (Hhide hide eq_refl). reflexivity.
Defined.

(** * From a category to the listing of its provider *)

(** X20.  On the empty in-memory store, a category, a user and a provider
    of that user in that category created in this order give a store in
    which the listing filtered by the category's identifier is exactly this
    provider with the summary of this user, whatever the three inputs,
    whatever the runtime answers and whatever [toLowerCase] does. *)
Theorem onboarded_provider_is_listed (toLowerCase : string -> string)
  (rt : Runtime)
  (category : InsertServiceCategory.t) (insertUser : InsertUser.t)
  (provider : InsertProvider.t) :
  let r := Props.onboard category insertUser provider
             (rt, MemStorage.empty) in
  let cat := fst (fst (fst r)) in
  let user := snd (fst (fst r)) in
  let newProvider := snd (fst r) in
  MemStorage.getProviders toLowerCase
    (Some (ProviderFilters.mk (Some (ServiceCategory.id cat)) None None))
    (snd (snd r))
  = [ {| ProviderWithUser.provider := newProvider;
         ProviderWithUser.user := Some (Contract.summary user) |} ] /\
  Provider.userId newProvider = User.id user /\
  Provider.categories newProvider = Some [ServiceCategory.id cat].
Proof.
  intros r cat user newProvider.
  subst newProvider user cat r.
  split; [|split; reflexivity].
  rewrite mem_getProviders_active.
  unfold Props.onboard, MemStorage.createServiceCategory,
    MemStorage.createUser, MemStorage.createProvider, bind, on_store,
    randomUUID, new_Date, ret.
  unfold Contract.satisfies_active, Contract.active, Contract.in_categories.
  cbn -[String.eqb Js.truthy].
  destruct (Js.truthy (uuid_at rt (tick rt)));
    do 2 (cbn -[String.eqb]; rewrite ?String.eqb_refl);
    unfold MemStorage.with_user;
    do 2 (cbn -[String.eqb]; rewrite ?String.eqb_refl); reflexivity.
Qed.
